(** * AuthenX: evidence intake and status reconciliation

    A shallow embedding of the evidence pipeline of the AuthenX dashboards
    ([src/components/UserDashboard.tsx] in its two versions, and
    [src/components/BankAdminDashboard.tsx]).

    Conventions of the embedding.
    - A JavaScript [number] is an exact rational ([Q]); [Math.floor] is
      [Qfloor] and [Math.round] rounds half up.  Results that are stated at
      concrete inputs use inputs on which every intermediate value is a
      dyadic rational that binary64 holds exactly.
    - The remote store (tables [assets], [required_documents], [users] and
      the bucket [asset-images]) is a record of lists.  Every call to it
      consumes one entry of a schedule of outcomes: the call is carried out,
      answers with an error object, or throws.
    - A React component function closes over the state of the render it
      belongs to.  A handler therefore reads the state of that render (the
      section variable [snap]) all the way through, while every [setX] call
      goes to the state the next render will see. *)

From Stdlib Require Import String Ascii List ZArith QArith Qround Qabs Bool Lia Lqa.
From Stdlib Require Import RelationClasses.
From Stdlib Require Import DecimalString.
Import ListNotations.
Open Scope string_scope.
Open Scope Z_scope.

Set Implicit Arguments.

(* ====================================================================== *)
(** ** JavaScript numbers as rationals *)

Definition Math_floor (x : Q) : Z := Qfloor x.

(** [Math.round]: the nearest integer, ties towards plus infinity. *)
Definition Math_round (x : Q) : Z := Qfloor (x + (1 # 2)).

Definition Math_abs (x : Q) : Q := Qabs x.

(* ====================================================================== *)
(** ** EXIF / GPS helpers *)

Module Geotag.

(** A rational of the EXIF block: [[numerator, denominator]]. *)
Definition Rational : Type := (Z * Z)%type.

(** [degToRationalArray(deg)] *)
Definition degToRationalArray (deg : Q) : list Rational :=
  let d := Math_floor (Math_abs deg) in
  let mFloat := ((Math_abs deg - inject_Z d) * 60)%Q in
  let m := Math_floor mFloat in
  let s := Math_round ((mFloat - inject_Z m) * 60 * 100)%Q in
  [ (d, 1); (m, 1); (s, 100) ].

(** The GPS IFD, with the four tags the code writes and reads; a tag
    that is absent reads as [undefined]. *)
Record GpsIfd : Type := {
  GPSLatitudeRef : option string;
  GPSLatitude : option (list Rational);
  GPSLongitudeRef : option string;
  GPSLongitude : option (list Rational)
}.

(** [getGpsIfd(lat, lon)] *)
Definition getGpsIfd (lat lon : Q) : GpsIfd :=
  let latRef := if Qle_bool 0 lat then "N" else "S" in
  let lonRef := if Qle_bool 0 lon then "E" else "W" in
  {| GPSLatitudeRef := Some latRef;
     GPSLatitude := Some (degToRationalArray lat);
     GPSLongitudeRef := Some lonRef;
     GPSLongitude := Some (degToRationalArray lon) |}.

(** [arr[i][0]]: the numerator of the [i]-th rational; [None] stands for
    the [TypeError] of indexing [undefined]. *)
Definition numerator_at (arr : option (list Rational)) (i : nat) : option Q :=
  match arr with
  | Some l =>
      match nth_error l i with
      | Some (n, _) => Some (inject_Z n)
      | None => None
      end
  | None => None
  end.

(** [arr[0][0] + arr[1][0] / 60 + arr[2][0] / 3600], as the gallery and
    drag-and-drop handlers of the first dashboard compute it. *)
Definition toDecimalDegrees (arr : option (list Rational)) : option Q :=
  match numerator_at arr 0, numerator_at arr 1, numerator_at arr 2 with
  | Some a, Some b, Some c => Some (a + b / 60 + c / 3600)%Q
  | _, _, _ => None
  end.

(** [ref === letter ? -1 : 1] *)
Definition hemisphere_sign (ref : option string) (letter : string) : Q :=
  match ref with
  | Some r => if String.eqb r letter then -1 else 1
  | None => 1
  end.

(** The body of the [try] block of [handleGalleryUpload] and
    [handleDrop] that reads the coordinates of a loaded image: [None] is
    the outcome in which [lat] and [lon] stay [null] (no latitude tag, or
    an index that throws). *)
Definition extractGps (g : GpsIfd) : option (Q * Q) :=
  match GPSLatitude g with
  | None => None
  | Some _ =>
      match toDecimalDegrees (GPSLatitude g),
            toDecimalDegrees (GPSLongitude g) with
      | Some latDeg, Some lonDeg =>
          Some ((latDeg * hemisphere_sign (GPSLatitudeRef g) "S")%Q,
                (lonDeg * hemisphere_sign (GPSLongitudeRef g) "W")%Q)
      | _, _ => None
      end
  end.

(** Embedding followed by extraction; [piexif.dump], [piexif.insert] and
    [piexif.load] are taken to carry the GPS IFD through unchanged. *)
Definition roundTrip (lat lon : Q) : option (Q * Q) :=
  extractGps (getGpsIfd lat lon).

(** The inverse operation as the specification words it: each rational
    is read as numerator over denominator, and the result is
    degrees + minutes/60 + seconds/3600, negated for South and West. *)
Definition rational_value (r : Rational) : Q :=
  (inject_Z (fst r) / inject_Z (snd r))%Q.

Definition toDecimalDegrees_spec (arr : option (list Rational)) : option Q :=
  match arr with
  | Some [dg; mn; sc] =>
      Some (rational_value dg + rational_value mn / 60
            + rational_value sc / 3600)%Q
  | _ => None
  end.

Definition extractGps_spec (g : GpsIfd) : option (Q * Q) :=
  match toDecimalDegrees_spec (GPSLatitude g),
        toDecimalDegrees_spec (GPSLongitude g) with
  | Some latDeg, Some lonDeg =>
      Some ((latDeg * hemisphere_sign (GPSLatitudeRef g) "S")%Q,
            (lonDeg * hemisphere_sign (GPSLongitudeRef g) "W")%Q)
  | _, _ => None
  end.

End Geotag.

(* ====================================================================== *)
(** ** Values of a decoded JSON body *)

(** What [await res.json()] can hold, with [undefined] for a property that
    is not there. *)
#[warnings="-register-all"]
Inductive JSValue : Type :=
| JUndefined
| JNull
| JBool (b : bool)
| JNum (q : Q)
| JStr (s : string)
| JArr (items : list JSValue)
| JObj (fields : list (string * JSValue)).

Fixpoint lookup_field (k : string) (fields : list (string * JSValue)) : JSValue :=
  match fields with
  | [] => JUndefined
  | (k', v) :: rest => if String.eqb k k' then v else lookup_field k rest
  end.

(** [json.k] for the property names the dashboards read, none of which
    is a built-in property of a string, an array, a number or a boolean.
    [None] is the [TypeError] of reading a property of [null] or
    [undefined]. *)
Definition getProp (json : JSValue) (k : string) : option JSValue :=
  match json with
  | JUndefined | JNull => None
  | JObj fields => Some (lookup_field k fields)
  | _ => Some JUndefined
  end.

(** [!!v] *)
Definition truthy (v : JSValue) : bool :=
  match v with
  | JUndefined | JNull => false
  | JBool b => b
  | JNum q => negb (Qeq_bool q 0)
  | JStr s => negb (String.eqb s EmptyString)
  | JArr _ | JObj _ => true
  end.

(** [a || b] *)
Definition js_or (a b : JSValue) : JSValue := if truthy a then a else b.

(** [a ?? b] *)
Definition js_nullish (a b : JSValue) : JSValue :=
  match a with
  | JUndefined | JNull => b
  | _ => a
  end.

(** What the [fetch] of the verifier or of the geocoder comes to: the
    call throws, or a response arrives with a status and a body, where the
    body is [None] when [res.json()] rejects. *)
Inductive FetchOutcome : Type :=
| NetworkFault
| Response (status : Z) (body : option JSValue).

(** [res.ok] *)
Definition res_ok (status : Z) : bool := (200 <=? status) && (status <=? 299).

Record VerificationResult : Type := {
  is_real : bool;
  authenticity_score : JSValue;
  reason : JSValue
}.

Module Verifier.

(** [verifyImage(imageUrl)] of the first dashboard: the request is sent
    and [reply] is what comes back. *)
Definition verifyImage (reply : FetchOutcome) : VerificationResult :=
  let network_error :=
    {| is_real := false; authenticity_score := JNum 0;
       reason := JStr "network-error" |} in
  match reply with
  | NetworkFault => network_error
  | Response status body =>
      if negb (res_ok status) then
        {| is_real := false; authenticity_score := JNum 0;
           reason := JStr "verify-failed" |}
      else
        match body with
        | None => network_error
        | Some json =>
            match getProp json "is_real", getProp json "valid",
                  getProp json "authenticity_score", getProp json "score",
                  getProp json "reason", getProp json "message" with
            | Some j_is_real, Some j_valid, Some j_auth, Some j_score,
              Some j_reason, Some j_message =>
                let is_real :=
                  match j_is_real with
                  | JBool b => b
                  | _ => truthy j_valid
                  end in
                let score :=
                  match j_auth with
                  | JNum _ => j_auth
                  | _ => js_nullish j_score (JNum 0)
                  end in
                let reason := js_or (js_or j_reason j_message) (JStr EmptyString) in
                {| is_real := is_real; authenticity_score := score;
                   reason := reason |}
            | _, _, _, _, _, _ => network_error
            end
        end
  end.

(** The decoding inside [uploadImageToSupabase] of the second dashboard
    (verify before storing), for a response that is [ok].  [None] is a
    thrown exception, which the [catch] of the upload takes. *)
Definition decodeStrict (body : option JSValue) : option VerificationResult :=
  match body with
  | None => None
  | Some verifyJson =>
      match getProp verifyJson "is_real",
            getProp verifyJson "authenticity_score",
            getProp verifyJson "message" with
      | Some j_is_real, Some j_auth, Some j_message =>
          let is_real :=
            match j_is_real with
            | JBool true => true
            | _ => false
            end in
          Some {| is_real := is_real;
                  authenticity_score := js_nullish j_auth (JNum 0);
                  reason := js_nullish j_message (JStr "Rejected") |}
      | _, _, _ => None
      end
  end.

End Verifier.

(* ====================================================================== *)
(** ** Records of the remote store *)

(** [status: "pending" | "non-verified" | "authenticated"] *)
Inductive Status : Type := NonVerified | Pending | Authenticated.

Definition Status_eqb (a b : Status) : bool :=
  match a, b with
  | NonVerified, NonVerified | Pending, Pending
  | Authenticated, Authenticated => true
  | _, _ => false
  end.

(** An instant of the clock; a timestamp column holds the ISO rendering of
    one, which is in bijection with it. *)
Definition Instant : Type := Z.

(** The bytes of an image. *)
Definition Blob : Type := string.

Module Asset.
Record t : Type := {
  id : string;
  asset_name : string;
  status : Status;
  issued_date : option string;
  user_id : option string;
  image_url : option string;
  latitude : option Q;
  longitude : option Q;
  location_address : option string;
  created_at : Instant;
  verified_at : option string
}.

(** [update({ status })] on one row. *)
Definition with_status (st : Status) (a : t) : t :=
  {| id := id a; asset_name := asset_name a; status := st;
     issued_date := issued_date a; user_id := user_id a;
     image_url := image_url a; latitude := latitude a;
     longitude := longitude a; location_address := location_address a;
     created_at := created_at a; verified_at := verified_at a |}.

(** [update({ image_url, latitude, longitude, location_address })] on
    one row. *)
Definition with_preview (url : option string) (lat lon : option Q)
    (addr : option string) (a : t) : t :=
  {| id := id a; asset_name := asset_name a; status := status a;
     issued_date := issued_date a; user_id := user_id a;
     image_url := url; latitude := lat;
     longitude := lon; location_address := addr;
     created_at := created_at a; verified_at := verified_at a |}.
End Asset.

(** A row of [required_documents]. *)
Module DocRow.
Record t : Type := {
  id : string;
  asset_id : string;
  document_name : string;
  is_uploaded : bool;
  uploaded_at : option Instant
}.

(** [update({ is_uploaded, uploaded_at })] on one row. *)
Definition with_upload (v : bool) (at_ : option Instant) (r : t) : t :=
  {| id := id r; asset_id := asset_id r; document_name := document_name r;
     is_uploaded := v; uploaded_at := at_ |}.
End DocRow.

(** [interface RequiredDoc]: the columns the dashboard selects. *)
Module RequiredDoc.
Record t : Type := {
  id : string;
  document_name : string;
  is_uploaded : bool;
  uploaded_at : option Instant
}.

Definition of_row (r : DocRow.t) : t :=
  {| id := DocRow.id r; document_name := DocRow.document_name r;
     is_uploaded := DocRow.is_uploaded r;
     uploaded_at := DocRow.uploaded_at r |}.

Definition with_upload (v : bool) (at_ : option Instant) (d : t) : t :=
  {| id := id d; document_name := document_name d;
     is_uploaded := v; uploaded_at := at_ |}.
End RequiredDoc.

Module User.
Record t : Type := {
  id : string;
  name : string;
  phone : string;
  role : string
}.
End User.

(** The remote store: three tables and the bucket [asset-images], the
    latter as the list of its objects, path and content. *)
Record Backend : Type := {
  assets : list Asset.t;
  required_documents : list DocRow.t;
  users : list User.t;
  bucket : list (string * Blob)
}.

(* ---------------------------------------------------------------------- *)
(** *** Ordering of query results *)

Section Sorting.
Variable A : Type.
Variable le : A -> A -> bool.

Fixpoint insert_by (x : A) (l : list A) : list A :=
  match l with
  | [] => [x]
  | y :: rest => if le x y then x :: l else y :: insert_by x rest
  end.

Fixpoint order_by (l : list A) : list A :=
  match l with
  | [] => []
  | x :: rest => insert_by x (order_by rest)
  end.
End Sorting.

(* ---------------------------------------------------------------------- *)
(** *** Queries and updates, as functions on the store *)

(** The answer of the store to a call that went through: rows, or an
    error object. *)
Inductive Reply (A : Type) : Type :=
| Data (a : A)
| Error.
Arguments Error {A}.

Definition option_string_eqb (o : option string) (s : string) : bool :=
  match o with
  | Some x => String.eqb x s
  | None => false
  end.

Module Store.

(** [from("required_documents").select(...).eq("asset_id", assetId)
     .order("id", { ascending: true })] *)
Definition select_required_documents (assetId : string) (b : Backend)
  : Reply (list RequiredDoc.t) * Backend :=
  (Data (map RequiredDoc.of_row
           (order_by (fun x y => String.leb (DocRow.id x) (DocRow.id y))
              (filter (fun r => String.eqb (DocRow.asset_id r) assetId)
                 (required_documents b)))),
   b).

(** [from("required_documents").update({ is_uploaded, uploaded_at })
     .eq("id", docId)] *)
Definition update_required_document (docId : string) (v : bool)
    (at_ : option Instant) (b : Backend) : Reply unit * Backend :=
  (Data tt,
   {| assets := assets b;
      required_documents :=
        map (fun r => if String.eqb (DocRow.id r) docId
                      then DocRow.with_upload v at_ r else r)
            (required_documents b);
      users := users b;
      bucket := bucket b |}).

(** [from("assets").select("*").eq("user_id", userId)
     .order("created_at", { ascending: false })] *)
Definition select_assets_of_user (userId : string) (b : Backend)
  : Reply (list Asset.t) * Backend :=
  (Data (order_by (fun x y => Asset.created_at y <=? Asset.created_at x)
           (filter (fun a => option_string_eqb (Asset.user_id a) userId)
              (assets b))),
   b).

(** [from("users").select("*")
     .or(`phone.eq.${phone},phone.eq.${formattedPhone}`).single()], for
    numbers without the reserved characters of the filter syntax: the row
    when there is exactly one, otherwise an error. *)
Definition select_user_by_phone (phone formattedPhone : string) (b : Backend)
  : Reply User.t * Backend :=
  match filter (fun u => String.eqb (User.phone u) phone
                         || String.eqb (User.phone u) formattedPhone) (users b) with
  | [u] => (Data u, b)
  | _ => (Error, b)
  end.

Definition update_assets (f : Asset.t -> Asset.t) (assetId : string)
    (b : Backend) : Backend :=
  {| assets := map (fun a => if String.eqb (Asset.id a) assetId
                             then f a else a) (assets b);
     required_documents := required_documents b;
     users := users b;
     bucket := bucket b |}.

(** [from("assets").update({ status }).eq("id", assetId)] *)
Definition update_asset_status (assetId : string) (st : Status)
    (b : Backend) : Reply unit * Backend :=
  (Data tt, update_assets (Asset.with_status st) assetId b).

(** [from("assets").update({ image_url, latitude, longitude,
     location_address }).eq("id", assetId)] *)
Definition update_asset_preview (assetId : string) (url : option string)
    (lat lon : option Q) (addr : option string) (b : Backend)
  : Reply unit * Backend :=
  (Data tt, update_assets (Asset.with_preview url lat lon addr) assetId b).

(** The part of [s] after the prefix [p], when [s] starts with [p]. *)
Fixpoint strip_prefix (p s : string) : option string :=
  match p, s with
  | EmptyString, _ => Some s
  | String a p', String c s' =>
      if Ascii.eqb a c then strip_prefix p' s' else None
  | String _ _, EmptyString => None
  end.

(** [storage.from("asset-images").list(folder)]: the names of the
    objects under the folder. *)
Definition storage_list (folder : string) (b : Backend)
  : Reply (list string) * Backend :=
  (Data (flat_map (fun o => match strip_prefix folder (fst o) with
                            | Some name => [name]
                            | None => []
                            end) (bucket b)),
   b).

Definition stored (path : string) (b : Backend) : bool :=
  existsb (fun o => String.eqb (fst o) path) (bucket b).

Definition with_bucket (objs : list (string * Blob)) (b : Backend) : Backend :=
  {| assets := assets b; required_documents := required_documents b;
     users := users b; bucket := objs |}.

(** [storage.from("asset-images").remove([path])] *)
Definition storage_remove (path : string) (b : Backend)
  : Reply unit * Backend :=
  (Data tt,
   with_bucket (filter (fun o => negb (String.eqb (fst o) path)) (bucket b)) b).

(** [storage.from("asset-images").upload(path, blob, { upsert })]: with
    [upsert: false] an object already at the path is an error. *)
Definition storage_upload (path : string) (blob : Blob) (upsert : bool)
    (b : Backend) : Reply unit * Backend :=
  if stored path b then
    if upsert then
      (Data tt,
       with_bucket (map (fun o => if String.eqb (fst o) path
                                  then (path, blob) else o) (bucket b)) b)
    else (Error, b)
  else (Data tt, with_bucket (bucket b ++ [(path, blob)]) b).

End Store.

(* ====================================================================== *)
(** ** Handlers as state transformers *)

(** How a call to the store ends: it is carried out, it answers with an
    error object and changes nothing, or the client throws and changes
    nothing. *)
Inductive Outcome : Type := Done | Failed | Thrown.

(** The state a handler runs in: the store, the outcomes of the calls to
    come (once the list is used up every call is carried out), the clock
    readings to come, and the component state of the next render. *)
Record State (UI : Type) : Type := {
  store : Backend;
  schedule : list Outcome;
  clock : nat -> Instant;
  ui : UI
}.

(** A computation; [None] is an exception on its way up. *)
Definition M (UI A : Type) : Type := State UI -> option A * State UI.

Section Monad.
Variable UI : Type.

Definition ret {A} (a : A) : M UI A := fun s => (Some a, s).

Definition bind {A B} (m : M UI A) (f : A -> M UI B) : M UI B :=
  fun s => match m s with
           | (Some a, s') => f a s'
           | (None, s') => (None, s')
           end.

Definition throw {A} : M UI A := fun s => (None, s).

(** [try { m } catch { h }] *)
Definition try_catch {A} (m h : M UI A) : M UI A :=
  fun s => match m s with
           | (Some a, s') => (Some a, s')
           | (None, s') => h s'
           end.

(** A [setX] call: an update of the state of the next render. *)
Definition set_state (f : UI -> UI) : M UI unit :=
  fun s => (Some tt, {| store := store s; schedule := schedule s;
                        clock := clock s; ui := f (ui s) |}).

(** [new Date()] / [Date.now()] *)
Definition Date_now : M UI Instant :=
  fun s => (Some (clock s 0%nat),
            {| store := store s; schedule := schedule s;
               clock := fun n => clock s (S n); ui := ui s |}).

(** An awaited call to the store. *)
Definition remote {A} (f : Backend -> Reply A * Backend) : M UI (Reply A) :=
  fun s =>
    let rest := tl (schedule s) in
    match hd Done (schedule s) with
    | Done =>
        let (r, b') := f (store s) in
        (Some r, {| store := b'; schedule := rest;
                    clock := clock s; ui := ui s |})
    | Failed =>
        (Some Error, {| store := store s; schedule := rest;
                        clock := clock s; ui := ui s |})
    | Thrown =>
        (None, {| store := store s; schedule := rest;
                  clock := clock s; ui := ui s |})
    end.

(** [data || []] *)
Definition rows_or_empty {A} (r : Reply (list A)) : list A :=
  match r with
  | Data l => l
  | Error => []
  end.

Definition exec {A} (m : M UI A) (s : State UI) : State UI := snd (m s).
End Monad.

Arguments ret {UI A} a.
Arguments bind {UI A B} m f.
Arguments throw {UI A}.
Arguments try_catch {UI A} m h.
Arguments set_state {UI} f.
Arguments Date_now {UI}.
Arguments remote {UI A} f.
Arguments exec {UI A} m s.

Declare Scope handler_scope.
Delimit Scope handler_scope with handler.
Notation "x <- m ;; k" := (bind m (fun x => k))
  (at level 61, m at next level, right associativity) : handler_scope.
Notation "m ;; k" := (bind m (fun _ => k))
  (at level 61, right associativity) : handler_scope.

(* ====================================================================== *)
(** ** Strings: [split] *)

(** [s.split(sep)] cut at the first occurrence of a non-empty [sep]:
    what comes before it and what comes after, or [None] when [sep] does
    not occur. *)
Fixpoint cut_at_first (sep s : string) : option (string * string) :=
  match Store.strip_prefix sep s with
  | Some rest => Some (EmptyString, rest)
  | None =>
      match s with
      | EmptyString => None
      | String c s' =>
          match cut_at_first sep s' with
          | Some (before, rest) => Some (String c before, rest)
          | None => None
          end
      end
  end.

(** [s.split(sep)[0]] *)
Definition split_0 (sep s : string) : string :=
  match cut_at_first sep s with
  | Some (before, _) => before
  | None => s
  end.

(** [s.split(sep)[1]], or [None] when the array has fewer than two
    parts. *)
Definition split_1 (sep s : string) : option string :=
  match cut_at_first sep s with
  | Some (_, rest) => Some (split_0 sep rest)
  | None => None
  end.

Definition string_of_instant (t : Instant) : string :=
  NilZero.string_of_int (Z.to_int t).

(* ====================================================================== *)
(** ** Strings: [trim] *)

(** The white space that [trim] removes, as far as a character of one byte
    goes: tab, line feed, vertical tab, form feed, carriage return and
    space.  On a string of ASCII characters this is [trim] itself. *)
Definition isSpace (c : ascii) : bool :=
  ((9 <=? nat_of_ascii c)%nat && (nat_of_ascii c <=? 13)%nat)
  || (nat_of_ascii c =? 32)%nat.

Fixpoint trimStart (s : string) : string :=
  match s with
  | EmptyString => EmptyString
  | String c rest => if isSpace c then trimStart rest else s
  end.

Fixpoint trimEnd (s : string) : string :=
  match s with
  | EmptyString => EmptyString
  | String c rest =>
      match trimEnd rest with
      | EmptyString => if isSpace c then EmptyString else String c EmptyString
      | kept => String c kept
      end
  end.

(** [s.trim()] *)
Definition trim (s : string) : string := trimEnd (trimStart s).

(** [s.startsWith("+")] *)
Definition startsWithPlus (s : string) : bool :=
  match s with
  | String c _ => Ascii.eqb c "+"
  | EmptyString => false
  end.

(** [phone.startsWith("+") ? phone : "+91" + phone], of the mount effect
    of [UserDashboard]. *)
Definition formattedPhone (phone : string) : string :=
  if startsWithPlus phone then phone else "+91" ++ phone.

(* ====================================================================== *)
(** ** The beneficiary's dashboard *)

(** The state of the component [UserDashboard] (both versions declare the
    same state; progress display, camera and alerts are left out). *)
Record Dashboard : Type := {
  user : option User.t;
  assetList : list Asset.t;            (* [assets] *)
  selectedAsset : option Asset.t;
  assetImages : list string;
  currentImageIndex : nat;
  processing : bool;
  showUploadDialog : bool;
  requiredDocs : list RequiredDoc.t
}.

Definition setUser (v : option User.t) (d : Dashboard) : Dashboard :=
  {| user := v; assetList := assetList d; selectedAsset := selectedAsset d;
     assetImages := assetImages d; currentImageIndex := currentImageIndex d;
     processing := processing d; showUploadDialog := showUploadDialog d;
     requiredDocs := requiredDocs d |}.

Definition setAssets (v : list Asset.t) (d : Dashboard) : Dashboard :=
  {| user := user d; assetList := v; selectedAsset := selectedAsset d;
     assetImages := assetImages d; currentImageIndex := currentImageIndex d;
     processing := processing d; showUploadDialog := showUploadDialog d;
     requiredDocs := requiredDocs d |}.

Definition setSelectedAsset (v : option Asset.t) (d : Dashboard) : Dashboard :=
  {| user := user d; assetList := assetList d; selectedAsset := v;
     assetImages := assetImages d; currentImageIndex := currentImageIndex d;
     processing := processing d; showUploadDialog := showUploadDialog d;
     requiredDocs := requiredDocs d |}.

Definition setAssetImages (v : list string) (d : Dashboard) : Dashboard :=
  {| user := user d; assetList := assetList d; selectedAsset := selectedAsset d;
     assetImages := v; currentImageIndex := currentImageIndex d;
     processing := processing d; showUploadDialog := showUploadDialog d;
     requiredDocs := requiredDocs d |}.

Definition setCurrentImageIndex (v : nat) (d : Dashboard) : Dashboard :=
  {| user := user d; assetList := assetList d; selectedAsset := selectedAsset d;
     assetImages := assetImages d; currentImageIndex := v;
     processing := processing d; showUploadDialog := showUploadDialog d;
     requiredDocs := requiredDocs d |}.

(** [setCurrentImageIndex], with an updater function. *)
Definition mapCurrentImageIndex (f : nat -> nat) (d : Dashboard) : Dashboard :=
  {| user := user d; assetList := assetList d; selectedAsset := selectedAsset d;
     assetImages := assetImages d; currentImageIndex := f (currentImageIndex d);
     processing := processing d; showUploadDialog := showUploadDialog d;
     requiredDocs := requiredDocs d |}.

Definition setProcessing (v : bool) (d : Dashboard) : Dashboard :=
  {| user := user d; assetList := assetList d; selectedAsset := selectedAsset d;
     assetImages := assetImages d; currentImageIndex := currentImageIndex d;
     processing := v; showUploadDialog := showUploadDialog d;
     requiredDocs := requiredDocs d |}.

Definition setShowUploadDialog (v : bool) (d : Dashboard) : Dashboard :=
  {| user := user d; assetList := assetList d; selectedAsset := selectedAsset d;
     assetImages := assetImages d; currentImageIndex := currentImageIndex d;
     processing := processing d; showUploadDialog := v;
     requiredDocs := requiredDocs d |}.

(** [setRequiredDocs], with a value or with an updater function. *)
Definition mapRequiredDocs (f : list RequiredDoc.t -> list RequiredDoc.t)
    (d : Dashboard) : Dashboard :=
  {| user := user d; assetList := assetList d; selectedAsset := selectedAsset d;
     assetImages := assetImages d; currentImageIndex := currentImageIndex d;
     processing := processing d; showUploadDialog := showUploadDialog d;
     requiredDocs := f (requiredDocs d) |}.

Definition setRequiredDocs (v : list RequiredDoc.t) : Dashboard -> Dashboard :=
  mapRequiredDocs (fun _ => v).

(** [(prev - 1 + n) % n] and [(prev + 1) % n], the updaters of the image
    carousels, for a list of [n] images; [%] is the remainder of the
    truncating division.  The buttons that call them are rendered only when
    the list holds more than one image; for an empty list the source
    computes [NaN], which an index of this model cannot hold. *)
Definition prevIndex (n prev : nat) : nat :=
  Z.to_nat (Z.rem (Z.of_nat prev - 1 + Z.of_nat n) (Z.of_nat n)).

Definition nextIndex (n prev : nat) : nat :=
  Z.to_nat (Z.rem (Z.of_nat prev + 1) (Z.of_nat n)).

(** What the reverse geocoder answers: the call fails, or a reply arrives
    whose [display_name] is a string or is missing. *)
Inductive GeocodeOutcome : Type :=
| GeocodeFault
| GeocodeReply (display_name : option string).

(** [getAddressFromCoords(lat, lon)] *)
Definition getAddressFromCoords (reply : GeocodeOutcome) : string :=
  match reply with
  | GeocodeReply (Some display_name) =>
      if String.eqb display_name EmptyString then "Unknown Location" else display_name
  | GeocodeReply None => "Unknown Location"
  | GeocodeFault => "Unknown Location"
  end.

(** The condition both versions of [checkAndSetPendingStatus] compute
    from the [requiredDocs] and [assetImages] of their render. *)
Definition pendingCondition (docs : list RequiredDoc.t) (images : list string) : bool :=
  let allUploaded :=
    if (0 <? length docs)%nat then forallb RequiredDoc.is_uploaded docs
    else false in
  let enoughImages := (length docs <=? length images)%nat in
  allUploaded && enoughImages.

Section Urls.
(** [import.meta.env.VITE_SUPABASE_URL] *)
Variable SUPABASE_URL : string.

Definition publicUrl (path : string) : string :=
  SUPABASE_URL ++ "/storage/v1/object/public/asset-images/" ++ path.
End Urls.

Local Open Scope handler_scope.

(* ---------------------------------------------------------------------- *)
(** *** First version: store, then verify, then delete if rejected *)

Module StoreThenVerify.
Section Render.
Variable SUPABASE_URL : string.
(** The state of the render the handlers belong to. *)
Variable snap : Dashboard.

Definition H : Type -> Type := M Dashboard.

(** [fetchRequiredDocuments(assetId)] *)
Definition fetchRequiredDocuments (assetId : string) : H unit :=
  try_catch
    (r <- remote (Store.select_required_documents assetId) ;;
     match r with
     | Error => set_state (setRequiredDocs [])
     | Data data => set_state (setRequiredDocs data)
     end)
    (set_state (setRequiredDocs [])).

(** [fetchAssetImages(assetId)] *)
Definition fetchAssetImages (assetId : string) : H unit :=
  try_catch
    (r <- remote (Store.storage_list (assetId ++ "/")) ;;
     match r with
     | Error => set_state (setAssetImages [])
     | Data files =>
         set_state (setAssetImages
                      (map (fun name => publicUrl SUPABASE_URL (assetId ++ "/" ++ name))
                           files)) ;;
         set_state (setCurrentImageIndex 0)
     end)
    (set_state (setAssetImages [])).

(** The refresh of the asset list that follows several updates:
    [if (user) { ... setAssets(refreshed || []) }]. *)
Definition refreshAssets : H unit :=
  match user snap with
  | Some u =>
      r <- remote (Store.select_assets_of_user (User.id u)) ;;
      set_state (setAssets (rows_or_empty r))
  | None => ret tt
  end.

(** [checkAndSetPendingStatus()] *)
Definition checkAndSetPendingStatus : H unit :=
  match selectedAsset snap with
  | None => ret tt
  | Some sel =>
      fetchRequiredDocuments (Asset.id sel) ;;
      fetchAssetImages (Asset.id sel) ;;
      let docsFromState := requiredDocs snap in
      if pendingCondition docsFromState (assetImages snap) then
        try_catch
          (r <- remote (Store.update_asset_status (Asset.id sel) Pending) ;;
           match r with
           | Error => ret tt
           | Data _ => refreshAssets
           end)
          (ret tt)
      else ret tt
  end.

(** [handleDocumentCheck(docId, newValue)] *)
Definition handleDocumentCheck (docId : string) (newValue : bool) : H unit :=
  try_catch
    (now <- Date_now ;;
     r <- remote (Store.update_required_document docId newValue
                    (if newValue then Some now else None)) ;;
     match r with
     | Error => throw
     | Data _ =>
         now' <- Date_now ;;
         set_state
           (mapRequiredDocs
              (map (fun d => if String.eqb (RequiredDoc.id d) docId
                             then RequiredDoc.with_upload newValue
                                    (if newValue then Some now' else None) d
                             else d))) ;;
         checkAndSetPendingStatus
     end)
    (ret tt).

(** [handleDeleteImage(publicUrl)] *)
Definition handleDeleteImage (url : string) : H unit :=
  match selectedAsset snap with
  | None => ret tt
  | Some sel =>
      try_catch
        (set_state (setProcessing true) ;;
         match split_1 "/asset-images/" url with
         | None => ret tt
         | Some pathWithQuery =>
             let path := split_0 "?" pathWithQuery in
             r <- remote (Store.storage_remove path) ;;
             match r with
             | Error => ret tt
             | Data _ =>
                 fetchAssetImages (Asset.id sel) ;;
                 refreshAssets ;;
                 checkAndSetPendingStatus
             end
         end)
        (ret tt) ;;
      set_state (setProcessing false)
  end.

(** [uploadImageToSupabase(assetId, blob, lat, lon)]; [verifier] and
    [geocoder] are what the two outside services answer. *)
Definition uploadImageToSupabase (assetId : string) (blob : Blob)
    (lat lon : option Q) (verifier : FetchOutcome)
    (geocoder : GeocodeOutcome) : H unit :=
  timestamp <- Date_now ;;
  let fileName := string_of_instant timestamp ++ ".jpg" in
  let filePath := assetId ++ "/" ++ fileName in
  try_catch
    (set_state (setProcessing true) ;;
     uploaded <- remote (Store.storage_upload filePath blob false) ;;
     match uploaded with
     | Error =>
         again <- remote (Store.storage_upload filePath blob true) ;;
         match again with
         | Error => throw
         | Data _ => ret tt
         end
     | Data _ => ret tt
     end ;;
     let image_url := publicUrl SUPABASE_URL filePath in
     let verification := Verifier.verifyImage verifier in
     if negb (is_real verification) then
       try_catch (remote (Store.storage_remove filePath) ;; ret tt) (ret tt)
     else
       let address :=
         match lat, lon with
         | Some _, Some _ => Some (getAddressFromCoords geocoder)
         | _, _ => None
         end in
       remote (Store.update_asset_preview assetId (Some image_url) lat lon address) ;;
       fetchAssetImages assetId ;;
       refreshAssets ;;
       checkAndSetPendingStatus)
    (ret tt) ;;
  set_state (setProcessing false).

(** [openAssetDialog(asset)] *)
Definition openAssetDialog (asset : Asset.t) : H unit :=
  set_state (setSelectedAsset (Some asset)) ;;
  set_state (setShowUploadDialog true) ;;
  fetchAssetImages (Asset.id asset) ;;
  fetchRequiredDocuments (Asset.id asset).

(** [handlePrevImage()] and [handleNextImage()] *)
Definition handlePrevImage : H unit :=
  set_state (mapCurrentImageIndex (prevIndex (length (assetImages snap)))).

Definition handleNextImage : H unit :=
  set_state (mapCurrentImageIndex (nextIndex (length (assetImages snap)))).

(** The effect that runs when the component is mounted with a [phone]. *)
Definition mount (phone : string) : H unit :=
  try_catch
    (found <- remote (Store.select_user_by_phone phone (formattedPhone phone)) ;;
     match found with
     | Error => set_state (setUser None)
     | Data userData =>
         set_state (setUser (Some userData)) ;;
         if negb (String.eqb (User.id userData) EmptyString) then
           r <- remote (Store.select_assets_of_user (User.id userData)) ;;
           match r with
           | Error => set_state (setAssets [])
           | Data assetData => set_state (setAssets assetData)
           end
         else ret tt
     end)
    (ret tt).

(** [handleCameraCapture()]; the camera modal is left out. *)
Definition handleCameraCapture : H unit :=
  set_state (setShowUploadDialog false).

(** [handleCaptureAndUploadWithExif()]; [position] is what the geolocation
    answers, [None] when it fails, and [capture] the frame of the camera
    with a GPS block inserted, as a blob, [None] when the video element is
    missing or the image library throws. *)
Definition handleCaptureAndUploadWithExif (position : option (Q * Q))
    (capture : Geotag.GpsIfd -> option Blob)
    (verifier : FetchOutcome) (geocoder : GeocodeOutcome) : H unit :=
  match selectedAsset snap with
  | None => ret tt
  | Some sel =>
      try_catch
        (let coords := match position with
                       | Some p => p
                       | None => (0, 0)%Q
                       end in
         match capture (Geotag.getGpsIfd (fst coords) (snd coords)) with
         | None => throw
         | Some blob =>
             uploadImageToSupabase (Asset.id sel) blob
               (Some (fst coords)) (Some (snd coords)) verifier geocoder
         end)
        (ret tt)
  end.

(** [handleGalleryUpload(e)]; [file] is [e.target.files?.[0]], [exif] the
    GPS block that [piexif.load] finds in it, [None] when it throws, and
    [position] what the geolocation answers. *)
Definition handleGalleryUpload (file : option Blob) (exif : option Geotag.GpsIfd)
    (position : option (Q * Q))
    (verifier : FetchOutcome) (geocoder : GeocodeOutcome) : H unit :=
  match file, selectedAsset snap with
  | Some blob, Some sel =>
      let fromExif := match exif with
                      | Some g => Geotag.extractGps g
                      | None => None
                      end in
      let coords := match fromExif with
                    | Some c => c
                    | None => match position with
                              | Some p => p
                              | None => (0, 0)%Q
                              end
                    end in
      uploadImageToSupabase (Asset.id sel) blob
        (Some (fst coords)) (Some (snd coords)) verifier geocoder ;;
      set_state (setShowUploadDialog false)
  | _, _ => ret tt
  end.

(** [handleDrop(e)]; [file] is [e.dataTransfer.files?.[0]]. *)
Definition handleDrop (file : option Blob) (exif : option Geotag.GpsIfd)
    (position : option (Q * Q))
    (verifier : FetchOutcome) (geocoder : GeocodeOutcome) : H unit :=
  match selectedAsset snap, file with
  | Some sel, Some blob =>
      let fromExif := match exif with
                      | Some g => Geotag.extractGps g
                      | None => None
                      end in
      let coords := match fromExif with
                    | Some c => c
                    | None => match position with
                              | Some p => p
                              | None => (0, 0)%Q
                              end
                    end in
      uploadImageToSupabase (Asset.id sel) blob
        (Some (fst coords)) (Some (snd coords)) verifier geocoder ;;
      set_state (setShowUploadDialog false)
  | _, _ => ret tt
  end.

End Render.
End StoreThenVerify.

(* ---------------------------------------------------------------------- *)
(** *** Second version (v4): verify first, store only what is accepted *)

Module VerifyThenStore.
Section Render.
Variable SUPABASE_URL : string.
(** The state of the render the handlers belong to. *)
Variable snap : Dashboard.

Definition H : Type -> Type := M Dashboard.

(** [fetchRequiredDocuments(assetId)] *)
Definition fetchRequiredDocuments (assetId : string) : H unit :=
  try_catch
    (r <- remote (Store.select_required_documents assetId) ;;
     match r with
     | Error => throw
     | Data data => set_state (setRequiredDocs data)
     end)
    (ret tt).

(** [fetchAssetImages(assetId)] *)
Definition fetchAssetImages (assetId : string) : H unit :=
  try_catch
    (r <- remote (Store.storage_list (assetId ++ "/")) ;;
     let urls :=
       map (fun name => publicUrl SUPABASE_URL (assetId ++ "/" ++ name))
           (rows_or_empty r) in
     set_state (setAssetImages urls) ;;
     set_state (setCurrentImageIndex 0))
    (set_state (setAssetImages [])).

(** [checkAndSetPendingStatus()] *)
Definition checkAndSetPendingStatus : H unit :=
  match selectedAsset snap with
  | None => ret tt
  | Some sel =>
      fetchRequiredDocuments (Asset.id sel) ;;
      fetchAssetImages (Asset.id sel) ;;
      if pendingCondition (requiredDocs snap) (assetImages snap) then
        remote (Store.update_asset_status (Asset.id sel) Pending) ;;
        match user snap with
        | Some u =>
            r <- remote (Store.select_assets_of_user (User.id u)) ;;
            set_state (setAssets (rows_or_empty r))
        | None => ret tt
        end
      else ret tt
  end.

(** [handleDocumentCheck(docId, newValue)] *)
Definition handleDocumentCheck (docId : string) (newValue : bool) : H unit :=
  try_catch
    (now <- Date_now ;;
     r <- remote (Store.update_required_document docId newValue
                    (if newValue then Some now else None)) ;;
     match r with
     | Error => throw
     | Data _ =>
         now' <- Date_now ;;
         set_state
           (mapRequiredDocs
              (map (fun d => if String.eqb (RequiredDoc.id d) docId
                             then RequiredDoc.with_upload newValue
                                    (if newValue then Some now' else None) d
                             else d))) ;;
         checkAndSetPendingStatus
     end)
    (ret tt).

(** [handleDeleteImage(publicUrl)] *)
Definition handleDeleteImage (url : string) : H unit :=
  match selectedAsset snap with
  | None => ret tt
  | Some sel =>
      try_catch
        (set_state (setProcessing true) ;;
         match split_1 "/asset-images/" url with
         | None => ret tt
         | Some pathWithQuery =>
             let path := split_0 "?" pathWithQuery in
             remote (Store.storage_remove path) ;;
             fetchAssetImages (Asset.id sel) ;;
             checkAndSetPendingStatus
         end)
        (ret tt) ;;
      set_state (setProcessing false)
  end.

(** [uploadImageToSupabase(assetId, blob, lat, lon)]; [verifier] and
    [geocoder] are what the two outside services answer. *)
Definition uploadImageToSupabase (assetId : string) (blob : Blob)
    (lat lon : option Q) (verifier : FetchOutcome)
    (geocoder : GeocodeOutcome) : H unit :=
  timestamp <- Date_now ;;
  let fileName := string_of_instant timestamp ++ ".jpg" in
  let filePath := assetId ++ "/" ++ fileName in
  try_catch
    (set_state (setProcessing true) ;;
     match verifier with
     | NetworkFault => throw
     | Response status body =>
         if negb (res_ok status) then ret tt
         else
           match Verifier.decodeStrict body with
           | None => throw
           | Some verification =>
               if negb (is_real verification) then ret tt
               else
                 uploaded <- remote (Store.storage_upload filePath blob false) ;;
                 match uploaded with
                 | Error => ret tt
                 | Data _ =>
                     let image_url := publicUrl SUPABASE_URL filePath in
                     let address :=
                       match lat, lon with
                       | Some _, Some _ => Some (getAddressFromCoords geocoder)
                       | _, _ => None
                       end in
                     remote (Store.update_asset_preview assetId
                               (Some image_url) lat lon address) ;;
                     fetchAssetImages assetId ;;
                     checkAndSetPendingStatus
                 end
           end
     end)
    (ret tt) ;;
  set_state (setProcessing false).

(** [openAssetDialog(asset)] *)
Definition openAssetDialog (asset : Asset.t) : H unit :=
  set_state (setSelectedAsset (Some asset)) ;;
  set_state (setShowUploadDialog true) ;;
  fetchAssetImages (Asset.id asset) ;;
  fetchRequiredDocuments (Asset.id asset).

(** [handlePrevImage()] and [handleNextImage()] *)
Definition handlePrevImage : H unit :=
  set_state (mapCurrentImageIndex (prevIndex (length (assetImages snap)))).

Definition handleNextImage : H unit :=
  set_state (mapCurrentImageIndex (nextIndex (length (assetImages snap)))).

(** The effect that runs when the component is mounted with a [phone]. *)
Definition mount (phone : string) : H unit :=
  try_catch
    (found <- remote (Store.select_user_by_phone phone (formattedPhone phone)) ;;
     match found with
     | Error => ret tt
     | Data userData =>
         set_state (setUser (Some userData)) ;;
         if negb (String.eqb (User.id userData) EmptyString) then
           r <- remote (Store.select_assets_of_user (User.id userData)) ;;
           set_state (setAssets (rows_or_empty r))
         else ret tt
     end)
    (ret tt).

(** [handleCameraCapture()]; the camera modal is left out. *)
Definition handleCameraCapture : H unit :=
  set_state (setShowUploadDialog false).

(** [handleCaptureAndUploadWithExif()]; [position] is what the geolocation
    answers, [None] when it fails, and [capture] the frame of the camera
    with a GPS block inserted, as a blob, [None] when the video element is
    missing or the image library throws. *)
Definition handleCaptureAndUploadWithExif (position : option (Q * Q))
    (capture : Geotag.GpsIfd -> option Blob)
    (verifier : FetchOutcome) (geocoder : GeocodeOutcome) : H unit :=
  match selectedAsset snap with
  | None => ret tt
  | Some sel =>
      try_catch
        (let coords := match position with
                       | Some p => p
                       | None => (0, 0)%Q
                       end in
         match capture (Geotag.getGpsIfd (fst coords) (snd coords)) with
         | None => throw
         | Some blob =>
             uploadImageToSupabase (Asset.id sel) blob
               (Some (fst coords)) (Some (snd coords)) verifier geocoder
         end)
        (ret tt)
  end.

(** [handleGalleryUpload(e)]; [file] is [e.target.files?.[0]] and
    [position] what the geolocation answers. *)
Definition handleGalleryUpload (file : option Blob) (position : option (Q * Q))
    (verifier : FetchOutcome) (geocoder : GeocodeOutcome) : H unit :=
  match file, selectedAsset snap with
  | Some blob, Some sel =>
      let coords := match position with
                    | Some p => p
                    | None => (0, 0)%Q
                    end in
      uploadImageToSupabase (Asset.id sel) blob
        (Some (fst coords)) (Some (snd coords)) verifier geocoder ;;
      set_state (setShowUploadDialog false)
  | _, _ => ret tt
  end.

(** [handleDrop(e)]; [file] is [e.dataTransfer.files?.[0]]. *)
Definition handleDrop (file : option Blob)
    (verifier : FetchOutcome) (geocoder : GeocodeOutcome) : H unit :=
  match selectedAsset snap, file with
  | Some sel, Some blob =>
      uploadImageToSupabase (Asset.id sel) blob (Some 0%Q) (Some 0%Q)
        verifier geocoder ;;
      set_state (setShowUploadDialog false)
  | _, _ => ret tt
  end.

End Render.
End VerifyThenStore.

(** Closing the dialog, in both versions: [onOpenChange(false)]. *)
Definition closeDialog : M Dashboard unit :=
  set_state (setSelectedAsset None) ;;
  set_state (setAssetImages []) ;;
  set_state (setRequiredDocs []) ;;
  set_state (setShowUploadDialog false).

(** *** The beneficiary's session *)

Module Beneficiary.

(** The two versions of the dashboard. *)
Inductive Version : Type := StoreFirst | VerifyFirst.

(** The state of the component before the mount effect has run. *)
Definition initial : Dashboard :=
  {| user := None; assetList := []; selectedAsset := None; assetImages := [];
     currentImageIndex := 0; processing := false; showUploadDialog := false;
     requiredDocs := [] |}.

(** What happens in a session: a click on the card of an asset, the closing
    of the dialog, a click on the checkbox of a required document, on the
    delete button of the image shown, on Previous, on Next, on Open Camera,
    on Capture, the choice of a file and the drop of a file.  An event takes
    its argument from the render it happens on: the asset from the list of
    cards, the document from the checklist, the image from the carousel. *)
Inductive Event : Type :=
| OpenAsset (card : nat)
| CloseDialog
| Toggle (item : nat) (newValue : bool)
| DeleteShown
| PrevImage
| NextImage
| OpenCamera
| Capture (position : option (Q * Q)) (capture : Geotag.GpsIfd -> option Blob)
    (verifier : FetchOutcome) (geocoder : GeocodeOutcome)
| Gallery (file : option Blob) (exif : option Geotag.GpsIfd)
    (position : option (Q * Q)) (verifier : FetchOutcome) (geocoder : GeocodeOutcome)
| Drop (file : option Blob) (exif : option Geotag.GpsIfd)
    (position : option (Q * Q)) (verifier : FetchOutcome) (geocoder : GeocodeOutcome).

Section Flow.
Variable version : Version.
Variable SUPABASE_URL : string.

(** The handler of an event on the render [snap]; [None] when the page
    has nothing to click on: no such card, no such checkbox, no image
    shown.  The other conditions under which the page offers an event (the
    dialog being open, [processing] being false) are not taken into
    account: every handler can run at any time. *)
Definition handler (snap : Dashboard) (e : Event) : option (M Dashboard unit) :=
  match e with
  | OpenAsset card =>
      match nth_error (assetList snap) card with
      | Some asset =>
          Some match version with
               | StoreFirst => StoreThenVerify.openAssetDialog SUPABASE_URL asset
               | VerifyFirst => VerifyThenStore.openAssetDialog SUPABASE_URL asset
               end
      | None => None
      end
  | CloseDialog => Some closeDialog
  | Toggle item newValue =>
      match nth_error (requiredDocs snap) item with
      | Some doc =>
          Some match version with
               | StoreFirst =>
                   StoreThenVerify.handleDocumentCheck SUPABASE_URL snap
                     (RequiredDoc.id doc) newValue
               | VerifyFirst =>
                   VerifyThenStore.handleDocumentCheck SUPABASE_URL snap
                     (RequiredDoc.id doc) newValue
               end
      | None => None
      end
  | DeleteShown =>
      match nth_error (assetImages snap) (currentImageIndex snap) with
      | Some shown =>
          Some match version with
               | StoreFirst => StoreThenVerify.handleDeleteImage SUPABASE_URL snap shown
               | VerifyFirst => VerifyThenStore.handleDeleteImage SUPABASE_URL snap shown
               end
      | None => None
      end
  | PrevImage =>
      Some match version with
           | StoreFirst => StoreThenVerify.handlePrevImage snap
           | VerifyFirst => VerifyThenStore.handlePrevImage snap
           end
  | NextImage =>
      Some match version with
           | StoreFirst => StoreThenVerify.handleNextImage snap
           | VerifyFirst => VerifyThenStore.handleNextImage snap
           end
  | OpenCamera =>
      Some match version with
           | StoreFirst => StoreThenVerify.handleCameraCapture
           | VerifyFirst => VerifyThenStore.handleCameraCapture
           end
  | Capture position capture verifier geocoder =>
      Some match version with
           | StoreFirst =>
               StoreThenVerify.handleCaptureAndUploadWithExif SUPABASE_URL snap
                 position capture verifier geocoder
           | VerifyFirst =>
               VerifyThenStore.handleCaptureAndUploadWithExif SUPABASE_URL snap
                 position capture verifier geocoder
           end
  | Gallery file exif position verifier geocoder =>
      Some match version with
           | StoreFirst =>
               StoreThenVerify.handleGalleryUpload SUPABASE_URL snap
                 file exif position verifier geocoder
           | VerifyFirst =>
               VerifyThenStore.handleGalleryUpload SUPABASE_URL snap
                 file position verifier geocoder
           end
  | Drop file exif position verifier geocoder =>
      Some match version with
           | StoreFirst =>
               StoreThenVerify.handleDrop SUPABASE_URL snap
                 file exif position verifier geocoder
           | VerifyFirst =>
               VerifyThenStore.handleDrop SUPABASE_URL snap file verifier geocoder
           end
  end.

Definition step (e : Event) (s : State Dashboard) : option (State Dashboard) :=
  match handler (ui s) e with
  | Some h => Some (exec h s)
  | None => None
  end.

Fixpoint run (events : list Event) (s : State Dashboard) : option (State Dashboard) :=
  match events with
  | [] => Some s
  | e :: rest =>
      match step e s with
      | Some s' => run rest s'
      | None => None
      end
  end.

(** The session after the component has been mounted with a [phone]. *)
Definition mounted (phone : string) (b : Backend) (outcomes : list Outcome)
    (time : nat -> Instant) : State Dashboard :=
  exec match version with
       | StoreFirst => StoreThenVerify.mount phone
       | VerifyFirst => VerifyThenStore.mount phone
       end
    {| store := b; schedule := outcomes; clock := time; ui := initial |}.
End Flow.

End Beneficiary.

(* ====================================================================== *)
(** ** The reviewer's dashboard ([BankAdminDashboard]) *)

Module BankAdmin.

(** A line of [assetDetails.documents]. *)
Record DocLine : Type := {
  document_name : string;
  is_uploaded : bool;
  uploaded_at : option Instant
}.

(** [assetDetails]: the selected columns of the asset and its documents. *)
Record AssetDetails : Type := {
  id : string;
  asset_name : string;
  issued_date : option string;
  status : Status;
  documents : list DocLine
}.

(** The state of the component (search box, filter and the form for new
    users are left out). *)
Record t : Type := {
  userList : list User.t;              (* [users] *)
  loading : bool;
  selectedUser : option User.t;
  assetDetails : option AssetDetails;
  assetImages : list string;
  currentImageIndex : nat;
  processing : bool
}.

Definition setUsers (v : list User.t) (d : t) : t :=
  {| userList := v; loading := loading d; selectedUser := selectedUser d;
     assetDetails := assetDetails d; assetImages := assetImages d;
     currentImageIndex := currentImageIndex d; processing := processing d |}.

Definition setLoading (v : bool) (d : t) : t :=
  {| userList := userList d; loading := v; selectedUser := selectedUser d;
     assetDetails := assetDetails d; assetImages := assetImages d;
     currentImageIndex := currentImageIndex d; processing := processing d |}.

Definition setSelectedUser (v : option User.t) (d : t) : t :=
  {| userList := userList d; loading := loading d; selectedUser := v;
     assetDetails := assetDetails d; assetImages := assetImages d;
     currentImageIndex := currentImageIndex d; processing := processing d |}.

Definition setAssetDetails (v : option AssetDetails) (d : t) : t :=
  {| userList := userList d; loading := loading d; selectedUser := selectedUser d;
     assetDetails := v; assetImages := assetImages d;
     currentImageIndex := currentImageIndex d; processing := processing d |}.

Definition setAssetImages (v : list string) (d : t) : t :=
  {| userList := userList d; loading := loading d; selectedUser := selectedUser d;
     assetDetails := assetDetails d; assetImages := v;
     currentImageIndex := currentImageIndex d; processing := processing d |}.

Definition setCurrentImageIndex (v : nat) (d : t) : t :=
  {| userList := userList d; loading := loading d; selectedUser := selectedUser d;
     assetDetails := assetDetails d; assetImages := assetImages d;
     currentImageIndex := v; processing := processing d |}.

Definition mapCurrentImageIndex (f : nat -> nat) (d : t) : t :=
  {| userList := userList d; loading := loading d; selectedUser := selectedUser d;
     assetDetails := assetDetails d; assetImages := assetImages d;
     currentImageIndex := f (currentImageIndex d); processing := processing d |}.

Definition setProcessing (v : bool) (d : t) : t :=
  {| userList := userList d; loading := loading d; selectedUser := selectedUser d;
     assetDetails := assetDetails d; assetImages := assetImages d;
     currentImageIndex := currentImageIndex d; processing := v |}.

Definition initial : t :=
  {| userList := []; loading := true; selectedUser := None;
     assetDetails := None; assetImages := []; currentImageIndex := 0;
     processing := false |}.

(** [from("users").select(...).eq("role", "user")] *)
Definition select_users (b : Backend) : Reply (list User.t) * Backend :=
  (Data (filter (fun u => String.eqb (User.role u) "user") (users b)), b).

(** [from("assets").select("id, asset_name, issued_date, status")
     .eq("user_id", userId).single()]: the row when there is exactly
    one, otherwise an error. *)
Definition select_single_asset (userId : string) (b : Backend)
  : Reply Asset.t * Backend :=
  match filter (fun a => option_string_eqb (Asset.user_id a) userId) (assets b) with
  | [a] => (Data a, b)
  | _ => (Error, b)
  end.

(** [from("required_documents").select("document_name, is_uploaded,
     uploaded_at").eq("asset_id", assetId)] *)
Definition select_documents (assetId : string) (b : Backend)
  : Reply (list DocLine) * Backend :=
  (Data (map (fun r => {| document_name := DocRow.document_name r;
                          is_uploaded := DocRow.is_uploaded r;
                          uploaded_at := DocRow.uploaded_at r |})
             (filter (fun r => String.eqb (DocRow.asset_id r) assetId)
                (required_documents b))),
   b).

Section Render.
Variable SUPABASE_URL : string.
(** The state of the render the handlers belong to. *)
Variable snap : t.

Definition H : Type -> Type := M t.

(** [fetchUsers()] *)
Definition fetchUsers : H unit :=
  set_state (setLoading true) ;;
  r <- remote select_users ;;
  match r with
  | Data data => set_state (setUsers data)
  | Error => ret tt
  end ;;
  set_state (setLoading false).

(** [fetchAssetDetails(userId)] *)
Definition fetchAssetDetails (userId : string) : H unit :=
  found <- remote (select_single_asset userId) ;;
  match found with
  | Error => ret tt
  | Data asset =>
      docs <- remote (select_documents (Asset.id asset)) ;;
      imageList <-
        (if Status_eqb (Asset.status asset) Pending then
           files <- remote (Store.storage_list (Asset.id asset ++ "/")) ;;
           ret (map (fun name =>
                       publicUrl SUPABASE_URL (Asset.id asset ++ "/" ++ name))
                    (rows_or_empty files))
         else ret []) ;;
      set_state (setAssetDetails
                   (Some {| id := Asset.id asset;
                            asset_name := Asset.asset_name asset;
                            issued_date := Asset.issued_date asset;
                            status := Asset.status asset;
                            documents := rows_or_empty docs |})) ;;
      set_state (setAssetImages imageList) ;;
      set_state (setCurrentImageIndex 0)
  end.

(** [handleUserClick(user)], up to the point where the fetch it starts
    is in flight; the fetch is not awaited. *)
Definition handleUserClick (u : User.t) : H unit :=
  set_state (setSelectedUser (Some u)).

(** [handleStatusUpdate(newStatus)]; the two call sites pass
    ["authenticated"] and ["non-verified"]. *)
Definition handleStatusUpdate (newStatus : Status) : H unit :=
  match assetDetails snap with
  | None => ret tt
  | Some details =>
      set_state (setProcessing true) ;;
      remote (Store.update_asset_status (id details) newStatus) ;;
      fetchUsers ;;
      set_state (setProcessing false) ;;
      set_state (setSelectedUser None)
  end.

(** [handleNextImage()] and [handlePrevImage()] *)
Definition handleNextImage : H unit :=
  set_state (mapCurrentImageIndex (nextIndex (length (assetImages snap)))).

Definition handlePrevImage : H unit :=
  set_state (mapCurrentImageIndex (prevIndex (length (assetImages snap)))).

(** The popup is rendered: [selectedUser && assetDetails]. *)
Definition popupShown : bool :=
  match selectedUser snap, assetDetails snap with
  | Some _, Some _ => true
  | _, _ => false
  end.

(** The Grant and Non-Grant buttons are rendered: the popup is, with
    [assetDetails.status === "pending"] and [processing] false. *)
Definition decisionButtonsShown : bool :=
  match selectedUser snap, assetDetails snap with
  | Some _, Some details =>
      Status_eqb (status details) Pending && negb (processing snap)
  | _, _ => false
  end.
End Render.

(** *** The reviewer's session *)

(** The component together with the fetches of asset details that were
    started and have not come back yet. *)
Record Session : Type := {
  state : State t;
  inflight : list string
}.

(** What happens in a session: the reviewer clicks a row of the users
    table, a pending fetch comes back, the reviewer closes the popup, or
    presses Grant ([Decide Authenticated]) or Non-Grant
    ([Decide NonVerified]). *)
Inductive Event : Type :=
| ClickRow (row : nat)
| FetchBack
| ClosePopup
| Decide (newStatus : Status).

Section Flow.
Variable SUPABASE_URL : string.

(** One event; [None] when the page does not offer it: rows are
    reachable while the popup (a full-screen overlay) is not shown,
    the buttons only while they are rendered. *)
Definition step (e : Event) (x : Session) : option Session :=
  let snap := ui (state x) in
  match e with
  | ClickRow row =>
      if popupShown snap then None
      else
        match nth_error (userList snap) row with
        | Some u =>
            Some {| state := exec (handleUserClick u) (state x);
                    inflight := inflight x ++ [User.id u] |}
        | None => None
        end
  | FetchBack =>
      match inflight x with
      | userId :: rest =>
          Some {| state := exec (fetchAssetDetails SUPABASE_URL userId) (state x);
                  inflight := rest |}
      | [] => None
      end
  | ClosePopup =>
      if popupShown snap then
        Some {| state := exec (set_state (setSelectedUser None)) (state x);
                inflight := inflight x |}
      else None
  | Decide newStatus =>
      match newStatus with
      | Pending => None
      | _ =>
          if decisionButtonsShown snap then
            Some {| state := exec (handleStatusUpdate snap newStatus) (state x);
                    inflight := inflight x |}
          else None
      end
  end.

Fixpoint run (events : list Event) (x : Session) : option Session :=
  match events with
  | [] => Some x
  | e :: rest =>
      match step e x with
      | Some x' => run rest x'
      | None => None
      end
  end.

(** The session after the component has mounted ([useEffect] runs
    [fetchUsers]). *)
Definition mounted (b : Backend) (outcomes : list Outcome)
    (time : nat -> Instant) : Session :=
  {| state := exec fetchUsers
                {| store := b; schedule := outcomes; clock := time;
                   ui := initial |};
     inflight := [] |}.
End Flow.

End BankAdmin.

(** The status the store holds for an asset. *)
Definition status_of (assetId : string) (b : Backend) : option Status :=
  match filter (fun a => String.eqb (Asset.id a) assetId) (assets b) with
  | a :: _ => Some (Asset.status a)
  | [] => None
  end.

(* ====================================================================== *)
(** ** Vocabulary of the properties *)

(** A handler keeps the relation [R] between the store it starts from and
    the store it leaves, whatever the outcomes of its calls. *)
Definition stable {UI A} (R : Backend -> Backend -> Prop) (m : M UI A) : Prop :=
  forall s, R (store s) (store (snd (m s))).

(** The rows of [assets], one by one, before and after. *)
Definition assets_related (P : Asset.t -> Asset.t -> Prop) (b b' : Backend) : Prop :=
  Forall2 P (assets b) (assets b').

(** The four preview fields are the same. *)
Definition same_preview (a a' : Asset.t) : Prop :=
  Asset.image_url a' = Asset.image_url a
  /\ Asset.latitude a' = Asset.latitude a
  /\ Asset.longitude a' = Asset.longitude a
  /\ Asset.location_address a' = Asset.location_address a.

(** Every field but [status] is the same. *)
Definition same_but_status (a a' : Asset.t) : Prop :=
  Asset.id a' = Asset.id a
  /\ Asset.asset_name a' = Asset.asset_name a
  /\ Asset.issued_date a' = Asset.issued_date a
  /\ Asset.user_id a' = Asset.user_id a
  /\ Asset.image_url a' = Asset.image_url a
  /\ Asset.latitude a' = Asset.latitude a
  /\ Asset.longitude a' = Asset.longitude a
  /\ Asset.location_address a' = Asset.location_address a
  /\ Asset.created_at a' = Asset.created_at a
  /\ Asset.verified_at a' = Asset.verified_at a.

Definition same_verified_at (a a' : Asset.t) : Prop :=
  Asset.verified_at a' = Asset.verified_at a.

(** Every call of the schedule is carried out. *)
Definition no_fault (outcomes : list Outcome) : Prop :=
  forall o, In o outcomes -> o = Done.


(** The store after agrees with the store before on one of its parts. *)
Definition agree_on {X} (part : Backend -> X) (b b' : Backend) : Prop :=
  part b' = part b.

(** The rows of [required_documents] of an asset, and the names of its
    stored images. *)
Definition requiredDocumentsOf (assetId : string) (b : Backend) : list DocRow.t :=
  filter (fun r => String.eqb (DocRow.asset_id r) assetId) (required_documents b).

Definition storedImagesOf (assetId : string) (b : Backend) : list string :=
  rows_or_empty (fst (Store.storage_list (assetId ++ "/") b)).

(** The condition of the specification, read on the store itself: every
    required document of the asset has [is_uploaded = true] and the count
    of stored images is at least the count of required documents. *)
Definition evidenceComplete (assetId : string) (b : Backend) : bool :=
  forallb DocRow.is_uploaded (requiredDocumentsOf assetId b)
  && (length (requiredDocumentsOf assetId b) <=? length (storedImagesOf assetId b))%nat.

(** *** Sample data *)

Module Sample.
Definition url : string := "https://authenx.supabase.co".

Definition beneficiary : User.t :=
  {| User.id := "u1"; User.name := "Ramesh Kumar";
     User.phone := "+919876543210"; User.role := "user" |}.

Definition other : User.t :=
  {| User.id := "u2"; User.name := "Sita Devi";
     User.phone := "+919876500000"; User.role := "user" |}.

Definition tractor (st : Status) : Asset.t :=
  {| Asset.id := "a1"; Asset.asset_name := "Tractor Loan"; Asset.status := st;
     Asset.issued_date := Some "2025-01-15"; Asset.user_id := Some "u1";
     Asset.image_url := None; Asset.latitude := None; Asset.longitude := None;
     Asset.location_address := None; Asset.created_at := 1736900000000;
     Asset.verified_at := None |}.

Definition aadhaar (uploaded : bool) : DocRow.t :=
  {| DocRow.id := "d1"; DocRow.asset_id := "a1";
     DocRow.document_name := "Aadhaar Card"; DocRow.is_uploaded := uploaded;
     DocRow.uploaded_at := if uploaded then Some 1736950000000 else None |}.

Definition photo : string * Blob := ("a1/1737000000000.jpg", "jpeg-bytes").

Definition time : nat -> Instant := fun n => Z.of_nat n + 1737100000000.

(** The dashboard of the beneficiary before any dialog is opened. *)
Definition home (st : Status) : Dashboard :=
  {| user := Some beneficiary; assetList := [tractor st];
     selectedAsset := None; assetImages := []; currentImageIndex := 0;
     processing := false; showUploadDialog := false; requiredDocs := [] |}.

Definition start (b : Backend) (outcomes : list Outcome) (d : Dashboard)
  : State Dashboard :=
  {| store := b; schedule := outcomes; clock := time; ui := d |}.

(** An asset without required documents and without images. *)
Definition bare : Backend :=
  {| assets := [tractor NonVerified]; required_documents := [];
     users := [beneficiary; other]; bucket := [] |}.

(** A pending asset: its one document is checked and one image is
    stored. *)
Definition complete : Backend :=
  {| assets := [tractor Pending]; required_documents := [aadhaar true];
     users := [beneficiary; other]; bucket := [photo] |}.

(** A 200 answer of the verifier that accepts, and one that rejects
    with score 0.2. *)
Definition accepts : FetchOutcome :=
  Response 200 (Some (JObj [("is_real", JBool true);
                            ("authenticity_score", JNum (9 # 10))])).

Definition rejects : FetchOutcome :=
  Response 200 (Some (JObj [("is_real", JBool false);
                            ("authenticity_score", JNum (2 # 10));
                            ("message", JStr "synthetic image")])).

End Sample.

(** What [pendingCondition] decides, spelled out: at least one required
    document, all of them uploaded, and at least as many images as
    documents. *)
Definition EvidenceComplete (docs : list RequiredDoc.t) (images : list string) : Prop :=
  docs <> []
  /\ (forall d, In d docs -> RequiredDoc.is_uploaded d = true)
  /\ (length docs <= length images)%nat.

Module Scenario.
Import Sample.

(** A non-verified asset whose one document is checked and which has
    one stored image. *)
Definition ready : Backend :=
  {| assets := [tractor NonVerified]; required_documents := [aadhaar true];
     users := [beneficiary; other]; bucket := [photo] |}.

(** The render after the dialog of the asset has been opened on a
    store, in each version. *)
Definition opened (b : Backend) (st : Status) : Dashboard :=
  ui (exec (StoreThenVerify.openAssetDialog url (tractor st))
           (start b [] (home st))).

Definition opened_v4 (b : Backend) (st : Status) : Dashboard :=
  ui (exec (VerifyThenStore.openAssetDialog url (tractor st))
           (start b [] (home st))).

(** An accepted upload, in the second version, for the asset without
    required documents. *)
Definition after_accepted_upload : State Dashboard :=
  exec (VerifyThenStore.uploadImageToSupabase url (opened_v4 bare NonVerified)
          "a1" "jpeg-bytes" (Some (37 # 2)) (Some (295 # 4))
          accepts (GeocodeReply (Some "Pune, Maharashtra")))
       (start bare [] (opened_v4 bare NonVerified)).
End Scenario.

(** The second version stores an image only when the verifier's answer
    gets through all three gates of [uploadImageToSupabase]: the call
    returns, the response is [ok], and the decoded [is_real] is [true]. *)
Definition acceptedBeforeStoring (verifier : FetchOutcome) : bool :=
  match verifier with
  | NetworkFault => false
  | Response status body =>
      res_ok status
      && match Verifier.decodeStrict body with
         | Some verification => is_real verification
         | None => false
         end
  end.

(** The path an upload gives to its file: [`${assetId}/${Date.now()}.jpg`]. *)
Definition uploadPath (assetId : string) (s : State Dashboard) : string :=
  assetId ++ "/" ++ string_of_instant (clock s 0%nat) ++ ".jpg".

(** The status is what it was, or ['pending']. *)
Definition kept_or_pending (a a' : Asset.t) : Prop :=
  Asset.status a' = Asset.status a \/ Asset.status a' = Pending.

(** The four preview fields are what they were, or the upload was
    accepted and all four hold what the upload writes: a URL, the two
    coordinates and the address. *)
Definition preview_kept_or_written (accepted : bool) (lat lon : option Q)
    (address : option string) (a a' : Asset.t) : Prop :=
  same_preview a a'
  \/ (accepted = true
      /\ (exists url, Asset.image_url a' = Some url)
      /\ Asset.latitude a' = lat
      /\ Asset.longitude a' = lon
      /\ Asset.location_address a' = address).

(** [address] of [uploadImageToSupabase]. *)
Definition uploadAddress (lat lon : option Q) (geocoder : GeocodeOutcome)
  : option string :=
  match lat, lon with
  | Some _, Some _ => Some (getAddressFromCoords geocoder)
  | _, _ => None
  end.

Module ScenarioD.
Import Sample.

(** The first version uploads for the asset of [Scenario.ready]; the
    verifier rejects with score 0.2; the store carries out the upload
    and answers the removal with an error. *)
Definition snap : Dashboard := Scenario.opened Scenario.ready NonVerified.

Definition before (outcomes : list Outcome) : State Dashboard :=
  start Scenario.ready outcomes snap.

Definition after (outcomes : list Outcome) : State Dashboard :=
  exec (StoreThenVerify.uploadImageToSupabase url snap "a1" "fake-bytes"
          (Some (37 # 2)) (Some (295 # 4)) rejects
          (GeocodeReply (Some "Pune, Maharashtra")))
       (before outcomes).
End ScenarioD.

Module ScenarioDelete.
Import Sample.

(** The beneficiary has the dialog of the pending asset of [complete]
    open and deletes its only image. *)
Definition photoUrl : string := publicUrl url (fst photo).

Definition snap : Dashboard := Scenario.opened complete Pending.
Definition snap_v4 : Dashboard := Scenario.opened_v4 complete Pending.

Definition after : State Dashboard :=
  exec (StoreThenVerify.handleDeleteImage url snap photoUrl)
       (start complete [] snap).

Definition after_v4 : State Dashboard :=
  exec (VerifyThenStore.handleDeleteImage url snap_v4 photoUrl)
       (start complete [] snap_v4).
End ScenarioDelete.





Module ScenarioToggle.
Import Sample.

(** The one document of the asset is unchecked; the beneficiary checks
    it, and checks it again from the render that follows. *)
Definition unchecked : Backend :=
  {| assets := [tractor NonVerified]; required_documents := [aadhaar false];
     users := [beneficiary; other]; bucket := [photo] |}.

Definition snap : Dashboard := Scenario.opened_v4 unchecked NonVerified.

Definition before : State Dashboard := start unchecked [] snap.


End ScenarioToggle.




Module ScenarioReview.
Import Sample BankAdmin.

(** The reviewer opens the beneficiary whose asset is pending, presses
    Non-Grant, then opens a user who has no asset: the popup comes up
    with the details that are still held. *)
Definition session : Session := mounted complete [] time.




(** Or else: the reviewer opens the beneficiary whose asset is pending
    and presses Grant. *)
Definition openPending : list Event := [ClickRow 0; FetchBack].

Definition reached (o : option Session) : Session :=
  match o with
  | Some x => x
  | None => session
  end.

Definition opened : Session := reached (run url openPending session).

Definition granted : Session := reached (step url (Decide Authenticated) opened).

End ScenarioReview.

Module ScenarioImagesOnly.
Import Sample.

(** An asset without required documents that has a stored image, and the
    render of its dialog. *)
Definition imagesOnly : Backend :=
  {| assets := [tractor NonVerified]; required_documents := [];
     users := [beneficiary; other]; bucket := [photo] |}.

Definition snap : Dashboard := Scenario.opened_v4 imagesOnly NonVerified.

Definition before : State Dashboard := start imagesOnly [] snap.
End ScenarioImagesOnly.

(** Between two states of a row of [assets], for the handlers of a
    render: the status is what it was, or it has become ['pending'], the
    row being the asset selected in the render, whose lists show the
    evidence complete. *)
Definition pending_only_if_complete (snap : Dashboard) (a a' : Asset.t) : Prop :=
  Asset.id a' = Asset.id a
  /\ (Asset.status a' = Asset.status a
      \/ (Asset.status a' = Pending
          /\ (exists sel, selectedAsset snap = Some sel
                          /\ Asset.id a = Asset.id sel)
          /\ EvidenceComplete (requiredDocs snap) (assetImages snap))).

(** What an accepted upload leaves in the row of its asset: the public
    URL of the stored image, the coordinates and the address. *)
Definition linked_to (assetId url : string) (lat lon : option Q)
    (address : option string) (a : Asset.t) : Prop :=
  Asset.id a = assetId ->
  Asset.image_url a = Some url
  /\ Asset.latitude a = lat
  /\ Asset.longitude a = lon
  /\ Asset.location_address a = address.

(** A property of a row of [assets] that holds afterwards when it held
    before. *)
Definition keeps (Q : Asset.t -> Prop) (a a' : Asset.t) : Prop := Q a -> Q a'.

(** [s.includes(sub)] *)
Definition occurs (sub s : string) : bool :=
  match cut_at_first sub s with
  | Some _ => true
  | None => false
  end.

(** A handler keeps a property of the component state, whatever the
    outcomes of its calls. *)
Definition keeps_ui {UI A} (I : UI -> Prop) (m : M UI A) : Prop :=
  forall s, I (ui s) -> I (ui (snd (m s))).

(** The image the carousel shows, [assetImages[currentImageIndex]], is
    there whenever the carousel is rendered, that is, whenever the list is
    not empty. *)
Definition indexInRange (d : Dashboard) : Prop :=
  assetImages d <> [] -> (currentImageIndex d < length (assetImages d))%nat.

Definition reviewerIndexInRange (d : BankAdmin.t) : Prop :=
  BankAdmin.assetImages d <> [] ->
  (BankAdmin.currentImageIndex d < length (BankAdmin.assetImages d))%nat.

(** The rows of [assets] that belong to a user. *)
Definition assetsOfUser (userId : string) (b : Backend) : list Asset.t :=
  filter (fun a => option_string_eqb (Asset.user_id a) userId) (assets b).

(* ====================================================================== *)
(** ** The application shell ([App]) *)

Module App.

(** [type AppState = "splash" | "login" | "otp" | "dashboard"] *)
Inductive AppState : Type := Splash | Login | Otp | DashboardPage.

Record t : Type := {
  appState : AppState;
  phone : string;
  userRole : option string
}.

Definition initial : t :=
  {| appState := Splash; phone := EmptyString; userRole := None |}.

Definition setAppState (v : AppState) (a : t) : t :=
  {| appState := v; phone := phone a; userRole := userRole a |}.

Definition setPhone (v : string) (a : t) : t :=
  {| appState := appState a; phone := v; userRole := userRole a |}.

Definition setUserRole (v : option string) (a : t) : t :=
  {| appState := appState a; phone := phone a; userRole := v |}.

(** [\d] *)
Definition isDigit (c : ascii) : bool :=
  (48 <=? nat_of_ascii c)%nat && (nat_of_ascii c <=? 57)%nat.

(** [s.replace(/[^\d+]/g, "")] *)
Fixpoint keepDigitsAndPlus (s : string) : string :=
  match s with
  | EmptyString => EmptyString
  | String c rest =>
      if isDigit c || Ascii.eqb c "+"
      then String c (keepDigitsAndPlus rest)
      else keepDigitsAndPlus rest
  end.

Fixpoint allDigits (s : string) : bool :=
  match s with
  | EmptyString => true
  | String c rest => isDigit c && allDigits rest
  end.

(** [/^\+\d{7,15}$/.test(s)] *)
Definition e164 (s : string) : bool :=
  match s with
  | String c rest =>
      Ascii.eqb c "+" && allDigits rest
      && (7 <=? String.length rest)%nat && (String.length rest <=? 15)%nat
  | EmptyString => false
  end.

(** The two normalisations: of [handleLogin], and of [handleOTPVerify]
    (which does not trim).  The white space outside ASCII, which [trim]
    removes as well, is no digit and no plus sign, so that the [replace]
    removes it all the same. *)
Definition normalizeLogin (phoneNumberRaw : string) : string :=
  let phoneNumber := keepDigitsAndPlus (trim phoneNumberRaw) in
  if negb (startsWithPlus phoneNumber) then "+91" ++ phoneNumber else phoneNumber.

Definition normalizeVerify (phone : string) : string :=
  let normalizedPhone := keepDigitsAndPlus phone in
  if negb (startsWithPlus normalizedPhone) then "+91" ++ normalizedPhone
  else normalizedPhone.

(** [handleLogin(phoneNumberRaw)]; [reply] is how
    [supabase.auth.signInWithOtp] ends.  The result holds the number the
    one-time password was requested for, if any, and the next state. *)
Definition handleLogin (phoneNumberRaw : string) (reply : Outcome) (a : t)
  : option string * t :=
  let phoneNumber := normalizeLogin phoneNumberRaw in
  if negb (e164 phoneNumber) then (None, a)
  else
    let a1 := setPhone phoneNumber a in
    match reply with
    | Done => (Some phoneNumber, setAppState Otp a1)
    | Failed => (Some phoneNumber, a1)
    | Thrown => (Some phoneNumber, a1)
    end.

(** [from("users").select("role").eq("phone", phone).single()] *)
Definition select_role (phone : string) (b : Backend) : Reply string * Backend :=
  match filter (fun u => String.eqb (User.phone u) phone) (users b) with
  | [u] => (Data (User.role u), b)
  | _ => (Error, b)
  end.

(** [handleOTPVerify(otp)]; [verified] is how [supabase.auth.verifyOtp]
    ends for the number of the state and the code. *)
Definition handleOTPVerify (snap : t) (verified : Outcome) : M t unit :=
  try_catch
    (match verified with
     | Thrown => throw
     | Failed => ret tt
     | Done =>
         found <- remote (select_role (normalizeVerify (phone snap))) ;;
         match found with
         | Error => set_state (setUserRole (Some "user"))
         | Data role =>
             set_state (setUserRole
                          (Some (if String.eqb role EmptyString then "user" else role)))
         end ;;
         set_state (setAppState DashboardPage)
     end)
    (ret tt).

(** [handleLogout()] and [handleBackToLogin()] *)
Definition handleLogout (a : t) : t :=
  setUserRole None (setPhone EmptyString (setAppState Login a)).

Definition handleBackToLogin (a : t) : t :=
  setPhone EmptyString (setAppState Login a).

(** What the component renders besides the splash, login and OTP screens. *)
Inductive Page : Type :=
| SuperAdminPage
| BankAdminPage
| UserPage (phone : string)
| NoPage.

Definition dashboard (a : t) : Page :=
  match appState a, userRole a with
  | DashboardPage, Some role =>
      if String.eqb role "superadmin" then SuperAdminPage
      else if String.eqb role "loanmanager" then BankAdminPage
      else if String.eqb role "user" then UserPage (phone a)
      else NoPage
  | _, _ => NoPage
  end.

End App.

(* ====================================================================== *)
(** ** The screen of the one-time password ([OTPScreen]) *)

Module OTPScreen.

(** [otp]: the cells of the code. *)
Definition t : Type := list string.

(** [Array(6).fill("")] *)
Definition initial : t := repeat EmptyString 6.

(** [/^[0-9]?$/.test(value)] *)
Definition digitOrEmpty (value : string) : bool :=
  match value with
  | EmptyString => true
  | String c EmptyString => App.isDigit c
  | String _ (String _ _) => false
  end.

(** [newOtp[index] = value], which lengthens the array when the index is
    beyond its end; the cells in between are holes, which [join] reads as
    empty strings. *)
Fixpoint assign (index : nat) (value : string) (otp : t) : t :=
  match index, otp with
  | O, [] => [value]
  | O, _ :: rest => value :: rest
  | S i, [] => EmptyString :: assign i value []
  | S i, cell :: rest => cell :: assign i value rest
  end.

(** [handleChange(index, value)] *)
Definition handleChange (index : nat) (value : string) (otp : t) : t :=
  if negb (digitOrEmpty value) then otp else assign index value otp.

(** [otp.join("")] *)
Definition join (otp : t) : string := String.concat EmptyString otp.

(** [handleSubmit(e)]: the code [onVerify] is called with, if it is. *)
Definition handleSubmit (otp : t) : option string :=
  let code := join otp in
  if (String.length code =? 6)%nat then Some code else None.

(** The cells after a series of changes, from the first render on. *)
Definition typed (changes : list (nat * string)) : t :=
  fold_left (fun otp change => handleChange (fst change) (snd change) otp)
    changes initial.

End OTPScreen.

(* ====================================================================== *)
(** ** Provisioning: the names of the required documents *)

(** [s.split(",")] *)
Fixpoint split_comma (s : string) : list string :=
  match s with
  | EmptyString => [EmptyString]
  | String c rest =>
      if Ascii.eqb c ","
      then EmptyString :: split_comma rest
      else match split_comma rest with
           | piece :: pieces => String c piece :: pieces
           | [] => [String c EmptyString]
           end
  end.

(** [documents.split(",").map((d) => d.trim()).filter(Boolean)], of
    [handleAddUser] and [processExcel]. *)
Definition documentNames (documents : string) : list string :=
  filter (fun d => negb (String.eqb d EmptyString)) (map trim (split_comma documents)).

(** A string without a comma, and a string that [trim] leaves as it is. *)
Fixpoint commaFree (s : string) : bool :=
  match s with
  | EmptyString => true
  | String c rest => negb (Ascii.eqb c ",") && commaFree rest
  end.

Definition trimmed (s : string) : Prop := trim s = s.

(** A string of ASCII characters. *)
Fixpoint plainAscii (s : string) : bool :=
  match s with
  | EmptyString => true
  | String c rest => (nat_of_ascii c <? 128)%nat && plainAscii rest
  end.

(** A string of commas and white space. *)
Fixpoint blank (s : string) : bool :=
  match s with
  | EmptyString => true
  | String c rest => (Ascii.eqb c "," || isSpace c) && blank rest
  end.

(** A handler keeps a property of the store and the component state taken
    together, whatever the outcomes of its calls. *)
Definition preserves {UI A} (J : Backend -> UI -> Prop) (m : M UI A) : Prop :=
  forall s, J (store s) (ui s) -> J (store (snd (m s))) (ui (snd (m s))).

(** An asset of the user of a session: a row of [assets] with this id
    names the user in [user_id]; a required document of the user: a row of
    [required_documents] with this id belongs to such an asset. *)
Definition ownAssetId (owner : option User.t) (b : Backend) (assetId : string) : Prop :=
  exists u a,
    owner = Some u /\ In a (assets b)
    /\ Asset.id a = assetId /\ Asset.user_id a = Some (User.id u).

Definition ownDocId (owner : option User.t) (b : Backend) (docId : string) : Prop :=
  exists r,
    In r (required_documents b)
    /\ DocRow.id r = docId /\ ownAssetId owner b (DocRow.asset_id r).

(** Between the store a session starts from and a later one: the rows
    of [assets] and of [required_documents] are the same rows in the same
    order, each with its id and its owner, and a row whose id is none of the
    user's is exactly as it was; [users] is as it was. *)
Definition untouchedAbroad (owner : option User.t) (b b' : Backend) : Prop :=
  Forall2 (fun a a' =>
             Asset.id a' = Asset.id a
             /\ Asset.user_id a' = Asset.user_id a
             /\ (~ ownAssetId owner b (Asset.id a) -> a' = a))
    (assets b) (assets b')
  /\ Forall2 (fun r r' =>
                DocRow.id r' = DocRow.id r
                /\ DocRow.asset_id r' = DocRow.asset_id r
                /\ (~ ownDocId owner b (DocRow.id r) -> r' = r))
       (required_documents b) (required_documents b')
  /\ users b' = users b.

(** The page shows, and offers to act on, nothing but the assets and the
    required documents of its user. *)
Definition showsOwn (owner : option User.t) (b : Backend) (d : Dashboard) : Prop :=
  user d = owner
  /\ (forall a, In a (assetList d) -> ownAssetId owner b (Asset.id a))
  /\ (forall a, selectedAsset d = Some a -> ownAssetId owner b (Asset.id a))
  /\ (forall doc, In doc (requiredDocs d) -> ownDocId owner b (RequiredDoc.id doc)).

Definition atHome (owner : option User.t) (b0 b : Backend) (d : Dashboard) : Prop :=
  untouchedAbroad owner b0 b /\ showsOwn owner b0 d.

Module ScenarioSession.
Import Sample.

(** The beneficiary signs in, opens the asset and checks its one
    document; another user has an asset and a required document of their
    own. *)
Definition neighbour : Asset.t :=
  {| Asset.id := "a2"; Asset.asset_name := "Pump Set"; Asset.status := NonVerified;
     Asset.issued_date := Some "2025-02-01"; Asset.user_id := Some "u2";
     Asset.image_url := None; Asset.latitude := None; Asset.longitude := None;
     Asset.location_address := None; Asset.created_at := 1736900000500%Z;
     Asset.verified_at := None |}.

Definition landProof : DocRow.t :=
  {| DocRow.id := "d2"; DocRow.asset_id := "a2";
     DocRow.document_name := "Land Proof"; DocRow.is_uploaded := false;
     DocRow.uploaded_at := None |}.

Definition village : Backend :=
  {| assets := [tractor NonVerified; neighbour];
     required_documents := [aadhaar false; landProof];
     users := [beneficiary; other]; bucket := [photo] |}.

Definition events : list Beneficiary.Event :=
  [Beneficiary.OpenAsset 0; Beneficiary.Toggle 0 true].

Definition final : State Dashboard :=
  match Beneficiary.run Beneficiary.VerifyFirst url events
          (Beneficiary.mounted Beneficiary.VerifyFirst "9876543210" village [] time) with
  | Some s => s
  | None => start village [] Beneficiary.initial
  end.
End ScenarioSession.

(* ====================================================================== *)
(** * Properties *)

(* ---------------------------------------------------------------------- *)
(** ** What a handler does to the store: a small logic of frames *)

Section Stability.
Context {UI : Type} (R : Backend -> Backend -> Prop) `{!PreOrder R}.

Lemma stable_ret A (a : A) : stable (UI := UI) R (ret a).
Proof. intros s; reflexivity. Qed.

Lemma stable_throw A : stable R (@throw UI A).
Proof. intros s; reflexivity. Qed.

Lemma stable_set_state f : stable (UI := UI) R (set_state f).
Proof. intros s; reflexivity. Qed.

Lemma stable_Date_now : stable R (@Date_now UI).
Proof. intros s; reflexivity. Qed.

Lemma stable_bind A B (m : M UI A) (f : A -> M UI B) :
  stable R m -> (forall a, stable R (f a)) -> stable R (bind m f).
Proof.
  intros Hm Hf s. unfold bind.
  specialize (Hm s). destruct (m s) as [[a|] s1]; simpl in *.
  - etransitivity; [exact Hm | apply Hf].
  - exact Hm.
Qed.

Lemma stable_try_catch A (m h : M UI A) :
  stable R m -> stable R h -> stable R (try_catch m h).
Proof.
  intros Hm Hh s. unfold try_catch.
  specialize (Hm s). destruct (m s) as [[a|] s1]; simpl in *.
  - exact Hm.
  - etransitivity; [exact Hm | apply Hh].
Qed.

Lemma stable_remote A (f : Backend -> Reply A * Backend) :
  (forall b, R b (snd (f b))) -> stable (UI := UI) R (remote f).
Proof.
  intros Hf s. unfold remote.
  destruct (hd Done (schedule s)); simpl; try reflexivity.
  specialize (Hf (store s)). destruct (f (store s)); simpl in *. exact Hf.
Qed.

Lemma stable_read A (f : Backend -> Reply A * Backend) :
  (forall b, snd (f b) = b) -> stable (UI := UI) R (remote f).
Proof.
  intros Hf. apply stable_remote.
  intros b. rewrite Hf. reflexivity.
Qed.
End Stability.

(** Reads leave the store as it is. *)
Lemma select_required_documents_reads assetId b :
  snd (Store.select_required_documents assetId b) = b.
Proof. reflexivity. Qed.

Lemma select_assets_of_user_reads userId b :
  snd (Store.select_assets_of_user userId b) = b.
Proof. reflexivity. Qed.

Lemma storage_list_reads folder b : snd (Store.storage_list folder b) = b.
Proof. reflexivity. Qed.

Lemma select_users_reads b : snd (BankAdmin.select_users b) = b.
Proof. reflexivity. Qed.

Lemma select_single_asset_reads userId b :
  snd (BankAdmin.select_single_asset userId b) = b.
Proof.
  unfold BankAdmin.select_single_asset.
  destruct (filter _ (assets b)) as [|a [|a' l]]; reflexivity.
Qed.

Lemma select_documents_reads assetId b :
  snd (BankAdmin.select_documents assetId b) = b.
Proof. reflexivity. Qed.

(** Breaks a handler into its calls: the reads are discharged, and what
    is left are the calls to the store that write. *)
Ltac frame_step :=
  match goal with
  | |- PreOrder _ => exact _
  | |- stable _ (bind _ _) => eapply stable_bind; [ exact _ | | intro ]
  | |- stable _ (try_catch _ _) => apply stable_try_catch
  | |- stable _ (ret _) => apply stable_ret
  | |- stable _ throw => apply stable_throw
  | |- stable _ (set_state _) => apply stable_set_state
  | |- stable _ Date_now => apply stable_Date_now
  | |- stable _ (remote (Store.select_required_documents _)) =>
      apply stable_read, select_required_documents_reads
  | |- stable _ (remote (Store.select_assets_of_user _)) =>
      apply stable_read, select_assets_of_user_reads
  | |- stable _ (remote (Store.storage_list _)) =>
      apply stable_read, storage_list_reads
  | |- stable _ (remote BankAdmin.select_users) =>
      apply stable_read, select_users_reads
  | |- stable _ (remote (BankAdmin.select_single_asset _)) =>
      apply stable_read, select_single_asset_reads
  | |- stable _ (remote (BankAdmin.select_documents _)) =>
      apply stable_read, select_documents_reads
  | |- stable _ (match Some _ with _ => _ end) => cbv iota
  | |- stable _ (match None with _ => _ end) => cbv iota
  | |- stable _ (if true then _ else _) => cbv iota
  | |- stable _ (if false then _ else _) => cbv iota
  | |- stable _ (match ?x with _ => _ end) => destruct x
  end.

Ltac frame_basic := repeat frame_step.

Section HandlerFrames.
Context (R : Backend -> Backend -> Prop) `{!PreOrder R}.
Variable SUPABASE_URL : string.
Variable snap : Dashboard.

Lemma fetchRequiredDocuments_stable assetId :
  stable R (StoreThenVerify.fetchRequiredDocuments assetId).
Proof. unfold StoreThenVerify.fetchRequiredDocuments. frame_basic. Qed.

Lemma fetchAssetImages_stable assetId :
  stable R (StoreThenVerify.fetchAssetImages SUPABASE_URL assetId).
Proof. unfold StoreThenVerify.fetchAssetImages. frame_basic. Qed.

Lemma refreshAssets_stable : stable R (StoreThenVerify.refreshAssets snap).
Proof. unfold StoreThenVerify.refreshAssets. frame_basic. Qed.

Lemma fetchRequiredDocuments_v4_stable assetId :
  stable R (VerifyThenStore.fetchRequiredDocuments assetId).
Proof. unfold VerifyThenStore.fetchRequiredDocuments. frame_basic. Qed.

Lemma fetchAssetImages_v4_stable assetId :
  stable R (VerifyThenStore.fetchAssetImages SUPABASE_URL assetId).
Proof. unfold VerifyThenStore.fetchAssetImages. frame_basic. Qed.
End HandlerFrames.

(** The same, through the fetches as well. *)
Ltac frame_call :=
  first [ apply fetchRequiredDocuments_stable
        | apply fetchAssetImages_stable
        | apply refreshAssets_stable
        | apply fetchRequiredDocuments_v4_stable
        | apply fetchAssetImages_v4_stable ].

Ltac frame := repeat first [ frame_call | frame_step ].

(* ---------------------------------------------------------------------- *)
(** ** The status evaluation *)

#[local] Instance agree_on_preorder X (part : Backend -> X) : PreOrder (agree_on part).
Proof.
  split.
  - intros b. reflexivity.
  - intros a b c Hab Hbc. unfold agree_on in *. congruence.
Qed.

Lemma stable_unchanged UI A (m : M UI A) s :
  stable eq m -> store (exec m s) = store s.
Proof. intros Hm. symmetry. apply Hm. Qed.











(* ---------------------------------------------------------------------- *)
(** ** The verification gate *)

Lemma uploadImageToSupabase_v4_not_accepted url snap assetId blob lat lon verifier geocoder :
  acceptedBeforeStoring verifier = false ->
  stable eq (VerifyThenStore.uploadImageToSupabase url snap assetId blob lat lon
               verifier geocoder).
Proof.
  intros Hrej. unfold VerifyThenStore.uploadImageToSupabase.
  destruct verifier as [|status body]; simpl in Hrej.
  - frame.
  - destruct (res_ok status); simpl in *.
    + destruct (Verifier.decodeStrict body) as [v|].
      * rewrite Hrej. simpl. frame.
      * frame.
    + frame.
Qed.






(* ---------------------------------------------------------------------- *)
(** ** Geotags *)

Section GeotagFacts.
Local Open Scope Q_scope.

Lemma round_near (t : Q) :
inject_Z (Math_round t) <= t + (1#2) /\ t + (1#2) < inject_Z (Math_round t) + 1.
Proof.
unfold Math_round. split.
- apply Qfloor_le.
- pose proof (Qlt_floor (t + (1#2))) as H.
  rewrite inject_Z_plus in H. exact H.
Qed.

(** What [degToRationalArray] writes is, read as rationals, within half a
  hundredth of a second of arc of the magnitude of its input. *)
Lemma degToRationalArray_accurate (deg : Q) :
exists v, Geotag.toDecimalDegrees_spec (Some (Geotag.degToRationalArray deg)) = Some v
          /\ Qabs (v - Qabs deg) <= 1 # 720000.
Proof.
unfold Geotag.degToRationalArray, Geotag.toDecimalDegrees_spec, Geotag.rational_value.
cbv zeta. eexists. split; [reflexivity|].
unfold Math_abs, Math_floor. cbn [fst snd].
generalize (Qabs deg). intros x.
generalize (inject_Z (Qfloor x)). intros D.
generalize (inject_Z (Qfloor ((x - D) * 60))). intros M.
pose proof (round_near (((x - D) * 60 - M) * 60 * 100)) as [Hlo Hhi].
revert Hlo Hhi.
generalize (inject_Z (Math_round (((x - D) * 60 - M) * 60 * 100))). intros S Hlo Hhi.
apply Qabs_Qle_condition.
change (inject_Z 1) with 1. change (inject_Z 100) with 100.
unfold Qdiv. change (/ 1) with 1. change (/ 60) with (1 # 60).
change (/ 100) with (1 # 100). change (/ 3600) with (1 # 3600).
split; lra.
Qed.

(** Embedding followed by the inverse operation as the specification
  words it stays within 1/720000 of a degree, for every input. *)
Lemma embedding_accurate_for_specified_inverse (lat lon : Q) :
exists lat' lon',
  Geotag.extractGps_spec (Geotag.getGpsIfd lat lon) = Some (lat', lon')
  /\ Qabs (lat' - lat) <= 1 # 720000
  /\ Qabs (lon' - lon) <= 1 # 720000.
Proof.
destruct (degToRationalArray_accurate lat) as (v & Hv & Hvb).
destruct (degToRationalArray_accurate lon) as (w & Hw & Hwb).
unfold Geotag.extractGps_spec, Geotag.getGpsIfd. cbn [Geotag.GPSLatitude Geotag.GPSLongitude Geotag.GPSLatitudeRef Geotag.GPSLongitudeRef].
rewrite Hv, Hw. do 2 eexists. split; [reflexivity|].
apply Qabs_Qle_condition in Hvb, Hwb.
split; apply Qabs_Qle_condition.
- destruct (Qle_bool 0 lat) eqn:E; cbn.
  + apply Qle_bool_iff in E. rewrite (Qabs_pos lat E) in Hvb. lra.
  + assert (lat < 0) by (apply Qnot_le_lt; intros C; apply Qle_bool_iff in C; congruence).
    rewrite (Qabs_neg lat) in Hvb by lra. lra.
- destruct (Qle_bool 0 lon) eqn:E; cbn.
  + apply Qle_bool_iff in E. rewrite (Qabs_pos lon E) in Hwb. lra.
  + assert (lon < 0) by (apply Qnot_le_lt; intros C; apply Qle_bool_iff in C; congruence).
    rewrite (Qabs_neg lon) in Hwb by lra. lra.
Qed.

(** C2 (evaluation of the code): for the latitude 1/64 = 0.015625 and the
  longitude 0.5 the embedded seconds are 5625/100, and the extraction of
  the gallery handler, which divides the numerator 5625 by 3600, returns
  the latitude 1.5625, more than 0.00001 away from the input. *)
Theorem roundTrip_loses_latitude :
Geotag.degToRationalArray (1 # 64) = [(0, 1); (0, 1); (5625, 100)]%Z
/\ exists lat' lon',
     Geotag.roundTrip (1 # 64) (1 # 2) = Some (lat', lon')
     /\ lat' == 25 # 16
     /\ lon' == 1 # 2
     /\ ~ Qabs (lat' - (1 # 64)) <= 1 # 100000.
Proof.
split; [reflexivity|].
do 2 eexists. split; [vm_compute; reflexivity|].
split; [reflexivity|]. split; [reflexivity|].
vm_compute. intros H. apply H. reflexivity.
Qed.

End GeotagFacts.

(* ---------------------------------------------------------------------- *)
(** ** Frames on the rows of [assets] *)

Lemma Forall2_reflexive A (P : A -> A -> Prop) `{!Reflexive P} (l : list A) :
  Forall2 P l l.
Proof. induction l as [|a l IH]; [constructor | constructor; [reflexivity | exact IH]]. Qed.

#[local] Instance assets_related_preorder P `{!PreOrder P} : PreOrder (assets_related P).
Proof.
  split.
  - intros b. apply Forall2_reflexive. exact _.
  - intros a b c. unfold assets_related.
    generalize (assets a) (assets b) (assets c). clear a b c.
    intros la lb lc Hab. revert lc.
    induction Hab as [|x y la lb Hxy Hab IH]; intros lc Hbc.
    + inversion Hbc. constructor.
    + inversion Hbc as [|y' z lb' lc' Hyz Hbc']; subst.
      constructor; [etransitivity; eassumption | apply IH; assumption].
Qed.

#[local] Instance same_preview_preorder : PreOrder same_preview.
Proof.
  split.
  - intros a. unfold same_preview. tauto.
  - intros a b c. unfold same_preview.
    intros (? & ? & ? & ?) (? & ? & ? & ?). repeat split; congruence.
Qed.

#[local] Instance same_but_status_preorder : PreOrder same_but_status.
Proof.
  split.
  - intros a. unfold same_but_status. tauto.
  - intros a b c. unfold same_but_status.
    intros (? & ? & ? & ? & ? & ? & ? & ? & ? & ?)
           (? & ? & ? & ? & ? & ? & ? & ? & ? & ?).
    repeat split; congruence.
Qed.

#[local] Instance same_verified_at_preorder : PreOrder same_verified_at.
Proof.
  split.
  - intros a. reflexivity.
  - intros a b c. unfold same_verified_at. congruence.
Qed.

#[local] Instance kept_or_pending_preorder : PreOrder kept_or_pending.
Proof.
  split.
  - intros a. left. reflexivity.
  - intros a b c. unfold kept_or_pending. intros [?|?] [?|?]; intuition congruence.
Qed.

#[local] Instance preview_kept_or_written_preorder accepted lat lon address :
  PreOrder (preview_kept_or_written accepted lat lon address).
Proof.
  split.
  - intros a. left. reflexivity.
  - intros a b c [Hab|Hab] [Hbc|Hbc].
    + left. etransitivity; eassumption.
    + right. exact Hbc.
    + right. destruct Hbc as (Hu & Hla & Hlo & Had).
      destruct Hab as (Hacc & [url Hurl] & ? & ? & ?).
      repeat split; try congruence. exists url. congruence.
    + right. exact Hbc.
Qed.

Section AssetFrames.
Context {UI : Type} (P : Asset.t -> Asset.t -> Prop) `{!PreOrder P}.

Lemma assets_related_same b b' :
  assets b' = assets b -> assets_related P b b'.
Proof.
  intros H. unfold assets_related. rewrite H.
  apply Forall2_reflexive. exact _.
Qed.

Lemma assets_related_update f assetId b :
  (forall a, P a (f a)) ->
  assets_related P b (Store.update_assets f assetId b).
Proof.
  intros Hf. unfold assets_related, Store.update_assets. simpl.
  induction (assets b) as [|a l IH]; simpl; [constructor|].
  constructor; [|exact IH].
  destruct (String.eqb (Asset.id a) assetId); [apply Hf | reflexivity].
Qed.

Lemma assets_related_update_at f assetId b :
  (forall a, Asset.id a = assetId -> P a (f a)) ->
  assets_related P b (Store.update_assets f assetId b).
Proof.
  intros Hf. unfold assets_related, Store.update_assets. simpl.
  induction (assets b) as [|a l IH]; simpl; [constructor|].
  constructor; [|exact IH].
  destruct (String.eqb (Asset.id a) assetId) eqn:E; [|reflexivity].
  apply Hf, String.eqb_eq, E.
Qed.

Lemma update_asset_status_frame_at assetId st :
  (forall a, Asset.id a = assetId -> P a (Asset.with_status st a)) ->
  stable (UI := UI) (assets_related P) (remote (Store.update_asset_status assetId st)).
Proof.
  intros H. apply stable_remote; [exact _|]. intros b.
  apply assets_related_update_at, H.
Qed.

Lemma storage_upload_frame path blob upsert :
  stable (UI := UI) (assets_related P) (remote (Store.storage_upload path blob upsert)).
Proof.
  apply stable_remote; [exact _|]. intros b. apply assets_related_same.
  unfold Store.storage_upload.
  destruct (Store.stored path b); [destruct upsert|]; reflexivity.
Qed.

Lemma storage_remove_frame path :
  stable (UI := UI) (assets_related P) (remote (Store.storage_remove path)).
Proof. apply stable_remote; [exact _|]. intros b. apply assets_related_same. reflexivity. Qed.

Lemma update_required_document_frame docId v at_ :
  stable (UI := UI) (assets_related P)
    (remote (Store.update_required_document docId v at_)).
Proof. apply stable_remote; [exact _|]. intros b. apply assets_related_same. reflexivity. Qed.

Lemma update_asset_status_frame assetId st :
  (forall a, P a (Asset.with_status st a)) ->
  stable (UI := UI) (assets_related P) (remote (Store.update_asset_status assetId st)).
Proof.
  intros H. apply stable_remote; [exact _|]. intros b. apply assets_related_update, H.
Qed.

Lemma update_asset_preview_frame assetId url lat lon address :
  (forall a, P a (Asset.with_preview url lat lon address a)) ->
  stable (UI := UI) (assets_related P)
    (remote (Store.update_asset_preview assetId url lat lon address)).
Proof.
  intros H. apply stable_remote; [exact _|]. intros b. apply assets_related_update, H.
Qed.
End AssetFrames.

(** The calls that write, for a relation on the rows of [assets]. *)
Ltac frame_write :=
  first [ apply storage_upload_frame
        | apply storage_remove_frame
        | apply update_required_document_frame
        | apply update_asset_status_frame; [exact _ | intro]
        | apply update_asset_preview_frame; [exact _ | intro] ].

Ltac frame_assets := repeat first [ frame_call | frame_step | frame_write ].

Section BeneficiaryFrames.
Context (P : Asset.t -> Asset.t -> Prop) `{!PreOrder P}.
Variable url : string.
Variable snap : Dashboard.
(** The write of the evaluation, which is made for the selected asset
    and under the condition of the render, respects the relation. *)
Hypothesis P_pending :
  forall sel a,
    selectedAsset snap = Some sel ->
    pendingCondition (requiredDocs snap) (assetImages snap) = true ->
    Asset.id a = Asset.id sel ->
    P a (Asset.with_status Pending a).

Lemma checkAndSetPendingStatus_frame :
  stable (assets_related P) (StoreThenVerify.checkAndSetPendingStatus url snap).
Proof.
  unfold StoreThenVerify.checkAndSetPendingStatus.
  destruct (selectedAsset snap) as [sel|] eqn:Hsel; [|frame].
  destruct (pendingCondition (requiredDocs snap) (assetImages snap)) eqn:Hcond;
    frame.
  apply update_asset_status_frame_at; [exact _|].
  intros row Hrow. apply (P_pending row eq_refl eq_refl Hrow).
Qed.

Lemma checkAndSetPendingStatus_v4_frame :
  stable (assets_related P) (VerifyThenStore.checkAndSetPendingStatus url snap).
Proof.
  unfold VerifyThenStore.checkAndSetPendingStatus.
  destruct (selectedAsset snap) as [sel|] eqn:Hsel; [|frame].
  destruct (pendingCondition (requiredDocs snap) (assetImages snap)) eqn:Hcond;
    frame.
  apply update_asset_status_frame_at; [exact _|].
  intros row Hrow. apply (P_pending row eq_refl eq_refl Hrow).
Qed.

Lemma handleDocumentCheck_frame docId v :
  stable (assets_related P) (StoreThenVerify.handleDocumentCheck url snap docId v).
Proof.
  pose proof checkAndSetPendingStatus_frame as Hcheck.
  unfold StoreThenVerify.handleDocumentCheck. frame_assets.
  all: exact Hcheck.
Qed.

Lemma handleDocumentCheck_v4_frame docId v :
  stable (assets_related P) (VerifyThenStore.handleDocumentCheck url snap docId v).
Proof.
  pose proof checkAndSetPendingStatus_v4_frame as Hcheck.
  unfold VerifyThenStore.handleDocumentCheck. frame_assets.
  all: exact Hcheck.
Qed.

Lemma handleDeleteImage_frame publicUrl :
  stable (assets_related P) (StoreThenVerify.handleDeleteImage url snap publicUrl).
Proof.
  pose proof checkAndSetPendingStatus_frame as Hcheck.
  unfold StoreThenVerify.handleDeleteImage. frame_assets.
  all: exact Hcheck.
Qed.

Lemma handleDeleteImage_v4_frame publicUrl :
  stable (assets_related P) (VerifyThenStore.handleDeleteImage url snap publicUrl).
Proof.
  pose proof checkAndSetPendingStatus_v4_frame as Hcheck.
  unfold VerifyThenStore.handleDeleteImage. frame_assets.
  all: exact Hcheck.
Qed.

Lemma openAssetDialog_frame asset :
  stable (assets_related P) (StoreThenVerify.openAssetDialog url asset).
Proof. unfold StoreThenVerify.openAssetDialog. frame_assets. Qed.

Lemma openAssetDialog_v4_frame asset :
  stable (assets_related P) (VerifyThenStore.openAssetDialog url asset).
Proof. unfold VerifyThenStore.openAssetDialog. frame_assets. Qed.

Lemma closeDialog_frame : stable (assets_related P) closeDialog.
Proof. unfold closeDialog. frame_assets. Qed.
End BeneficiaryFrames.

Section UploadFrames.
Context (P : Asset.t -> Asset.t -> Prop) `{!PreOrder P}.
Variable url : string.
Variable snap : Dashboard.
Hypothesis P_pending :
  forall sel a,
    selectedAsset snap = Some sel ->
    pendingCondition (requiredDocs snap) (assetImages snap) = true ->
    Asset.id a = Asset.id sel ->
    P a (Asset.with_status Pending a).
Variables (assetId : string) (blob : Blob) (lat lon : option Q).
Variables (verifier : FetchOutcome) (geocoder : GeocodeOutcome).

Lemma uploadImageToSupabase_frame :
  (is_real (Verifier.verifyImage verifier) = true ->
   forall image_url a,
     P a (Asset.with_preview (Some image_url) lat lon
            (uploadAddress lat lon geocoder) a)) ->
  stable (assets_related P)
    (StoreThenVerify.uploadImageToSupabase url snap assetId blob lat lon
       verifier geocoder).
Proof.
  intros Hwrite. unfold StoreThenVerify.uploadImageToSupabase.
  destruct (is_real (Verifier.verifyImage verifier)); simpl negb; cbv iota.
  - frame_assets.
    all: first [ apply Hwrite; reflexivity
               | apply checkAndSetPendingStatus_frame; [exact _ | exact P_pending] ].
  - frame_assets.
Qed.

Lemma uploadImageToSupabase_v4_frame :
  (acceptedBeforeStoring verifier = true ->
   forall image_url a,
     P a (Asset.with_preview (Some image_url) lat lon
            (uploadAddress lat lon geocoder) a)) ->
  stable (assets_related P)
    (VerifyThenStore.uploadImageToSupabase url snap assetId blob lat lon
       verifier geocoder).
Proof.
  intros Hwrite. unfold VerifyThenStore.uploadImageToSupabase.
  destruct verifier as [|status body]; [frame_assets|].
  simpl in Hwrite.
  destruct (res_ok status); simpl negb; cbv iota; [|frame_assets].
  destruct (Verifier.decodeStrict body) as [v|]; [|frame_assets].
  destruct (is_real v); simpl negb; cbv iota; [|frame_assets].
  frame_assets.
  all: first [ apply Hwrite; reflexivity
             | apply checkAndSetPendingStatus_v4_frame; [exact _ | exact P_pending] ].
Qed.
End UploadFrames.

Section ReviewerFrames.
Context (P : Asset.t -> Asset.t -> Prop) `{!PreOrder P}.
Variable url : string.
Variable snap : BankAdmin.t.

Lemma fetchUsers_frame : stable (assets_related P) BankAdmin.fetchUsers.
Proof. unfold BankAdmin.fetchUsers. frame_assets. Qed.

Lemma fetchAssetDetails_frame userId :
  stable (assets_related P) (BankAdmin.fetchAssetDetails url userId).
Proof. unfold BankAdmin.fetchAssetDetails. frame_assets. Qed.

Lemma handleUserClick_frame u :
  stable (assets_related P) (BankAdmin.handleUserClick u).
Proof. unfold BankAdmin.handleUserClick. frame_assets. Qed.

Lemma handleStatusUpdate_frame newStatus :
  (forall a, P a (Asset.with_status newStatus a)) ->
  stable (assets_related P) (BankAdmin.handleStatusUpdate snap newStatus).
Proof.
  intros Hwrite. unfold BankAdmin.handleStatusUpdate. frame_assets.
  - apply Hwrite.
  - apply fetchUsers_frame.
Qed.
End ReviewerFrames.

Lemma with_status_same_preview st a : same_preview a (Asset.with_status st a).
Proof. unfold same_preview. simpl. tauto. Qed.

Lemma with_status_same_but_status st a : same_but_status a (Asset.with_status st a).
Proof. unfold same_but_status. simpl. tauto. Qed.

Lemma with_status_same_verified_at st a : same_verified_at a (Asset.with_status st a).
Proof. reflexivity. Qed.

Lemma with_preview_same_verified_at u la lo ad a :
  same_verified_at a (Asset.with_preview u la lo ad a).
Proof. reflexivity. Qed.

Lemma with_status_kept_or_pending a : kept_or_pending a (Asset.with_status Pending a).
Proof. right. reflexivity. Qed.

Lemma with_preview_kept_or_pending u la lo ad a :
  kept_or_pending a (Asset.with_preview u la lo ad a).
Proof. left. reflexivity. Qed.

(* ---------------------------------------------------------------------- *)
(** ** When an asset becomes pending *)

#[local] Instance pending_only_if_complete_preorder snap :
  PreOrder (pending_only_if_complete snap).
Proof.
  split.
  - intros a. split; [reflexivity | left; reflexivity].
  - intros a b c [Hid1 H1] [Hid2 H2]. split; [congruence|].
    destruct H2 as [H2 | (Hp & (sel & Hsel & Hidsel) & Hc)].
    + destruct H1 as [H1 | (Hp & Hs & Hc)].
      * left. congruence.
      * right. split; [congruence | split; assumption].
    + right. split; [exact Hp | split; [|exact Hc]].
      exists sel. split; [exact Hsel | congruence].
Qed.





(* ---------------------------------------------------------------------- *)
(** ** Rejected uploads *)

Lemma stored_after_remove path objs b :
  Store.stored path
    (Store.with_bucket (filter (fun o => negb (String.eqb (fst o) path)) objs) b)
  = false.
Proof.
  unfold Store.stored. simpl.
  induction objs as [|o l IH]; simpl; [reflexivity|].
  destruct (String.eqb (fst o) path) eqn:E; simpl; [exact IH|].
  rewrite E. exact IH.
Qed.

Lemma no_fault_head o outcomes : no_fault (o :: outcomes) -> o = Done.
Proof. intros H. apply H. left. reflexivity. Qed.

Lemma no_fault_tail o outcomes : no_fault (o :: outcomes) -> no_fault outcomes.
Proof. intros H x Hx. apply H. right. exact Hx. Qed.

Lemma stored_after_upload_remove path blob upsert b :
  Store.stored path
    (snd (Store.storage_remove path (snd (Store.storage_upload path blob upsert b))))
  = false.
Proof. apply stored_after_remove. Qed.

(** Under a schedule without faults the first attempt of an upload fails
    only on a path that is taken, and then the second attempt, with
    [upsert], goes through. *)
Lemma storage_upload_retry path blob b :
  fst (Store.storage_upload path blob false b) = Error ->
  fst (Store.storage_upload path blob true b) = Data tt.
Proof.
  unfold Store.storage_upload. destruct (Store.stored path b); [reflexivity | discriminate].
Qed.

Lemma storage_upload_error_keeps path blob b :
  fst (Store.storage_upload path blob false b) = Error ->
  snd (Store.storage_upload path blob false b) = b.
Proof.
  unfold Store.storage_upload. destruct (Store.stored path b); [reflexivity | discriminate].
Qed.

(** In the first version a rejected image is removed again when the store
    carries out every call. *)
Lemma rejected_upload_removed url snap assetId blob lat lon verifier geocoder s :
  is_real (Verifier.verifyImage verifier) = false ->
  no_fault (schedule s) ->
  Store.stored (uploadPath assetId s)
    (store (exec (StoreThenVerify.uploadImageToSupabase url snap assetId blob
                    lat lon verifier geocoder) s)) = false.
Proof.
  intros Hrej Hnf. destruct s as [b sch clk d]. unfold uploadPath.
  cbn [schedule clock] in *.
  unfold exec, StoreThenVerify.uploadImageToSupabase.
  rewrite Hrej. simpl negb. cbv iota.
  assert (H1 : hd Done sch = Done)
    by (destruct sch; [reflexivity | apply (no_fault_head Hnf)]).
  assert (H2 : hd Done (tl sch) = Done).
  { destruct sch as [|o1 [|o2 sch]]; try reflexivity.
    apply no_fault_tail in Hnf. apply (no_fault_head Hnf). }
  assert (H3 : hd Done (tl (tl sch)) = Done).
  { destruct sch as [|o1 [|o2 [|o3 sch]]]; try reflexivity.
    do 2 apply no_fault_tail in Hnf. apply (no_fault_head Hnf). }
  unfold bind, Date_now, set_state, try_catch, remote, ret, throw.
  cbn [store schedule clock ui fst snd]. rewrite H1.
  remember (assetId ++ "/" ++ string_of_instant (clk 0%nat) ++ ".jpg") as path.
  pose proof (@storage_upload_retry path blob b) as Hretry.
  pose proof (@storage_upload_error_keeps path blob b) as Hkeep.
  destruct (Store.storage_upload path blob false b) as [[[]|] b1] eqn:E1;
    cbn [store schedule clock ui fst snd] in *.
  - rewrite H2. cbn [store schedule clock ui fst snd].
    change b1 with (snd (Data tt, b1)). rewrite <- E1.
    apply stored_after_upload_remove.
  - rewrite H2. specialize (Hretry eq_refl). specialize (Hkeep eq_refl). subst b1.
    destruct (Store.storage_upload path blob true b) as [r2 b2] eqn:E2.
    cbn [fst] in Hretry. subst r2.
    cbn [store schedule clock ui fst snd]. rewrite H3.
    cbn [store schedule clock ui fst snd].
    change b2 with (snd (Data tt, b2)). rewrite <- E2.
    apply stored_after_upload_remove.
Qed.

Lemma preview_kept_when_not_accepted lat lon address b b' :
  assets_related (preview_kept_or_written false lat lon address) b b' ->
  assets_related same_preview b b'.
Proof.
  unfold assets_related. intros H.
  induction H as [|a a' l l' Haa' H IH]; constructor; [|exact IH].
  destruct Haa' as [Hkept | (Hacc & _)]; [exact Hkept | discriminate].
Qed.

(** C5 (as amended): an upload that the verification rejects leaves the
    four preview fields of every asset as they were, in both versions; the
    version that verifies first does not store the image at all, and the
    version that stores first removes it again provided the store carries
    out its calls.  The four fields are written together and only by an
    accepted upload: every other handler of the two dashboards keeps
    them. *)
Theorem rejected_upload_leaves_no_trace :
  (forall url snap assetId blob lat lon verifier geocoder s,
      acceptedBeforeStoring verifier = false ->
      store (exec (VerifyThenStore.uploadImageToSupabase url snap assetId blob
                     lat lon verifier geocoder) s) = store s)
  /\ (forall url snap assetId blob lat lon verifier geocoder s,
        is_real (Verifier.verifyImage verifier) = false ->
        assets_related same_preview (store s)
          (store (exec (StoreThenVerify.uploadImageToSupabase url snap assetId
                          blob lat lon verifier geocoder) s))
        /\ (no_fault (schedule s) ->
            Store.stored (uploadPath assetId s)
              (store (exec (StoreThenVerify.uploadImageToSupabase url snap
                              assetId blob lat lon verifier geocoder) s)) = false))
  /\ (forall url snap assetId blob lat lon verifier geocoder s,
        assets_related
          (preview_kept_or_written (is_real (Verifier.verifyImage verifier))
             lat lon (uploadAddress lat lon geocoder))
          (store s)
          (store (exec (StoreThenVerify.uploadImageToSupabase url snap assetId
                          blob lat lon verifier geocoder) s))
        /\ assets_related
             (preview_kept_or_written (acceptedBeforeStoring verifier)
                lat lon (uploadAddress lat lon geocoder))
             (store s)
             (store (exec (VerifyThenStore.uploadImageToSupabase url snap assetId
                             blob lat lon verifier geocoder) s)))
  /\ (forall url snap,
        (forall docId v,
            stable (assets_related same_preview)
              (StoreThenVerify.handleDocumentCheck url snap docId v)
            /\ stable (assets_related same_preview)
                 (VerifyThenStore.handleDocumentCheck url snap docId v))
        /\ (forall publicUrl,
              stable (assets_related same_preview)
                (StoreThenVerify.handleDeleteImage url snap publicUrl)
              /\ stable (assets_related same_preview)
                   (VerifyThenStore.handleDeleteImage url snap publicUrl))
        /\ stable (assets_related same_preview)
             (StoreThenVerify.checkAndSetPendingStatus url snap)
        /\ stable (assets_related same_preview)
             (VerifyThenStore.checkAndSetPendingStatus url snap))
  /\ (forall admin newStatus,
        stable (assets_related same_preview)
          (BankAdmin.handleStatusUpdate admin newStatus)).
Proof.
  assert (Hupload1 : forall url snap assetId blob lat lon verifier geocoder,
             stable (assets_related
                       (preview_kept_or_written (is_real (Verifier.verifyImage verifier))
                          lat lon (uploadAddress lat lon geocoder)))
               (StoreThenVerify.uploadImageToSupabase url snap assetId blob lat lon
                  verifier geocoder)).
  { intros. apply uploadImageToSupabase_frame; [exact _ | |].
    - intros a. left. apply with_status_same_preview.
    - intros Hacc image_url a. right. rewrite Hacc. simpl.
      repeat split. exists image_url. reflexivity. }
  assert (Hupload4 : forall url snap assetId blob lat lon verifier geocoder,
             stable (assets_related
                       (preview_kept_or_written (acceptedBeforeStoring verifier)
                          lat lon (uploadAddress lat lon geocoder)))
               (VerifyThenStore.uploadImageToSupabase url snap assetId blob lat lon
                  verifier geocoder)).
  { intros. apply uploadImageToSupabase_v4_frame; [exact _ | |].
    - intros a. left. apply with_status_same_preview.
    - intros Hacc image_url a. right. rewrite Hacc. simpl.
      repeat split. exists image_url. reflexivity. }
  split; [|split; [|split; [|split]]].
  - intros. apply stable_unchanged, uploadImageToSupabase_v4_not_accepted. assumption.
  - intros url snap assetId blob lat lon verifier geocoder s Hrej. split.
    + apply preview_kept_when_not_accepted with (lat := lat) (lon := lon)
        (address := uploadAddress lat lon geocoder).
      rewrite <- Hrej. apply Hupload1.
    + intros Hnf. apply rejected_upload_removed; assumption.
  - intros. split; [apply Hupload1 | apply Hupload4].
  - intros url snap. repeat split.
    + apply handleDocumentCheck_frame; [exact _ | intros; apply with_status_same_preview].
    + apply handleDocumentCheck_v4_frame; [exact _ | intros; apply with_status_same_preview].
    + apply handleDeleteImage_frame; [exact _ | intros; apply with_status_same_preview].
    + apply handleDeleteImage_v4_frame; [exact _ | intros; apply with_status_same_preview].
    + apply checkAndSetPendingStatus_frame; [exact _ | intros; apply with_status_same_preview].
    + apply checkAndSetPendingStatus_v4_frame; [exact _ | intros; apply with_status_same_preview].
  - intros admin newStatus.
    apply handleStatusUpdate_frame; [exact _ | intros a; apply with_status_same_preview].
Qed.

Lemma rejected_upload_leaves_no_trace_witness :
  Store.stored (uploadPath "a1" (ScenarioD.before []))
    (store (ScenarioD.after [])) = false.
Proof.
  refine (proj2 (proj1 (proj2 rejected_upload_leaves_no_trace) Sample.url
                   ScenarioD.snap "a1" "fake-bytes" (Some (37 # 2)) (Some (295 # 4))
                   Sample.rejects (GeocodeReply (Some "Pune, Maharashtra"))
                   (ScenarioD.before []) _) _).
  - reflexivity.
  - intros o Ho. destruct Ho.
Defined.

(** C5 (as stated) fails: in the version that stores first, when the
    store answers the removal with an error the rejected image is still
    stored after the upload has completed. *)
Lemma rejected_image_still_stored :
  is_real (Verifier.verifyImage Sample.rejects) = false
  /\ Store.stored (uploadPath "a1" (ScenarioD.before [Done; Failed]))
       (store (ScenarioD.after [Done; Failed])) = true
  /\ processing (ui (ScenarioD.after [Done; Failed])) = false.
Proof. vm_compute. repeat split. Qed.

(* ---------------------------------------------------------------------- *)
(** ** Deleting images *)

(** Whatever is deleted, and whatever the store answers, the deletion
    leaves every status as it was or makes it ['pending']: no status goes
    back to ['non-verified']. *)
Lemma handleDeleteImage_never_reverts url snap publicUrl :
  stable (assets_related kept_or_pending)
    (StoreThenVerify.handleDeleteImage url snap publicUrl)
  /\ stable (assets_related kept_or_pending)
       (VerifyThenStore.handleDeleteImage url snap publicUrl).
Proof.
  split.
  - apply handleDeleteImage_frame; [exact _ | intros; apply with_status_kept_or_pending].
  - apply handleDeleteImage_v4_frame; [exact _ | intros; apply with_status_kept_or_pending].
Qed.

(** C3 (evaluation of the code): a pending asset has one required
    document, checked, and one stored image; the beneficiary deletes the
    image shown in the dialog.  Afterwards no image is stored for the
    asset, the required document is still there, and the status is still
    ['pending'], in both versions of the dashboard. *)
Theorem deleting_last_image_keeps_pending :
  status_of "a1" Sample.complete = Some Pending
  /\ nth_error (assetImages ScenarioDelete.snap) (currentImageIndex ScenarioDelete.snap)
     = Some ScenarioDelete.photoUrl
  /\ (storedImagesOf "a1" (store ScenarioDelete.after) = []
      /\ length (requiredDocumentsOf "a1" (store ScenarioDelete.after)) = 1%nat
      /\ status_of "a1" (store ScenarioDelete.after) = Some Pending)
  /\ (storedImagesOf "a1" (store ScenarioDelete.after_v4) = []
      /\ length (requiredDocumentsOf "a1" (store ScenarioDelete.after_v4)) = 1%nat
      /\ status_of "a1" (store ScenarioDelete.after_v4) = Some Pending).
Proof. vm_compute. repeat split. Qed.

(* ---------------------------------------------------------------------- *)
(** ** The reviewer's decision and the fields it leaves alone *)

Lemma handleStatusUpdate_keeps X (part : Backend -> X) admin newStatus :
  (forall f assetId b, part (Store.update_assets f assetId b) = part b) ->
  stable (agree_on part) (BankAdmin.handleStatusUpdate admin newStatus).
Proof.
  intros Hpart. unfold BankAdmin.handleStatusUpdate, BankAdmin.fetchUsers. frame.
  apply stable_remote; [exact _|]. intros b. apply Hpart.
Qed.

(** C10: a grant or a reject writes the status of asset rows and nothing
    else: every other field of every asset, and the other tables and the
    bucket, are as they were.  No handler of the two dashboards of the
    beneficiary, and none of the reviewer's, writes [verified_at]. *)
Theorem reviewer_decision_writes_status_only :
  (forall admin newStatus s,
      let s' := exec (BankAdmin.handleStatusUpdate admin newStatus) s in
      assets_related same_but_status (store s) (store s')
      /\ required_documents (store s') = required_documents (store s)
      /\ users (store s') = users (store s)
      /\ bucket (store s') = bucket (store s))
  /\ (forall url snap,
        (forall docId v,
            stable (assets_related same_verified_at)
              (StoreThenVerify.handleDocumentCheck url snap docId v)
            /\ stable (assets_related same_verified_at)
                 (VerifyThenStore.handleDocumentCheck url snap docId v))
        /\ (forall publicUrl,
              stable (assets_related same_verified_at)
                (StoreThenVerify.handleDeleteImage url snap publicUrl)
              /\ stable (assets_related same_verified_at)
                   (VerifyThenStore.handleDeleteImage url snap publicUrl))
        /\ (forall assetId blob lat lon verifier geocoder,
              stable (assets_related same_verified_at)
                (StoreThenVerify.uploadImageToSupabase url snap assetId blob
                   lat lon verifier geocoder)
              /\ stable (assets_related same_verified_at)
                   (VerifyThenStore.uploadImageToSupabase url snap assetId blob
                      lat lon verifier geocoder))
        /\ (stable (assets_related same_verified_at)
              (StoreThenVerify.checkAndSetPendingStatus url snap)
            /\ stable (assets_related same_verified_at)
                 (VerifyThenStore.checkAndSetPendingStatus url snap))
        /\ (forall asset,
              stable (assets_related same_verified_at)
                (StoreThenVerify.openAssetDialog url asset)
              /\ stable (assets_related same_verified_at)
                   (VerifyThenStore.openAssetDialog url asset))
        /\ stable (assets_related same_verified_at) closeDialog)
  /\ (forall url admin,
        stable (assets_related same_verified_at) BankAdmin.fetchUsers
        /\ (forall userId,
              stable (assets_related same_verified_at)
                (BankAdmin.fetchAssetDetails url userId))
        /\ (forall u,
              stable (assets_related same_verified_at) (BankAdmin.handleUserClick u))
        /\ (forall newStatus,
              stable (assets_related same_verified_at)
                (BankAdmin.handleStatusUpdate admin newStatus))).
Proof.
  split; [|split].
  - intros admin newStatus s s'. subst s'. repeat split.
    + apply handleStatusUpdate_frame; [exact _|].
      intros a. apply with_status_same_but_status.
    + apply (handleStatusUpdate_keeps required_documents). reflexivity.
    + apply (handleStatusUpdate_keeps users). reflexivity.
    + apply (handleStatusUpdate_keeps bucket). reflexivity.
  - intros url snap. repeat split.
    + apply handleDocumentCheck_frame; [exact _ | intros; apply with_status_same_verified_at].
    + apply handleDocumentCheck_v4_frame; [exact _ | intros; apply with_status_same_verified_at].
    + apply handleDeleteImage_frame; [exact _ | intros; apply with_status_same_verified_at].
    + apply handleDeleteImage_v4_frame; [exact _ | intros; apply with_status_same_verified_at].
    + apply uploadImageToSupabase_frame; [exact _ | intros; apply with_status_same_verified_at |].
      intros _ image_url a. apply with_preview_same_verified_at.
    + apply uploadImageToSupabase_v4_frame; [exact _ | intros; apply with_status_same_verified_at |].
      intros _ image_url a. apply with_preview_same_verified_at.
    + apply checkAndSetPendingStatus_frame; [exact _ | intros; apply with_status_same_verified_at].
    + apply checkAndSetPendingStatus_v4_frame; [exact _ | intros; apply with_status_same_verified_at].
    + apply openAssetDialog_frame; exact _.
    + apply openAssetDialog_v4_frame; exact _.
    + apply closeDialog_frame; exact _.
  - intros url admin. repeat split.
    + apply fetchUsers_frame; exact _.
    + intros userId. apply fetchAssetDetails_frame; exact _.
    + intros u. apply handleUserClick_frame; exact _.
    + intros newStatus. apply handleStatusUpdate_frame; [exact _|].
      intros a. apply with_status_same_verified_at.
Qed.

(* ---------------------------------------------------------------------- *)
(** ** Checklist toggles *)

Section ToggleRows.
Variable docId : string.
Variable v : bool.





End ToggleRows.

Lemma try_catch_ret_store UI (m : M UI unit) s :
  store (snd (try_catch m (ret tt) s)) = store (snd (m s)).
Proof. unfold try_catch, ret. destruct (m s) as [[[]|] s']; reflexivity. Qed.










(* ---------------------------------------------------------------------- *)
(** ** The reviewer's decision flow *)


(** What the decision does: it keeps the details the page holds, and
    writes the status of the asset they name, or nothing. *)
Lemma handleStatusUpdate_effect snap details newStatus s :
  BankAdmin.assetDetails snap = Some details ->
  let s' := exec (BankAdmin.handleStatusUpdate snap newStatus) s in
  BankAdmin.assetDetails (ui s') = BankAdmin.assetDetails (ui s)
  /\ (store s' = store s
      \/ store s' = Store.update_assets (Asset.with_status newStatus)
                      (BankAdmin.id details) (store s)).
Proof.
  intros Hd s'. subst s'. unfold exec, BankAdmin.handleStatusUpdate, BankAdmin.fetchUsers.
  rewrite Hd. destruct s as [b sch clk d].
  destruct sch as [|o1 [|o2 rest]]; try destruct o1; try destruct o2;
    cbn; split; auto.
Qed.

(** What a fetch of asset details does: it keeps the store, and either
    keeps the details the page holds or replaces them by a copy of a row
    of the store. *)
Lemma fetchAssetDetails_effect url userId s :
  let s' := exec (BankAdmin.fetchAssetDetails url userId) s in
  store s' = store s
  /\ (BankAdmin.assetDetails (ui s') = BankAdmin.assetDetails (ui s)
      \/ exists a d,
           In a (assets (store s))
           /\ BankAdmin.assetDetails (ui s') = Some d
           /\ BankAdmin.id d = Asset.id a
           /\ BankAdmin.status d = Asset.status a).
Proof.
  intros s'. subst s'. split.
  - apply stable_unchanged. unfold BankAdmin.fetchAssetDetails. frame.
  - unfold exec, BankAdmin.fetchAssetDetails. destruct s as [b sch clk d].
    unfold bind, remote, ret, set_state, BankAdmin.select_single_asset.
    cbn [store schedule clock ui fst snd].
    destruct (filter (fun a => option_string_eqb (Asset.user_id a) userId) (assets b))
      as [|a [|a' l]] eqn:Hf.
    + destruct (hd Done sch); cbn; auto.
    + assert (Ha : In a (assets b)).
      { assert (Hin : In a (filter (fun a => option_string_eqb (Asset.user_id a) userId)
                              (assets b))) by (rewrite Hf; left; reflexivity).
        apply filter_In in Hin. tauto. }
      destruct sch as [|o1 [|o2 [|o3 rest]]];
        try destruct o1; try destruct o2; try destruct o3;
        cbn; auto;
        destruct (Status_eqb (Asset.status a) Pending); cbn; auto;
        right; exists a; eexists; repeat split; try exact Ha; reflexivity.
    + destruct (hd Done sch); cbn; auto.
Qed.







(* ====================================================================== *)
(** * Further properties of the code *)

(* ---------------------------------------------------------------------- *)
(** ** The GPS block *)

Section GeotagRanges.
Local Open Scope Q_scope.




Lemma degToRationalArray_compat (x y : Q) :
  Qabs x == Qabs y -> Geotag.degToRationalArray x = Geotag.degToRationalArray y.
Proof.
  intros H. unfold Geotag.degToRationalArray, Math_floor, Math_abs, Math_round. cbv zeta.
  assert (Hd : Qfloor (Qabs x) = Qfloor (Qabs y)) by (apply Qfloor_comp, H).
  rewrite Hd.
  assert (Hm : (Qabs x - inject_Z (Qfloor (Qabs y))) * 60
               == (Qabs y - inject_Z (Qfloor (Qabs y))) * 60) by (rewrite H; reflexivity).
  assert (Hmf : Qfloor ((Qabs x - inject_Z (Qfloor (Qabs y))) * 60)
                = Qfloor ((Qabs y - inject_Z (Qfloor (Qabs y))) * 60))
    by (apply Qfloor_comp, Hm).
  rewrite Hmf.
  match goal with
  | |- [_; _; (Qfloor ?a, _)] = [_; _; (Qfloor ?b, _)] =>
      assert (Hs : Qfloor a = Qfloor b) by (apply Qfloor_comp; rewrite Hm; reflexivity)
  end.
  rewrite Hs. reflexivity.
Qed.

(** X2: in the GPS block that [getGpsIfd] builds the sign of a coordinate
    is carried by the reference letter alone: N and E for coordinates that
    are zero or positive, S and W for negative ones, and the three
    rationals are the same for a coordinate and its opposite. *)
Theorem hemisphere_carries_the_sign (lat lon : Q) :
  (Geotag.GPSLatitudeRef (Geotag.getGpsIfd lat lon)
     = Some (if Qle_bool 0 lat then "N" else "S")%string
   /\ Geotag.GPSLongitudeRef (Geotag.getGpsIfd lat lon)
     = Some (if Qle_bool 0 lon then "E" else "W")%string)
  /\ (Qle_bool 0 lat = true <-> 0 <= lat)
  /\ (Qle_bool 0 lon = true <-> 0 <= lon)
  /\ Geotag.GPSLatitude (Geotag.getGpsIfd (- lat) lon)
     = Geotag.GPSLatitude (Geotag.getGpsIfd lat lon)
  /\ Geotag.GPSLongitude (Geotag.getGpsIfd lat (- lon))
     = Geotag.GPSLongitude (Geotag.getGpsIfd lat lon).
Proof.
  split; [split; reflexivity|].
  split; [apply Qle_bool_iff|]. split; [apply Qle_bool_iff|].
  split; simpl; f_equal; apply degToRationalArray_compat, Qabs_opp.
Qed.

(** X3: the extraction of the gallery and drag-and-drop handlers yields
    coordinates exactly when the block has a latitude and a longitude tag
    of at least three rationals each; in every other case the coordinates
    stay [null] and the handler falls back to geolocation.  A missing
    reference letter does not make it fail. *)
Theorem extractGps_defined_iff (g : Geotag.GpsIfd) :
  (exists coords, Geotag.extractGps g = Some coords)
  <-> exists la lo,
        Geotag.GPSLatitude g = Some la /\ Geotag.GPSLongitude g = Some lo
        /\ (3 <= length la)%nat /\ (3 <= length lo)%nat.
Proof.
  unfold Geotag.extractGps, Geotag.toDecimalDegrees, Geotag.numerator_at.
  destruct (Geotag.GPSLatitude g) as [la|], (Geotag.GPSLongitude g) as [lo|].
  - destruct la as [|[a1 a2] [|[b1 b2] [|[c1 c2] la]]];
      destruct lo as [|[d1 d2] [|[e1 e2] [|[f1 f2] lo]]]; simpl;
      split;
      try (intros [coords Hc]; discriminate);
      try (intros (la' & lo' & Hla & Hlo & H1 & H2);
           injection Hla as <-; injection Hlo as <-; simpl in *; lia).
    + intros _. do 2 eexists. repeat split; simpl; lia.
    + intros _. eexists. reflexivity.
  - split; [|intros (la' & lo' & _ & Hlo & _); discriminate].
    destruct la as [|[a1 a2] [|[b1 b2] [|[c1 c2] la]]]; simpl;
      intros [coords Hc]; discriminate.
  - split; [intros [coords Hc]; discriminate|].
    intros (la' & lo' & Hla & _); discriminate.
  - split; [intros [coords Hc]; discriminate|].
    intros (la' & lo' & Hla & _); discriminate.
Qed.





End GeotagRanges.

(* ---------------------------------------------------------------------- *)
(** ** Accepted uploads *)


#[local] Instance keeps_preorder Q : PreOrder (keeps Q).
Proof. split; [intros a Ha; exact Ha | intros a b c Hab Hbc Ha; exact (Hbc (Hab Ha))]. Qed.

Lemma keeps_Forall Q (b b' : Backend) :
  assets_related (keeps Q) b b' -> Forall Q (assets b) -> Forall Q (assets b').
Proof.
  unfold assets_related. intros H. induction H as [|a a' l l' Ha _ IH]; intros HQ.
  - constructor.
  - inversion HQ; subst. constructor; [apply Ha; assumption | apply IH; assumption].
Qed.

Lemma checkAndSetPendingStatus_keeps X (part : Backend -> X) url snap :
  (forall f assetId b, part (Store.update_assets f assetId b) = part b) ->
  stable (agree_on part) (StoreThenVerify.checkAndSetPendingStatus url snap)
  /\ stable (agree_on part) (VerifyThenStore.checkAndSetPendingStatus url snap).
Proof.
  intros Hpart. split.
  - unfold StoreThenVerify.checkAndSetPendingStatus. frame.
    apply stable_remote; [exact _|]. intros b. apply Hpart.
  - unfold VerifyThenStore.checkAndSetPendingStatus. frame.
    apply stable_remote; [exact _|]. intros b. apply Hpart.
Qed.

Lemma linked_after_write assetId url lat lon address l :
  Forall (linked_to assetId url lat lon address)
    (map (fun a => if String.eqb (Asset.id a) assetId
                   then Asset.with_preview (Some url) lat lon address a else a) l).
Proof.
  induction l as [|a l IH]; simpl; constructor; [|exact IH].
  destruct (String.eqb (Asset.id a) assetId) eqn:E.
  - intros _. simpl. repeat split.
  - intros Hid. apply String.eqb_neq in E. contradiction.
Qed.

Lemma with_status_keeps_linked assetId url lat lon address st a :
  keeps (linked_to assetId url lat lon address) a (Asset.with_status st a).
Proof. intros H. exact H. Qed.

Lemma upload_puts_object path blob upsert b :
  fst (Store.storage_upload path blob upsert b) = Data tt ->
  In (path, blob) (bucket (snd (Store.storage_upload path blob upsert b))).
Proof.
  unfold Store.storage_upload, Store.stored.
  destruct (existsb _ (bucket b)) eqn:E.
  - destruct upsert; [|discriminate]. intros _. simpl.
    apply existsb_exists in E. destruct E as (o & Ho & Eo).
    apply in_map_iff. exists o. rewrite Eo. split; [reflexivity | exact Ho].
  - intros _. simpl. apply in_or_app. right. left. reflexivity.
Qed.

Lemma no_fault_hd outcomes : no_fault outcomes -> hd Done outcomes = Done.
Proof. destruct outcomes; [reflexivity | apply no_fault_head]. Qed.

Lemma no_fault_tl outcomes : no_fault outcomes -> no_fault (tl outcomes).
Proof.
  destruct outcomes; [intros H; exact H | apply no_fault_tail].
Qed.

Section AcceptedUpload.
Variables (url : string) (snap : Dashboard).
Variables (assetId : string) (lat lon : option Q) (address : option string).
Variable image_url : string.

Lemma evaluation_keeps_linked :
  stable (assets_related (keeps (linked_to assetId image_url lat lon address))) (StoreThenVerify.checkAndSetPendingStatus url snap)
  /\ stable (assets_related (keeps (linked_to assetId image_url lat lon address)))
       (VerifyThenStore.checkAndSetPendingStatus url snap).
Proof.
  split.
  - apply checkAndSetPendingStatus_frame; [exact _|].
    intros sel a _ _ _. apply with_status_keeps_linked.
  - apply checkAndSetPendingStatus_v4_frame; [exact _|].
    intros sel a _ _ _. apply with_status_keeps_linked.
Qed.

Lemma after_accepted_write (rest : M Dashboard unit) s o :
  stable (agree_on bucket) rest ->
  stable (assets_related (keeps (linked_to assetId image_url lat lon address))) rest ->
  In o (bucket (store s)) ->
  Forall (linked_to assetId image_url lat lon address) (assets (store s)) ->
  In o (bucket (store (snd (rest s))))
  /\ Forall (linked_to assetId image_url lat lon address) (assets (store (snd (rest s)))).
Proof.
  intros Hb Ha Ho Hl. split.
  - rewrite (Hb s). exact Ho.
  - apply (keeps_Forall (Ha s) Hl).
Qed.
End AcceptedUpload.

Arguments after_accepted_write : clear implicits.
Arguments evaluation_keeps_linked : clear implicits.

Ltac wrap_store :=
  match goal with
  | |- In ?o (bucket ?st) /\ Forall ?L (assets ?st) =>
      let Good := fresh "Good" in
      set (Good := fun b0 : Backend => In o (bucket b0) /\ Forall L (assets b0));
      change (Good st)
  end.

Ltac after_write :=
  match goal with
  | Good := _ |- _ => subst Good; cbv beta
  end;
  match goal with
  | |- In ?o (bucket (store (snd (?rest ?s2)))) /\ Forall (linked_to ?i ?u ?la ?lo ?ad) _ =>
      apply (after_accepted_write i la lo ad u rest s2 o)
  end.

Lemma store_bind_set_state UI (m : M UI unit) f s :
  store (snd (bind m (fun _ => set_state f) s)) = store (snd (m s)).
Proof.
  unfold bind, set_state. destruct (m s) as [[[]|] s']; reflexivity.
Qed.

(** X5: an upload that the verification accepts, the store carrying out
    its calls, leaves the image in the bucket under the path
    [assetId/<instant>.jpg] and writes into every row of the asset the public
    URL of that very path, the coordinates and the address.  The first
    version does so even when the path is taken (it overwrites the object);
    the second needs the path to be free. *)
Theorem accepted_upload_stores_and_links :
  (forall url snap assetId blob lat lon verifier geocoder s,
      is_real (Verifier.verifyImage verifier) = true ->
      no_fault (schedule s) ->
      let s' := exec (StoreThenVerify.uploadImageToSupabase url snap assetId blob
                        lat lon verifier geocoder) s in
      In (uploadPath assetId s, blob) (bucket (store s'))
      /\ Forall (linked_to assetId (publicUrl url (uploadPath assetId s)) lat lon
                   (uploadAddress lat lon geocoder))
           (assets (store s')))
  /\ (forall url snap assetId blob lat lon verifier geocoder s,
        acceptedBeforeStoring verifier = true ->
        no_fault (schedule s) ->
        Store.stored (uploadPath assetId s) (store s) = false ->
        let s' := exec (VerifyThenStore.uploadImageToSupabase url snap assetId blob
                          lat lon verifier geocoder) s in
        In (uploadPath assetId s, blob) (bucket (store s'))
        /\ Forall (linked_to assetId (publicUrl url (uploadPath assetId s)) lat lon
                     (uploadAddress lat lon geocoder))
             (assets (store s'))).
Proof.
  split.
  - intros url snap assetId blob lat lon verifier geocoder s Hacc Hnf s'. subst s'.
    destruct s as [b sch clk d]. unfold uploadPath. cbn [schedule clock] in *.
    unfold exec. wrap_store.
    unfold StoreThenVerify.uploadImageToSupabase.
    rewrite Hacc. simpl negb. cbv iota.
    fold (uploadAddress lat lon geocoder).
    pose proof (no_fault_hd Hnf) as H1.
    pose proof (no_fault_hd (no_fault_tl Hnf)) as H2.
    pose proof (no_fault_hd (no_fault_tl (no_fault_tl Hnf))) as H3.
    unfold bind at 1. unfold Date_now at 1. cbn [store schedule clock ui fst snd].
    rewrite store_bind_set_state, try_catch_ret_store.
    remember (assetId ++ "/" ++ string_of_instant (clk 0%nat) ++ ".jpg") as path.
    unfold bind at 1. unfold set_state at 1. cbn [store schedule clock ui fst snd].
    unfold bind at 1. unfold bind at 1. unfold remote at 1.
    cbn [store schedule clock ui fst snd]. rewrite H1.
    pose proof (@storage_upload_retry path blob b) as Hretry.
    pose proof (@storage_upload_error_keeps path blob b) as Hkeep.
    pose proof (@upload_puts_object path blob false b) as Hput1.
    pose proof (@upload_puts_object path blob true b) as Hput2.
    destruct (Store.storage_upload path blob false b) as [[[]|] b1] eqn:E1;
      cbn [store schedule clock ui fst snd] in *.
    + unfold ret at 1. cbn [store schedule clock ui fst snd].
      unfold bind at 1. unfold remote at 1. cbn [store schedule clock ui fst snd].
      rewrite H2. unfold Store.update_asset_preview at 1.
      cbn [store schedule clock ui fst snd].
      after_write.
      * frame. apply (proj1 (checkAndSetPendingStatus_keeps bucket url snap (fun _ _ _ => eq_refl))).
      * frame_assets. apply (proj1 (evaluation_keeps_linked url snap _ _ _ _ _)).
      * simpl. apply Hput1. reflexivity.
      * simpl. apply linked_after_write.
    + specialize (Hretry eq_refl). specialize (Hkeep eq_refl). subst b1.
      unfold bind at 1. unfold remote at 1. cbn [store schedule clock ui fst snd].
      rewrite H2.
      destruct (Store.storage_upload path blob true b) as [r2 b2] eqn:E2.
      cbn [fst snd] in Hretry, Hput2. subst r2.
      cbn [store schedule clock ui fst snd].
      unfold ret at 1. cbn [store schedule clock ui fst snd].
      unfold bind at 1. unfold remote at 1. cbn [store schedule clock ui fst snd].
      rewrite H3. unfold Store.update_asset_preview at 1.
      cbn [store schedule clock ui fst snd].
      after_write.
      * frame. apply (proj1 (checkAndSetPendingStatus_keeps bucket url snap (fun _ _ _ => eq_refl))).
      * frame_assets. apply (proj1 (evaluation_keeps_linked url snap _ _ _ _ _)).
      * simpl. apply Hput2. reflexivity.
      * simpl. apply linked_after_write.
  - intros url snap assetId blob lat lon verifier geocoder s Hacc Hnf Hfree s'. subst s'.
    destruct s as [b sch clk d]. unfold uploadPath in *. cbn [schedule clock store] in *.
    unfold exec. wrap_store.
    unfold VerifyThenStore.uploadImageToSupabase.
    destruct verifier as [|status body]; [discriminate|].
    simpl in Hacc. apply andb_prop in Hacc. destruct Hacc as [Hok Hreal].
    rewrite Hok. simpl negb. cbv iota.
    destruct (Verifier.decodeStrict body) as [v|]; [|discriminate].
    rewrite Hreal. simpl negb. cbv iota.
    fold (uploadAddress lat lon geocoder).
    pose proof (no_fault_hd Hnf) as H1.
    pose proof (no_fault_hd (no_fault_tl Hnf)) as H2.
    unfold bind at 1. unfold Date_now at 1. cbn [store schedule clock ui fst snd].
    rewrite store_bind_set_state, try_catch_ret_store.
    remember (assetId ++ "/" ++ string_of_instant (clk 0%nat) ++ ".jpg") as path.
    unfold bind at 1. unfold set_state at 1. cbn [store schedule clock ui fst snd].
    unfold bind at 1. unfold remote at 1.
    cbn [store schedule clock ui fst snd]. rewrite H1.
    pose proof (@upload_puts_object path blob false b) as Hput1.
    unfold Store.storage_upload in *. rewrite Hfree in *.
    cbn [store schedule clock ui fst snd] in *.
    unfold bind at 1. unfold remote at 1. cbn [store schedule clock ui fst snd].
    rewrite H2. unfold Store.update_asset_preview at 1.
    cbn [store schedule clock ui fst snd].
    after_write.
    * frame. apply (proj2 (checkAndSetPendingStatus_keeps bucket url snap (fun _ _ _ => eq_refl))).
    * frame_assets. apply (proj2 (evaluation_keeps_linked url snap _ _ _ _ _)).
    * simpl. apply Hput1. reflexivity.
    * simpl. apply linked_after_write.
Qed.

Lemma accepted_upload_stores_and_links_witness :
  In (uploadPath "a1" (Sample.start Scenario.ready [] (Scenario.opened Scenario.ready NonVerified)),
      "jpeg-bytes")
     (bucket (store (exec (StoreThenVerify.uploadImageToSupabase Sample.url
                             (Scenario.opened Scenario.ready NonVerified)
                             "a1" "jpeg-bytes" (Some (37 # 2)) (Some (295 # 4))
                             Sample.accepts (GeocodeReply (Some "Pune, Maharashtra")))
                       (Sample.start Scenario.ready []
                          (Scenario.opened Scenario.ready NonVerified)))))
  /\ In (uploadPath "a1" (Sample.start Sample.bare [] (Scenario.opened_v4 Sample.bare NonVerified)),
         "jpeg-bytes")
        (bucket (store Scenario.after_accepted_upload)).
Proof.
  split.
  - apply (proj1 accepted_upload_stores_and_links Sample.url
             (Scenario.opened Scenario.ready NonVerified)
             "a1" "jpeg-bytes" (Some (37 # 2)) (Some (295 # 4))
             Sample.accepts (GeocodeReply (Some "Pune, Maharashtra"))
             (Sample.start Scenario.ready [] (Scenario.opened Scenario.ready NonVerified))).
    + reflexivity.
    + intros o [].
  - apply (proj2 accepted_upload_stores_and_links Sample.url
             (Scenario.opened_v4 Sample.bare NonVerified)
             "a1" "jpeg-bytes" (Some (37 # 2)) (Some (295 # 4))
             Sample.accepts (GeocodeReply (Some "Pune, Maharashtra"))
             (Sample.start Sample.bare [] (Scenario.opened_v4 Sample.bare NonVerified))).
    + reflexivity.
    + intros o [].
    + reflexivity.
Defined.

(** X6: the upload of the second version never removes or overwrites an
    object of the bucket, whatever the verifier and the store answer: the
    bucket is as it was, or the upload was accepted, its path was free and
    the image has been added at the end. *)
Theorem upload_v4_only_appends :
  forall url snap assetId blob lat lon verifier geocoder s,
    let s' := exec (VerifyThenStore.uploadImageToSupabase url snap assetId blob
                      lat lon verifier geocoder) s in
    bucket (store s') = bucket (store s)
    \/ (acceptedBeforeStoring verifier = true
        /\ Store.stored (uploadPath assetId s) (store s) = false
        /\ bucket (store s') = (bucket (store s) ++ [(uploadPath assetId s, blob)])%list).
Proof.
  intros url snap assetId blob lat lon verifier geocoder s s'. subst s'.
  destruct (acceptedBeforeStoring verifier) eqn:Hacc.
  2:{ left. f_equal. apply stable_unchanged.
      apply uploadImageToSupabase_v4_not_accepted. exact Hacc. }
  destruct s as [b sch clk d]. unfold uploadPath. cbn [schedule clock store] in *.
  unfold exec.
  remember (assetId ++ "/" ++ string_of_instant (clk 0%nat) ++ ".jpg") as path.
  match goal with
  | |- bucket ?st = _ \/ _ /\ _ /\ bucket ?st = _ =>
      set (Good := fun b0 : Backend => bucket b0 = bucket b
         \/ (true = true
             /\ Store.stored path b = false
             /\ bucket b0 = (bucket b ++ [(path, blob)])%list));
      change (Good st)
  end.
  unfold VerifyThenStore.uploadImageToSupabase.
  destruct verifier as [|status body]; [discriminate|].
  simpl in Hacc. apply andb_prop in Hacc. destruct Hacc as [Hok Hreal].
  rewrite Hok. simpl negb. cbv iota.
  destruct (Verifier.decodeStrict body) as [v|]; [|discriminate].
  rewrite Hreal. simpl negb. cbv iota.
  unfold bind at 1. unfold Date_now at 1. cbn [store schedule clock ui fst snd].
  rewrite store_bind_set_state, try_catch_ret_store.
  rewrite <- Heqpath.
  unfold bind at 1. unfold set_state at 1. cbn [store schedule clock ui fst snd].
  unfold bind at 1. unfold remote at 1.
  cbn [store schedule clock ui fst snd].
  destruct (hd Done sch).
  2,3: subst Good; cbv beta; cbn [store schedule clock ui fst snd]; left; reflexivity.
  unfold Store.storage_upload.
  destruct (Store.stored path b) eqn:Hst; cbn [store schedule clock ui fst snd].
  { subst Good. cbv beta. left. reflexivity. }
  match goal with
  | |- Good (store (snd (?rest ?s2))) =>
      assert (Hrest : stable (agree_on bucket) rest)
  end.
  { frame.
    - apply stable_remote; [exact _|]. intros b0. reflexivity.
    - apply (proj2 (checkAndSetPendingStatus_keeps bucket url snap (fun _ _ _ => eq_refl))). }
  subst Good. cbv beta. right. rewrite Hrest. cbn [store]. simpl bucket.
  repeat split; reflexivity.
Qed.

(* ---------------------------------------------------------------------- *)
(** ** The two gates *)

(** X7: whatever the second version accepts before storing, the
    [verifyImage] of the first version accepts as well: a response that is
    [ok] and whose [is_real] is the boolean [true]. *)
Theorem strict_gate_implies_lenient (verifier : FetchOutcome) :
  acceptedBeforeStoring verifier = true ->
  is_real (Verifier.verifyImage verifier) = true.
Proof.
  destruct verifier as [|status body]; [discriminate|].
  unfold acceptedBeforeStoring, Verifier.verifyImage, Verifier.decodeStrict.
  destruct (res_ok status); [|discriminate]. simpl negb. cbv iota. simpl andb.
  destruct body as [json|]; [|discriminate].
  destruct json; simpl; intros H; try discriminate H.
  destruct (lookup_field "is_real" fields) as [| |[|]| | | |]; simpl in *;
    try discriminate H.
  reflexivity.
Qed.

Lemma strict_gate_implies_lenient_witness :
  is_real (Verifier.verifyImage Sample.accepts) = true.
Proof. apply (@strict_gate_implies_lenient Sample.accepts). reflexivity. Defined.

(* ---------------------------------------------------------------------- *)
(** ** From a public URL back to the stored object *)


Lemma strip_prefix_app p r : Store.strip_prefix p (p ++ r) = Some r.
Proof.
  induction p as [|a p IH]; simpl; [destruct r; reflexivity|].
  rewrite Ascii.eqb_refl. exact IH.
Qed.

Lemma separator_not_across t rest :
  Store.strip_prefix "/asset-images/" (t ++ "/") = None ->
  Store.strip_prefix "/asset-images/"
    (t ++ "/storage/v1/object/public/asset-images/" ++ rest) = None.
Proof.
  do 14 (let c := fresh "c" in
         destruct t as [|c t];
         [ simpl; intros H; first [discriminate H | reflexivity]
         | cbn [Store.strip_prefix append];
           match goal with
           | |- context [Ascii.eqb ?a c] => destruct (Ascii.eqb a c)
           end; cbv iota; [|reflexivity] ]).
  cbn [Store.strip_prefix append]. intros H. discriminate H.
Qed.

Lemma occurs_cons sep c s :
  occurs sep (String c s) = false ->
  Store.strip_prefix sep (String c s) = None /\ occurs sep s = false.
Proof.
  unfold occurs. cbn [cut_at_first].
  destruct (Store.strip_prefix sep (String c s)); [discriminate|].
  destruct (cut_at_first sep s) as [[? ?]|]; [discriminate|]. intros _. split; reflexivity.
Qed.

Lemma cut_public_url base path :
  occurs "/asset-images/" (base ++ "/") = false ->
  cut_at_first "/asset-images/" (publicUrl base path)
  = Some (base ++ "/storage/v1/object/public", path).
Proof.
  unfold publicUrl. induction base as [|c base IH]; intros H.
  - reflexivity.
  - change ((String c base ++ "/")) with (String c (base ++ "/")) in H.
    apply occurs_cons in H. destruct H as [Hhere Hlater].
    change (String c base ++ "/storage/v1/object/public/asset-images/" ++ path)
      with (String c (base ++ "/storage/v1/object/public/asset-images/" ++ path)).
    cbn [cut_at_first].
    change (String c (base ++ "/storage/v1/object/public/asset-images/" ++ path))
      with (String c base ++ "/storage/v1/object/public/asset-images/" ++ path).
    rewrite (@separator_not_across (String c base) path Hhere).
    change (String c base ++ "/storage/v1/object/public/asset-images/" ++ path)
      with (String c (base ++ "/storage/v1/object/public/asset-images/" ++ path)).
    cbv iota. rewrite (IH Hlater). reflexivity.
Qed.

Lemma split_0_absent sep s : occurs sep s = false -> split_0 sep s = s.
Proof.
  unfold occurs, split_0. destruct (cut_at_first sep s) as [[? ?]|]; [discriminate|reflexivity].
Qed.

Lemma path_of_public_url base path :
  occurs "/asset-images/" (base ++ "/") = false ->
  occurs "/asset-images/" path = false ->
  occurs "?" path = false ->
  match split_1 "/asset-images/" (publicUrl base path) with
  | Some pathWithQuery => Some (split_0 "?" pathWithQuery)
  | None => None
  end = Some path.
Proof.
  intros Hb Hp Hq. unfold split_1. rewrite (@cut_public_url base path Hb).
  rewrite (@split_0_absent _ _ Hp), (@split_0_absent _ _ Hq). reflexivity.
Qed.

Lemma split_1_public_url base path :
  occurs "/asset-images/" (base ++ "/") = false ->
  occurs "/asset-images/" path = false ->
  split_1 "/asset-images/" (publicUrl base path) = Some path.
Proof.
  intros Hb Hp. unfold split_1. rewrite (@cut_public_url base path Hb).
  rewrite (@split_0_absent _ _ Hp). reflexivity.
Qed.

(** X8: [handleDeleteImage] undoes [publicUrl]: called with the public URL
    of a path, an asset being selected and the store carrying out the
    removal, it removes from the bucket the objects at that path and no
    other, in both versions.  The marker [/asset-images/] must not occur
    in the base URL followed by a slash nor in the path, and the path must
    hold no question mark. *)
Theorem delete_removes_the_listed_image :
  forall base snap sel path s,
    selectedAsset snap = Some sel ->
    occurs "/asset-images/" (base ++ "/") = false ->
    occurs "/asset-images/" path = false ->
    occurs "?" path = false ->
    hd Done (schedule s) = Done ->
    let remaining :=
      filter (fun o => negb (String.eqb (fst o) path)) (bucket (store s)) in
    bucket (store (exec (StoreThenVerify.handleDeleteImage base snap
                           (publicUrl base path)) s)) = remaining
    /\ bucket (store (exec (VerifyThenStore.handleDeleteImage base snap
                              (publicUrl base path)) s)) = remaining.
Proof.
  intros base snap sel path s Hsel Hb Hp Hq Hhd remaining. subst remaining.
  destruct s as [b sch clk d]. cbn [store schedule] in *.
  unfold exec. split.
  - unfold StoreThenVerify.handleDeleteImage. rewrite Hsel.
    rewrite store_bind_set_state, try_catch_ret_store.
    rewrite (@split_1_public_url base path Hb Hp). cbv zeta.
    rewrite (@split_0_absent _ _ Hq).
    unfold bind at 1. unfold set_state at 1. cbn [store schedule clock ui fst snd].
    unfold bind at 1. unfold remote at 1. cbn [store schedule clock ui fst snd].
    rewrite Hhd. unfold Store.storage_remove. cbv beta iota.
    match goal with
    | |- bucket (store (snd (?rest ?s2))) = _ =>
        assert (Hrest : stable (agree_on bucket) rest)
    end.
    { frame.
      apply (proj1 (checkAndSetPendingStatus_keeps bucket base snap (fun _ _ _ => eq_refl))). }
    rewrite Hrest. reflexivity.
  - unfold VerifyThenStore.handleDeleteImage. rewrite Hsel.
    rewrite store_bind_set_state, try_catch_ret_store.
    rewrite (@split_1_public_url base path Hb Hp). cbv zeta.
    rewrite (@split_0_absent _ _ Hq).
    unfold bind at 1. unfold set_state at 1. cbn [store schedule clock ui fst snd].
    unfold bind at 1. unfold remote at 1. cbn [store schedule clock ui fst snd].
    rewrite Hhd. unfold Store.storage_remove. cbv beta iota.
    match goal with
    | |- bucket (store (snd (?rest ?s2))) = _ =>
        assert (Hrest : stable (agree_on bucket) rest)
    end.
    { frame.
      apply (proj2 (checkAndSetPendingStatus_keeps bucket base snap (fun _ _ _ => eq_refl))). }
    rewrite Hrest. reflexivity.
Qed.

Lemma delete_removes_the_listed_image_witness :
  bucket (store ScenarioDelete.after) = []
  /\ bucket (store ScenarioDelete.after_v4) = [].
Proof.
  apply (@delete_removes_the_listed_image Sample.url ScenarioDelete.snap
           (Sample.tractor Pending) (fst Sample.photo)
           (Sample.start Sample.complete [] ScenarioDelete.snap));
    reflexivity.
Defined.

Lemma split_1_absent sep s : occurs sep s = false -> split_1 sep s = None.
Proof.
  unfold occurs, split_1. destruct (cut_at_first sep s) as [[? ?]|]; [discriminate|reflexivity].
Qed.

(** X9: without a selected asset, or with a URL in which the marker
    [/asset-images/] does not occur, [handleDeleteImage] makes no call at
    all: the store is as it was and no outcome of the schedule is used up,
    in both versions. *)
Theorem delete_without_marker_makes_no_call :
  forall base snap url s,
    selectedAsset snap = None \/ occurs "/asset-images/" url = false ->
    (store (exec (StoreThenVerify.handleDeleteImage base snap url) s) = store s
     /\ schedule (exec (StoreThenVerify.handleDeleteImage base snap url) s) = schedule s)
    /\ (store (exec (VerifyThenStore.handleDeleteImage base snap url) s) = store s
        /\ schedule (exec (VerifyThenStore.handleDeleteImage base snap url) s) = schedule s).
Proof.
  intros base snap url s H.
  unfold exec, StoreThenVerify.handleDeleteImage, VerifyThenStore.handleDeleteImage.
  destruct (selectedAsset snap) as [sel|].
  - destruct H as [H|H]; [discriminate|].
    rewrite (split_1_absent _ _ H). repeat split; reflexivity.
  - repeat split; reflexivity.
Qed.

Lemma delete_without_marker_makes_no_call_witness :
  store (exec (VerifyThenStore.handleDeleteImage Sample.url ScenarioDelete.snap_v4
                 "https://example.org/photo.jpg")
           (Sample.start Sample.complete [Failed] ScenarioDelete.snap_v4))
  = Sample.complete
  /\ schedule (exec (VerifyThenStore.handleDeleteImage Sample.url ScenarioDelete.snap_v4
                       "https://example.org/photo.jpg")
                 (Sample.start Sample.complete [Failed] ScenarioDelete.snap_v4))
     = [Failed].
Proof.
  apply (@delete_without_marker_makes_no_call Sample.url ScenarioDelete.snap_v4
           "https://example.org/photo.jpg"
           (Sample.start Sample.complete [Failed] ScenarioDelete.snap_v4)).
  right. reflexivity.
Defined.

(* ---------------------------------------------------------------------- *)
(** ** The image carousels *)

Lemma nextIndex_eq n prev :
  (0 < n)%nat -> (prev < n)%nat ->
  nextIndex n prev = if (S prev =? n)%nat then 0%nat else S prev.
Proof.
  intros Hn Hp. unfold nextIndex.
  destruct (Nat.eqb_spec (S prev) n) as [E|E].
  - replace (Z.of_nat prev + 1)%Z with (Z.of_nat n) by lia.
    rewrite Z.rem_same by lia. reflexivity.
  - rewrite Z.rem_small by lia. lia.
Qed.

Lemma prevIndex_eq n prev :
  (0 < n)%nat -> (prev < n)%nat ->
  prevIndex n prev = if (prev =? 0)%nat then (n - 1)%nat else (prev - 1)%nat.
Proof.
  intros Hn Hp. unfold prevIndex.
  destruct (Nat.eqb_spec prev 0) as [E|E].
  - subst prev. rewrite Z.rem_small by lia. lia.
  - replace (Z.of_nat prev - 1 + Z.of_nat n)%Z
      with (Z.of_nat (prev - 1) + 1 * Z.of_nat n)%Z by lia.
    rewrite Z.rem_mod_nonneg by lia. rewrite Z.mod_add by lia.
    rewrite Z.mod_small by lia. lia.
Qed.

Lemma carousel_bounds n prev :
  (0 < n)%nat -> (prev < n)%nat ->
  (nextIndex n prev < n)%nat /\ (prevIndex n prev < n)%nat.
Proof.
  intros Hn Hp. rewrite (nextIndex_eq Hn Hp), (prevIndex_eq Hn Hp).
  destruct (Nat.eqb_spec (S prev) n); destruct (Nat.eqb_spec prev 0); lia.
Qed.

(** X10: on a list of [n] images, [n] not zero, and from an index below
    [n], the updaters of Previous and Next give an index below [n] again;
    Next goes one up and from the last image to the first, Previous one
    down and from the first image to the last; each undoes the other. *)
Theorem carousel_stays_in_range_and_wraps (n prev : nat) :
  (0 < n)%nat -> (prev < n)%nat ->
  (nextIndex n prev < n)%nat
  /\ (prevIndex n prev < n)%nat
  /\ nextIndex n prev = (if (S prev =? n)%nat then 0 else S prev)%nat
  /\ prevIndex n prev = (if (prev =? 0)%nat then n - 1 else prev - 1)%nat
  /\ prevIndex n (nextIndex n prev) = prev
  /\ nextIndex n (prevIndex n prev) = prev.
Proof.
  intros Hn Hp.
  pose proof (nextIndex_eq Hn Hp) as En. pose proof (prevIndex_eq Hn Hp) as Ep.
  destruct (carousel_bounds Hn Hp) as [Hnext Hprev].
  repeat split; try assumption.
  - rewrite (prevIndex_eq Hn Hnext), En.
    destruct (Nat.eqb_spec (S prev) n); [simpl; lia|].
    simpl. lia.
  - rewrite (nextIndex_eq Hn Hprev), Ep.
    destruct (Nat.eqb_spec prev 0) as [E|E].
    + subst prev. destruct (Nat.eqb_spec (S (n - 1)) n); lia.
    + destruct (Nat.eqb_spec (S (prev - 1)) n); lia.
Qed.

Lemma carousel_stays_in_range_and_wraps_witness :
  nextIndex 3 2 = 0%nat /\ prevIndex 3 0 = 2%nat.
Proof.
  pose proof (@carousel_stays_in_range_and_wraps 3 2 ltac:(lia) ltac:(lia)) as H.
  pose proof (@carousel_stays_in_range_and_wraps 3 0 ltac:(lia) ltac:(lia)) as H0.
  split; [exact (proj1 (proj2 (proj2 H))) | exact (proj1 (proj2 (proj2 (proj2 H0))))].
Defined.

Section KeepsUi.
Context {UI : Type} (I : UI -> Prop).

Lemma keeps_ui_ret A (a : A) : keeps_ui (UI := UI) I (ret a).
Proof. intros s H. exact H. Qed.

Lemma keeps_ui_throw A : keeps_ui I (@throw UI A).
Proof. intros s H. exact H. Qed.

Lemma keeps_ui_Date_now : keeps_ui I (@Date_now UI).
Proof. intros s H. exact H. Qed.

Lemma keeps_ui_remote A (f : Backend -> Reply A * Backend) :
  keeps_ui (UI := UI) I (remote f).
Proof.
  intros s H. unfold remote. destruct (hd Done (schedule s)); [|exact H|exact H].
  destruct (f (store s)). exact H.
Qed.

Lemma keeps_ui_set_state f :
  (forall d, I d -> I (f d)) -> keeps_ui (UI := UI) I (set_state f).
Proof. intros Hf s H. apply Hf. exact H. Qed.

Lemma keeps_ui_bind A B (m : M UI A) (f : A -> M UI B) :
  keeps_ui I m -> (forall a, keeps_ui I (f a)) -> keeps_ui I (bind m f).
Proof.
  intros Hm Hf s H. unfold bind. specialize (Hm s H).
  destruct (m s) as [[a|] s1]; [apply Hf; exact Hm | exact Hm].
Qed.

Lemma keeps_ui_try_catch A (m h : M UI A) :
  keeps_ui I m -> keeps_ui I h -> keeps_ui I (try_catch m h).
Proof.
  intros Hm Hh s H. unfold try_catch. specialize (Hm s H).
  destruct (m s) as [[a|] s1]; [exact Hm | apply Hh; exact Hm].
Qed.
End KeepsUi.

(** The setters that touch neither the list of images nor the index. *)
Lemma indexInRange_other f :
  (forall d, assetImages (f d) = assetImages d
             /\ currentImageIndex (f d) = currentImageIndex d) ->
  forall d, indexInRange d -> indexInRange (f d).
Proof.
  intros Hf d H. unfold indexInRange in *. destruct (Hf d) as [E1 E2].
  rewrite E1, E2. exact H.
Qed.

Lemma indexInRange_emptied d : indexInRange (setAssetImages [] d).
Proof. intros H. contradiction H. reflexivity. Qed.

Lemma indexInRange_reset urls d :
  indexInRange (setCurrentImageIndex 0 (setAssetImages urls d)).
Proof.
  unfold indexInRange. simpl. destruct urls; [intros H; contradiction H; reflexivity|].
  intros _. simpl. lia.
Qed.

Lemma keeps_ui_show (urls : list string) :
  keeps_ui indexInRange
    (set_state (setAssetImages urls) ;; set_state (setCurrentImageIndex 0)).
Proof. intros s _. apply indexInRange_reset. Qed.

Ltac ui_step :=
  match goal with
  | |- keeps_ui _ (set_state (setAssetImages ?u) ;; set_state (setCurrentImageIndex 0)) =>
      apply keeps_ui_show
  | |- keeps_ui _ (bind _ _) => apply keeps_ui_bind; [ | intro ]
  | |- keeps_ui _ (try_catch _ _) => apply keeps_ui_try_catch
  | |- keeps_ui _ (ret _) => apply keeps_ui_ret
  | |- keeps_ui _ throw => apply keeps_ui_throw
  | |- keeps_ui _ Date_now => apply keeps_ui_Date_now
  | |- keeps_ui _ (remote _) => apply keeps_ui_remote
  | |- keeps_ui _ (set_state (setAssetImages [])) =>
      apply keeps_ui_set_state; intros ? _; apply indexInRange_emptied
  | |- keeps_ui _ (set_state _) =>
      apply keeps_ui_set_state; apply indexInRange_other; intro;
      split; reflexivity
  | |- keeps_ui _ (match Some _ with _ => _ end) => cbv iota
  | |- keeps_ui _ (match None with _ => _ end) => cbv iota
  | |- keeps_ui _ (if true then _ else _) => cbv iota
  | |- keeps_ui _ (if false then _ else _) => cbv iota
  | |- keeps_ui _ (let _ := _ in _) => cbv zeta
  | |- keeps_ui _ (match ?x with _ => _ end) => destruct x
  end.

Ltac ui_frame := repeat ui_step.

Section IndexInRange.
Variables (url : string) (snap : Dashboard).

Lemma fetchAssetImages_index assetId :
  keeps_ui indexInRange (StoreThenVerify.fetchAssetImages url assetId)
  /\ keeps_ui indexInRange (VerifyThenStore.fetchAssetImages url assetId).
Proof.
  split.
  - unfold StoreThenVerify.fetchAssetImages. ui_frame.
  - unfold VerifyThenStore.fetchAssetImages. ui_frame.
Qed.

Lemma fetchRequiredDocuments_index assetId :
  keeps_ui indexInRange (StoreThenVerify.fetchRequiredDocuments assetId)
  /\ keeps_ui indexInRange (VerifyThenStore.fetchRequiredDocuments assetId).
Proof.
  split.
  - unfold StoreThenVerify.fetchRequiredDocuments. ui_frame.
  - unfold VerifyThenStore.fetchRequiredDocuments. ui_frame.
Qed.

Lemma refreshAssets_index : keeps_ui indexInRange (StoreThenVerify.refreshAssets snap).
Proof. unfold StoreThenVerify.refreshAssets. ui_frame. Qed.
End IndexInRange.

Ltac ui_call :=
  first [ apply (proj1 (fetchAssetImages_index _ _))
        | apply (proj2 (fetchAssetImages_index _ _))
        | apply (proj1 (fetchRequiredDocuments_index _))
        | apply (proj2 (fetchRequiredDocuments_index _))
        | apply refreshAssets_index ].

Ltac ui_all := repeat first [ ui_call | ui_step ].

Section IndexInRangeHandlers.
Variables (url : string) (snap : Dashboard).

Lemma checkAndSetPendingStatus_index :
  keeps_ui indexInRange (StoreThenVerify.checkAndSetPendingStatus url snap)
  /\ keeps_ui indexInRange (VerifyThenStore.checkAndSetPendingStatus url snap).
Proof.
  split.
  - unfold StoreThenVerify.checkAndSetPendingStatus. ui_all.
  - unfold VerifyThenStore.checkAndSetPendingStatus. ui_all.
Qed.
End IndexInRangeHandlers.

Ltac ui_handlers :=
  repeat first [ apply (proj1 (checkAndSetPendingStatus_index _ _))
               | apply (proj2 (checkAndSetPendingStatus_index _ _))
               | ui_call | ui_step ].

(** X11: in both versions of the beneficiary's dashboard every handler
    keeps the carousel index inside the list of images whenever that list
    is not empty, whatever the store answers; for Previous and Next this
    holds on the render the buttons belong to (a list as long as the one
    in the state). *)
Theorem carousel_index_always_valid :
  forall url snap,
    (forall docId v,
        keeps_ui indexInRange (StoreThenVerify.handleDocumentCheck url snap docId v)
        /\ keeps_ui indexInRange (VerifyThenStore.handleDocumentCheck url snap docId v))
    /\ (forall publicUrl,
          keeps_ui indexInRange (StoreThenVerify.handleDeleteImage url snap publicUrl)
          /\ keeps_ui indexInRange (VerifyThenStore.handleDeleteImage url snap publicUrl))
    /\ (forall assetId blob lat lon verifier geocoder,
          keeps_ui indexInRange
            (StoreThenVerify.uploadImageToSupabase url snap assetId blob lat lon
               verifier geocoder)
          /\ keeps_ui indexInRange
               (VerifyThenStore.uploadImageToSupabase url snap assetId blob lat lon
                  verifier geocoder))
    /\ (forall asset,
          keeps_ui indexInRange (StoreThenVerify.openAssetDialog url asset)
          /\ keeps_ui indexInRange (VerifyThenStore.openAssetDialog url asset))
    /\ keeps_ui indexInRange closeDialog
    /\ (forall s,
          length (assetImages (ui s)) = length (assetImages snap) ->
          indexInRange (ui s) ->
          indexInRange (ui (exec (StoreThenVerify.handlePrevImage snap) s))
          /\ indexInRange (ui (exec (StoreThenVerify.handleNextImage snap) s))
          /\ indexInRange (ui (exec (VerifyThenStore.handlePrevImage snap) s))
          /\ indexInRange (ui (exec (VerifyThenStore.handleNextImage snap) s))).
Proof.
  intros url snap. split; [|split; [|split; [|split; [|split]]]].
  - intros docId v. split.
    + unfold StoreThenVerify.handleDocumentCheck. ui_handlers.
    + unfold VerifyThenStore.handleDocumentCheck. ui_handlers.
  - intros publicUrl. split.
    + unfold StoreThenVerify.handleDeleteImage. ui_handlers.
    + unfold VerifyThenStore.handleDeleteImage. ui_handlers.
  - intros assetId blob lat lon verifier geocoder. split.
    + unfold StoreThenVerify.uploadImageToSupabase. ui_handlers.
    + unfold VerifyThenStore.uploadImageToSupabase. ui_handlers.
  - intros asset. split.
    + unfold StoreThenVerify.openAssetDialog. ui_handlers.
    + unfold VerifyThenStore.openAssetDialog. ui_handlers.
  - unfold closeDialog. ui_handlers.
  - intros s Hlen Hin.
    assert (Hstep : forall f,
               (forall n prev, (0 < n)%nat -> (prev < n)%nat -> (f n prev < n)%nat) ->
               indexInRange
                 (mapCurrentImageIndex (f (length (assetImages snap))) (ui s))).
    { intros f Hf Hne. simpl in *. specialize (Hin Hne). rewrite <- Hlen.
      apply Hf; [|exact Hin].
      destruct (assetImages (ui s)); [contradiction Hne; reflexivity | simpl; lia]. }
    repeat split; apply Hstep; intros n prev Hn Hp;
      apply (carousel_bounds Hn Hp).
Qed.

Lemma carousel_index_always_valid_witness :
  indexInRange
    (ui (exec (StoreThenVerify.handleNextImage ScenarioDelete.snap)
           (Sample.start Sample.complete [] ScenarioDelete.snap))).
Proof.
  apply (proj2 (proj2 (proj2 (proj2 (proj2
           (carousel_index_always_valid Sample.url ScenarioDelete.snap)))))
           (Sample.start Sample.complete [] ScenarioDelete.snap)).
  - reflexivity.
  - intros _. vm_compute. apply le_n.
Defined.

Lemma reviewerIndexInRange_other f :
  (forall d, BankAdmin.assetImages (f d) = BankAdmin.assetImages d
             /\ BankAdmin.currentImageIndex (f d) = BankAdmin.currentImageIndex d) ->
  forall d, reviewerIndexInRange d -> reviewerIndexInRange (f d).
Proof.
  intros Hf d H. unfold reviewerIndexInRange in *. destruct (Hf d) as [E1 E2].
  rewrite E1, E2. exact H.
Qed.

Lemma keeps_ui_reviewer_show (urls : list string) :
  keeps_ui reviewerIndexInRange
    (set_state (BankAdmin.setAssetImages urls) ;;
     set_state (BankAdmin.setCurrentImageIndex 0)).
Proof.
  intros s _. unfold reviewerIndexInRange. simpl.
  destruct urls; [intros H; contradiction H; reflexivity|].
  intros _. simpl. lia.
Qed.

Ltac reviewer_ui_step :=
  match goal with
  | |- keeps_ui _ (set_state (BankAdmin.setAssetImages ?u) ;;
                   set_state (BankAdmin.setCurrentImageIndex 0)) =>
      apply keeps_ui_reviewer_show
  | |- keeps_ui _ (bind _ _) => apply keeps_ui_bind; [ | intro ]
  | |- keeps_ui _ (ret _) => apply keeps_ui_ret
  | |- keeps_ui _ (remote _) => apply keeps_ui_remote
  | |- keeps_ui _ (set_state _) =>
      apply keeps_ui_set_state; apply reviewerIndexInRange_other; intro;
      split; reflexivity
  | |- keeps_ui _ (match Some _ with _ => _ end) => cbv iota
  | |- keeps_ui _ (match None with _ => _ end) => cbv iota
  | |- keeps_ui _ (match ?x with _ => _ end) => destruct x
  end.

Lemma fetchUsers_index : keeps_ui reviewerIndexInRange BankAdmin.fetchUsers.
Proof. unfold BankAdmin.fetchUsers. repeat reviewer_ui_step. Qed.

Lemma fetchAssetDetails_index url userId :
  keeps_ui reviewerIndexInRange (BankAdmin.fetchAssetDetails url userId).
Proof.
  unfold BankAdmin.fetchAssetDetails.
  apply keeps_ui_bind; [apply keeps_ui_remote|]. intros [asset|]; [|apply keeps_ui_ret].
  apply keeps_ui_bind; [apply keeps_ui_remote|]. intros docs.
  apply keeps_ui_bind.
  { destruct (Status_eqb (Asset.status asset) Pending); repeat reviewer_ui_step. }
  intros imageList.
  apply keeps_ui_bind; [repeat reviewer_ui_step|]. intros _.
  apply keeps_ui_reviewer_show.
Qed.

Lemma handleStatusUpdate_index snap newStatus :
  keeps_ui reviewerIndexInRange (BankAdmin.handleStatusUpdate snap newStatus).
Proof.
  unfold BankAdmin.handleStatusUpdate.
  destruct (BankAdmin.assetDetails snap); [|apply keeps_ui_ret].
  repeat first [ apply fetchUsers_index | reviewer_ui_step ].
Qed.

Lemma step_index url e x x' :
  BankAdmin.step url e x = Some x' ->
  reviewerIndexInRange (ui (BankAdmin.state x)) ->
  reviewerIndexInRange (ui (BankAdmin.state x')).
Proof.
  intros Hstep Hin. destruct e as [row| | |newStatus]; simpl in Hstep.
  - destruct (BankAdmin.popupShown (ui (BankAdmin.state x))); [discriminate|].
    destruct (nth_error _ row) as [u|]; [|discriminate].
    injection Hstep as <-. exact Hin.
  - destruct (BankAdmin.inflight x) as [|userId rest]; [discriminate|].
    injection Hstep as <-. simpl. apply fetchAssetDetails_index. exact Hin.
  - destruct (BankAdmin.popupShown (ui (BankAdmin.state x))); [|discriminate].
    injection Hstep as <-. exact Hin.
  - destruct newStatus; try discriminate;
      (destruct (BankAdmin.decisionButtonsShown (ui (BankAdmin.state x)));
       [|discriminate]);
      injection Hstep as <-; simpl; apply handleStatusUpdate_index; exact Hin.
Qed.

(** X12: on the reviewer's page the carousel index stays inside the list of
    images whenever that list is not empty: in every session that starts
    with the mounting of the page, whatever the store answers, and through
    Previous and Next on the render the buttons belong to. *)
Theorem reviewer_carousel_index_always_valid :
  (forall url b outcomes time events x,
      BankAdmin.run url events (BankAdmin.mounted b outcomes time) = Some x ->
      reviewerIndexInRange (ui (BankAdmin.state x)))
  /\ (forall snap s,
        length (BankAdmin.assetImages (ui s)) = length (BankAdmin.assetImages snap) ->
        reviewerIndexInRange (ui s) ->
        reviewerIndexInRange (ui (exec (BankAdmin.handlePrevImage snap) s))
        /\ reviewerIndexInRange (ui (exec (BankAdmin.handleNextImage snap) s))).
Proof.
  split.
  - intros url b outcomes time events.
    assert (Hrun : forall x0 x,
               reviewerIndexInRange (ui (BankAdmin.state x0)) ->
               BankAdmin.run url events x0 = Some x ->
               reviewerIndexInRange (ui (BankAdmin.state x))).
    { induction events as [|e events IH]; intros x0 x H0 Hrun; simpl in Hrun.
      - injection Hrun as <-. exact H0.
      - destruct (BankAdmin.step url e x0) as [x1|] eqn:E; [|discriminate].
        apply (IH x1 x); [|exact Hrun]. apply (step_index _ _ _ E H0). }
    intros x Hx. refine (Hrun _ _ _ Hx).
    unfold BankAdmin.mounted. simpl. apply fetchUsers_index.
    intros H. contradiction H. reflexivity.
  - intros snap s Hlen Hin.
    assert (Hstep : forall f,
               (forall n prev, (0 < n)%nat -> (prev < n)%nat -> (f n prev < n)%nat) ->
               reviewerIndexInRange
                 (BankAdmin.mapCurrentImageIndex
                    (f (length (BankAdmin.assetImages snap))) (ui s))).
    { intros f Hf Hne. simpl in *. specialize (Hin Hne). rewrite <- Hlen.
      apply Hf; [|exact Hin].
      destruct (BankAdmin.assetImages (ui s)); [contradiction Hne; reflexivity | simpl; lia]. }
    split; apply Hstep; intros n prev Hn Hp; apply (carousel_bounds Hn Hp).
Qed.

Lemma reviewer_carousel_index_always_valid_witness :
  reviewerIndexInRange (ui (BankAdmin.state ScenarioReview.opened)).
Proof.
  apply (proj1 reviewer_carousel_index_always_valid Sample.url Sample.complete []
           Sample.time ScenarioReview.openPending ScenarioReview.opened).
  exact eq_refl.
Defined.

(* ---------------------------------------------------------------------- *)
(** ** What a freshly opened dialog shows *)

Section OrderBy.
Variable A : Type.
Variable le : A -> A -> bool.

Lemma insert_by_length x (l : list A) : length (insert_by le x l) = S (length l).
Proof.
  induction l as [|y l IH]; simpl; [reflexivity|].
  destruct (le x y); simpl; [reflexivity | rewrite IH; reflexivity].
Qed.

Lemma order_by_length (l : list A) : length (order_by le l) = length l.
Proof.
  induction l as [|x l IH]; simpl; [reflexivity|].
  rewrite insert_by_length, IH. reflexivity.
Qed.

Lemma insert_by_forallb p x (l : list A) :
  forallb p (insert_by le x l) = p x && forallb p l.
Proof.
  induction l as [|y l IH]; simpl; [reflexivity|].
  destruct (le x y); simpl; [reflexivity|].
  rewrite IH. destruct (p x), (p y); reflexivity.
Qed.

Lemma order_by_forallb p (l : list A) : forallb p (order_by le l) = forallb p l.
Proof.
  induction l as [|x l IH]; simpl; [reflexivity|].
  rewrite insert_by_forallb, IH. reflexivity.
Qed.
End OrderBy.

Lemma forallb_of_row (l : list DocRow.t) :
  forallb RequiredDoc.is_uploaded (map RequiredDoc.of_row l) = forallb DocRow.is_uploaded l.
Proof. induction l as [|r l IH]; simpl; [reflexivity | rewrite IH; reflexivity]. Qed.

(** The condition of the evaluation, on the lists that the two fetches
    of a dialog read from a store. *)
Lemma pendingCondition_of_store url assetId b :
  pendingCondition
    (rows_or_empty (fst (Store.select_required_documents assetId b)))
    (map (fun name => publicUrl url (assetId ++ "/" ++ name)) (storedImagesOf assetId b))
  = negb (length (requiredDocumentsOf assetId b) =? 0)%nat && evidenceComplete assetId b.
Proof.
  unfold pendingCondition, evidenceComplete, Store.select_required_documents.
  cbn [fst rows_or_empty]. fold (requiredDocumentsOf assetId b).
  rewrite !length_map, order_by_length, forallb_of_row, order_by_forallb.
  destruct (length (requiredDocumentsOf assetId b)) as [|n]; reflexivity.
Qed.

(** X13: when the store carries out the two reads of [openAssetDialog],
    the render that follows has the asset selected and the dialog open, and
    its lists are those of the store: one entry per required document of
    the asset and the public URL of each stored image.  On that render the
    condition of the status evaluation is the condition on the store
    itself, together with there being at least one required document. *)
Theorem fresh_dialog_reflects_the_store :
  forall url asset s,
    hd Done (schedule s) = Done ->
    hd Done (tl (schedule s)) = Done ->
    let shows := fun d : Dashboard =>
      selectedAsset d = Some asset
      /\ showUploadDialog d = true
      /\ length (requiredDocs d) = length (requiredDocumentsOf (Asset.id asset) (store s))
      /\ assetImages d
         = map (fun name => publicUrl url (Asset.id asset ++ "/" ++ name))
             (storedImagesOf (Asset.id asset) (store s))
      /\ pendingCondition (requiredDocs d) (assetImages d)
         = negb (length (requiredDocumentsOf (Asset.id asset) (store s)) =? 0)%nat
           && evidenceComplete (Asset.id asset) (store s) in
    shows (ui (exec (StoreThenVerify.openAssetDialog url asset) s))
    /\ shows (ui (exec (VerifyThenStore.openAssetDialog url asset) s)).
Proof.
  intros url asset s H1 H2 shows.
  assert (Hshow : forall d,
             selectedAsset d = Some asset ->
             showUploadDialog d = true ->
             requiredDocs d
             = rows_or_empty (fst (Store.select_required_documents (Asset.id asset) (store s))) ->
             assetImages d
             = map (fun name => publicUrl url (Asset.id asset ++ "/" ++ name))
                 (storedImagesOf (Asset.id asset) (store s)) ->
             shows d).
  { intros d Hsel Hopen Hdocs Himgs. unfold shows.
    rewrite Hdocs, Himgs, pendingCondition_of_store.
    repeat split; try assumption.
    unfold Store.select_required_documents. cbn [fst rows_or_empty].
    rewrite length_map, order_by_length. reflexivity. }
  destruct s as [b sch clk d]. cbn [schedule store] in *.
  split; apply Hshow.
  all: unfold exec, StoreThenVerify.openAssetDialog, VerifyThenStore.openAssetDialog,
         StoreThenVerify.fetchAssetImages, VerifyThenStore.fetchAssetImages,
         StoreThenVerify.fetchRequiredDocuments, VerifyThenStore.fetchRequiredDocuments,
         bind, try_catch, set_state, remote, ret, storedImagesOf;
       cbn [store schedule clock ui fst snd]; rewrite H1;
       unfold Store.storage_list; cbn [store schedule clock ui fst snd rows_or_empty];
       rewrite H2; reflexivity.
Qed.

Lemma fresh_dialog_reflects_the_store_witness :
  pendingCondition (requiredDocs (Scenario.opened Scenario.ready NonVerified))
    (assetImages (Scenario.opened Scenario.ready NonVerified))
  = negb (length (requiredDocumentsOf "a1" Scenario.ready) =? 0)%nat
    && evidenceComplete "a1" Scenario.ready.
Proof.
  exact (proj2 (proj2 (proj2 (proj2 (proj1
           (@fresh_dialog_reflects_the_store Sample.url (Sample.tractor NonVerified)
              (Sample.start Scenario.ready [] (Sample.home NonVerified))
              eq_refl eq_refl)))))).
Defined.

(* ---------------------------------------------------------------------- *)
(** ** The reviewer's page *)

Lemma handleStatusUpdate_page snap details newStatus s :
  BankAdmin.assetDetails snap = Some details ->
  let d' := ui (exec (BankAdmin.handleStatusUpdate snap newStatus) s) in
  BankAdmin.decisionButtonsShown d' = false
  /\ BankAdmin.assetDetails d' = BankAdmin.assetDetails (ui s)
  /\ (hd Done (schedule s) <> Thrown ->
      hd Done (tl (schedule s)) <> Thrown ->
      BankAdmin.selectedUser d' = None /\ BankAdmin.processing d' = false).
Proof.
  intros Hd d'. subst d'. unfold exec, BankAdmin.handleStatusUpdate, BankAdmin.fetchUsers.
  rewrite Hd. destruct s as [b sch clk d]. unfold BankAdmin.decisionButtonsShown.
  destruct sch as [|o1 [|o2 rest]]; try destruct o1; try destruct o2;
    cbn; repeat split; try reflexivity; try (intros; congruence).
  all: destruct (BankAdmin.selectedUser d); [|reflexivity];
    destruct (BankAdmin.assetDetails d); [|reflexivity];
    apply andb_false_r.
Qed.

(** X14: a decision, however the store answers, leaves the page without
    the Grant and Non-Grant buttons, so that a second decision is not on
    offer until a row is clicked again, and it does not refresh the held
    asset details: they are the ones the decision was taken on.  When
    neither of its two calls throws, the popup is closed and [processing]
    is false again. *)
Theorem decision_closes_the_popup :
  forall url newStatus x x',
    BankAdmin.step url (BankAdmin.Decide newStatus) x = Some x' ->
    BankAdmin.decisionButtonsShown (ui (BankAdmin.state x')) = false
    /\ (forall again, BankAdmin.step url (BankAdmin.Decide again) x' = None)
    /\ BankAdmin.assetDetails (ui (BankAdmin.state x'))
       = BankAdmin.assetDetails (ui (BankAdmin.state x))
    /\ (hd Done (schedule (BankAdmin.state x)) <> Thrown ->
        hd Done (tl (schedule (BankAdmin.state x))) <> Thrown ->
        BankAdmin.popupShown (ui (BankAdmin.state x')) = false
        /\ BankAdmin.processing (ui (BankAdmin.state x')) = false
        /\ BankAdmin.step url BankAdmin.ClosePopup x' = None).
Proof.
  intros url newStatus x x' Hstep. simpl in Hstep.
  assert (Hshown : BankAdmin.decisionButtonsShown (ui (BankAdmin.state x)) = true).
  { destruct newStatus; try discriminate;
      destruct (BankAdmin.decisionButtonsShown (ui (BankAdmin.state x)));
      try discriminate; reflexivity. }
  assert (Hx' : x' = {| BankAdmin.state :=
                          exec (BankAdmin.handleStatusUpdate (ui (BankAdmin.state x))
                                  newStatus) (BankAdmin.state x);
                        BankAdmin.inflight := BankAdmin.inflight x |}).
  { rewrite Hshown in Hstep. destruct newStatus; try discriminate;
      injection Hstep as <-; reflexivity. }
  clear Hstep. subst x'. cbn [BankAdmin.state].
  unfold BankAdmin.decisionButtonsShown in Hshown.
  destruct (BankAdmin.selectedUser (ui (BankAdmin.state x))); [|discriminate].
  destruct (BankAdmin.assetDetails (ui (BankAdmin.state x))) as [details|] eqn:Hd;
    [|discriminate].
  destruct (handleStatusUpdate_page _ newStatus (BankAdmin.state x) Hd)
    as (Hbuttons & Hdet & Hclosed).
  split; [exact Hbuttons|]. split; [|split].
  - intros again. simpl. rewrite Hbuttons. destruct again; reflexivity.
  - rewrite Hdet. exact Hd.
  - intros H1 H2. destruct (Hclosed H1 H2) as [Hsel Hproc].
    assert (Hpopup : BankAdmin.popupShown
                       (ui (exec (BankAdmin.handleStatusUpdate (ui (BankAdmin.state x))
                                    newStatus) (BankAdmin.state x))) = false).
    { unfold BankAdmin.popupShown. rewrite Hsel. reflexivity. }
    repeat split; try assumption.
    simpl. rewrite Hpopup. reflexivity.
Qed.

Lemma decision_closes_the_popup_witness :
  BankAdmin.decisionButtonsShown (ui (BankAdmin.state ScenarioReview.granted)) = false.
Proof.
  exact (proj1 (@decision_closes_the_popup Sample.url Authenticated
                  ScenarioReview.opened ScenarioReview.granted eq_refl)).
Defined.

(** X15: in a session of the reviewer the store changes only by a
    decision: a click on a row, a fetch that comes back and the closing of
    the popup leave it as it was, and a decision either leaves it as it was
    or writes the decided status, which is never ['pending'], into the rows
    whose id is the id of the details on the page, those details showing
    ['pending']. *)
Theorem only_decisions_write :
  forall url e x x',
    BankAdmin.step url e x = Some x' ->
    store (BankAdmin.state x') = store (BankAdmin.state x)
    \/ exists newStatus details,
         e = BankAdmin.Decide newStatus
         /\ newStatus <> Pending
         /\ BankAdmin.assetDetails (ui (BankAdmin.state x)) = Some details
         /\ BankAdmin.status details = Pending
         /\ store (BankAdmin.state x')
            = Store.update_assets (Asset.with_status newStatus)
                (BankAdmin.id details) (store (BankAdmin.state x)).
Proof.
  intros url e x x' Hstep. destruct e as [row| | |newStatus]; simpl in Hstep.
  - left. destruct (BankAdmin.popupShown (ui (BankAdmin.state x))); [discriminate|].
    destruct (nth_error _ row) as [u|]; [|discriminate].
    injection Hstep as <-. reflexivity.
  - left. destruct (BankAdmin.inflight x) as [|userId rest]; [discriminate|].
    injection Hstep as <-. cbn [BankAdmin.state].
    apply (proj1 (fetchAssetDetails_effect url userId (BankAdmin.state x))).
  - left. destruct (BankAdmin.popupShown (ui (BankAdmin.state x))); [|discriminate].
    injection Hstep as <-. reflexivity.
  - assert (Hshown : BankAdmin.decisionButtonsShown (ui (BankAdmin.state x)) = true).
    { destruct newStatus; try discriminate;
        destruct (BankAdmin.decisionButtonsShown (ui (BankAdmin.state x)));
        try discriminate; reflexivity. }
    assert (Hnp : newStatus <> Pending).
    { destruct newStatus; discriminate. }
    assert (Hx' : x' = {| BankAdmin.state :=
                            exec (BankAdmin.handleStatusUpdate (ui (BankAdmin.state x))
                                    newStatus) (BankAdmin.state x);
                          BankAdmin.inflight := BankAdmin.inflight x |}).
    { rewrite Hshown in Hstep. destruct newStatus; try discriminate;
        injection Hstep as <-; reflexivity. }
    subst x'. cbn [BankAdmin.state].
    unfold BankAdmin.decisionButtonsShown in Hshown.
    destruct (BankAdmin.selectedUser (ui (BankAdmin.state x))); [|discriminate].
    destruct (BankAdmin.assetDetails (ui (BankAdmin.state x))) as [details|] eqn:Hd;
      [|discriminate].
    apply andb_prop in Hshown. destruct Hshown as [Hst _].
    destruct (proj2 (handleStatusUpdate_effect _ newStatus (BankAdmin.state x) Hd))
      as [Hsame|Hwritten].
    + left. exact Hsame.
    + right. exists newStatus, details. repeat split; try assumption.
      destruct (BankAdmin.status details); try discriminate; reflexivity.
Qed.

Lemma only_decisions_write_witness :
  status_of "a1" (store (BankAdmin.state ScenarioReview.granted)) = Some Authenticated.
Proof.
  destruct (@only_decisions_write Sample.url (BankAdmin.Decide Authenticated)
              ScenarioReview.opened ScenarioReview.granted eq_refl)
    as [Hsame | (st & details & _)]; reflexivity.
Defined.

(** X16: [fetchAssetDetails] shows the asset of a user who has exactly
    one.  For a user with no asset or with several the page is left as it
    was, whatever it held before.  For a user with one asset, the store
    carrying out the calls, the page holds a copy of that asset with one
    line per required document, and the images of the asset when, and only
    when, its status is ['pending']. *)
Theorem details_need_exactly_one_asset :
  forall url userId s,
    let s' := exec (BankAdmin.fetchAssetDetails url userId) s in
    (length (assetsOfUser userId (store s)) <> 1%nat ->
     ui s' = ui s /\ store s' = store s)
    /\ (forall a,
          assetsOfUser userId (store s) = [a] ->
          no_fault (schedule s) ->
          (exists details,
              BankAdmin.assetDetails (ui s') = Some details
              /\ BankAdmin.id details = Asset.id a
              /\ BankAdmin.asset_name details = Asset.asset_name a
              /\ BankAdmin.status details = Asset.status a
              /\ length (BankAdmin.documents details)
                 = length (requiredDocumentsOf (Asset.id a) (store s)))
          /\ BankAdmin.assetImages (ui s')
             = (if Status_eqb (Asset.status a) Pending
                then map (fun name => publicUrl url (Asset.id a ++ "/" ++ name))
                       (storedImagesOf (Asset.id a) (store s))
                else [])
          /\ BankAdmin.currentImageIndex (ui s') = 0%nat).
Proof.
  intros url userId s s'. subst s'. unfold assetsOfUser. split.
  - intros Hlen. split.
    + unfold exec, BankAdmin.fetchAssetDetails. destruct s as [b sch clk d].
      unfold bind, remote, ret, set_state, BankAdmin.select_single_asset.
      cbn [store schedule clock ui fst snd] in *.
      destruct (filter (fun a => option_string_eqb (Asset.user_id a) userId) (assets b))
        as [|a [|a' l]].
      * destruct (hd Done sch); reflexivity.
      * contradiction Hlen. reflexivity.
      * destruct (hd Done sch); reflexivity.
    + apply (proj1 (fetchAssetDetails_effect url userId s)).
  - intros a Ha Hnf.
    pose proof (no_fault_hd Hnf) as H1.
    pose proof (no_fault_hd (no_fault_tl Hnf)) as H2.
    pose proof (no_fault_hd (no_fault_tl (no_fault_tl Hnf))) as H3.
    unfold exec, BankAdmin.fetchAssetDetails. destruct s as [b sch clk d].
    unfold bind, remote, ret, set_state, BankAdmin.select_single_asset,
      BankAdmin.select_documents, storedImagesOf, requiredDocumentsOf.
    cbn [store schedule clock ui fst snd] in *.
    rewrite Ha, H1. cbn [store schedule clock ui fst snd]. rewrite H2.
    cbn [store schedule clock ui fst snd].
    destruct (Status_eqb (Asset.status a) Pending).
    + cbn [store schedule clock ui fst snd]. rewrite H3.
      unfold Store.storage_list. cbn.
      split; [eexists; split; [reflexivity|]; cbn; repeat (split; [reflexivity|]);
             rewrite length_map; reflexivity|].
      split; reflexivity.
    + cbn. split; [eexists; split; [reflexivity|]; cbn; repeat (split; [reflexivity|]);
             rewrite length_map; reflexivity|].
      split; reflexivity.
Qed.

Lemma details_need_exactly_one_asset_witness :
  ui (exec (BankAdmin.fetchAssetDetails Sample.url "u2")
        (BankAdmin.state ScenarioReview.session))
  = ui (BankAdmin.state ScenarioReview.session).
Proof.
  apply (proj1 (@details_need_exactly_one_asset Sample.url "u2"
                  (BankAdmin.state ScenarioReview.session))).
  vm_compute. discriminate.
Defined.

(* ---------------------------------------------------------------------- *)
(** ** Signing in *)

Lemma keep_trimStart s : App.keepDigitsAndPlus (trimStart s) = App.keepDigitsAndPlus s.
Proof.
  induction s as [|c s IH]; [reflexivity|]. cbn [trimStart].
  destruct (isSpace c) eqn:E; [|reflexivity].
  rewrite IH. cbn [App.keepDigitsAndPlus].
  assert (Hc : App.isDigit c || Ascii.eqb c "+" = false).
  { revert E. unfold isSpace, App.isDigit.
    destruct (Ascii.eqb_spec c "+") as [->|_]; [discriminate|].
    destruct (Nat.leb_spec 9 (nat_of_ascii c)), (Nat.leb_spec (nat_of_ascii c) 13),
      (Nat.eqb_spec (nat_of_ascii c) 32), (Nat.leb_spec 48 (nat_of_ascii c)),
      (Nat.leb_spec (nat_of_ascii c) 57); simpl; try reflexivity; try discriminate; lia. }
  rewrite Hc. reflexivity.
Qed.

Lemma keep_trimEnd s : App.keepDigitsAndPlus (trimEnd s) = App.keepDigitsAndPlus s.
Proof.
  induction s as [|c s IH]; [reflexivity|]. cbn [trimEnd].
  destruct (trimEnd s) as [|k kept] eqn:E.
  - cbn [App.keepDigitsAndPlus] in *. rewrite <- IH.
    destruct (isSpace c) eqn:Ec; [|reflexivity].
    assert (Hc : App.isDigit c || Ascii.eqb c "+" = false).
    { revert Ec. unfold isSpace, App.isDigit.
      destruct (Ascii.eqb_spec c "+") as [->|_]; [discriminate|].
      destruct (Nat.leb_spec 9 (nat_of_ascii c)), (Nat.leb_spec (nat_of_ascii c) 13),
        (Nat.eqb_spec (nat_of_ascii c) 32), (Nat.leb_spec 48 (nat_of_ascii c)),
        (Nat.leb_spec (nat_of_ascii c) 57); simpl; try reflexivity; try discriminate; lia. }
    rewrite Hc. reflexivity.
  - change (App.keepDigitsAndPlus (String c (String k kept)))
      with (if App.isDigit c || Ascii.eqb c "+"
            then String c (App.keepDigitsAndPlus (String k kept))
            else App.keepDigitsAndPlus (String k kept)).
    rewrite IH. reflexivity.
Qed.

Lemma keep_trim s : App.keepDigitsAndPlus (trim s) = App.keepDigitsAndPlus s.
Proof. unfold trim. rewrite keep_trimEnd, keep_trimStart. reflexivity. Qed.

Lemma keep_allDigits s : App.allDigits s = true -> App.keepDigitsAndPlus s = s.
Proof.
  induction s as [|c s IH]; [reflexivity|]. cbn [App.allDigits App.keepDigitsAndPlus].
  intros H. apply andb_prop in H. destruct H as [Hc Hs].
  rewrite Hc, (IH Hs). reflexivity.
Qed.

(** A number in the form that [handleLogin] accepts is left as it is by
    the other normalisations. *)
Lemma e164_fixed p :
  App.e164 p = true ->
  App.keepDigitsAndPlus p = p /\ startsWithPlus p = true.
Proof.
  destruct p as [|c rest]; [discriminate|]. cbn [App.e164].
  intros H. repeat (apply andb_prop in H; destruct H as [H ?]).
  split; [|exact H].
  cbn [App.keepDigitsAndPlus]. rewrite H, orb_true_r, keep_allDigits by assumption.
  reflexivity.
Qed.

(** X17: [handleLogin] requests a one-time password only for a number made
    of a plus sign and 7 to 15 digits, and stores that very number; the
    number is a fixed point of the normalisation of [handleOTPVerify] and
    of the formatting of the beneficiary's dashboard, so that all three
    look up the same number.  An input that does not normalise to such a
    number leaves the state as it was, and the OTP screen is reached only
    through a request that the service accepted. *)
Theorem login_requests_e164_numbers :
  forall raw reply a,
    let requested := fst (App.handleLogin raw reply a) in
    let a' := snd (App.handleLogin raw reply a) in
    (forall p, requested = Some p ->
               App.e164 p = true
               /\ App.phone a' = p
               /\ App.normalizeVerify p = p
               /\ formattedPhone p = p)
    /\ (requested = None -> a' = a)
    /\ (App.appState a' = App.Otp ->
        App.appState a = App.Otp \/ (reply = Done /\ requested <> None)).
Proof.
  intros raw reply a requested a'. subst requested a'. unfold App.handleLogin.
  destruct (App.e164 (App.normalizeLogin raw)) eqn:E; simpl negb; cbv iota.
  - destruct (e164_fixed _ E) as [Hkeep Hplus].
    assert (Hfix : App.normalizeVerify (App.normalizeLogin raw) = App.normalizeLogin raw
                   /\ formattedPhone (App.normalizeLogin raw) = App.normalizeLogin raw).
    { unfold App.normalizeVerify, formattedPhone. rewrite Hkeep, Hplus. split; reflexivity. }
    destruct reply; cbn [fst snd]; (split; [|split]).
    all: try (intros p Hp; injection Hp as <-; repeat split; tauto).
    all: try discriminate.
    + intros _. right. split; [reflexivity | discriminate].
    + intros H. left. exact H.
    + intros H. left. exact H.
  - cbn [fst snd]. split; [discriminate|]. split; [reflexivity|]. intros H. left. exact H.
Qed.

Lemma login_requests_e164_numbers_witness :
  fst (App.handleLogin " 98765 43210 " Done App.initial) = Some "+919876543210"
  /\ App.normalizeVerify "+919876543210" = "+919876543210".
Proof.
  split; [reflexivity|].
  apply (proj1 (@login_requests_e164_numbers " 98765 43210 " Done App.initial)
           "+919876543210" eq_refl).
Defined.

Lemma keep_without_plus s :
  ~ In "+"%char (list_ascii_of_string s) ->
  App.allDigits (App.keepDigitsAndPlus s) = true.
Proof.
  induction s as [|c s IH]; intros H; [reflexivity|]. cbn [App.keepDigitsAndPlus].
  cbn [list_ascii_of_string] in H.
  assert (Hc : Ascii.eqb c "+" = false).
  { apply Ascii.eqb_neq. intros ->. apply H. left. reflexivity. }
  assert (Hs : ~ In "+"%char (list_ascii_of_string s)).
  { intros Hin. apply H. right. exact Hin. }
  rewrite Hc, orb_false_r. destruct (App.isDigit c) eqn:Ed.
  - cbn [App.allDigits]. rewrite Ed. apply IH, Hs.
  - apply IH, Hs.
Qed.

Lemma allDigits_no_plus s : App.allDigits s = true -> startsWithPlus s = false.
Proof.
  destruct s as [|c s]; [reflexivity|]. cbn [App.allDigits startsWithPlus].
  intros H. apply andb_prop in H. destruct H as [Hc _].
  destruct (Ascii.eqb_spec c "+") as [->|_]; [discriminate Hc | reflexivity].
Qed.

(** X18: an input without a plus sign is read as a national number: the
    country code [+91] is put before its digits, whatever else the input
    holds, and the number is accepted exactly when the input has 5 to 13
    digits. *)
Theorem national_numbers_get_the_country_code :
  forall raw,
    ~ In "+"%char (list_ascii_of_string raw) ->
    let digits := App.keepDigitsAndPlus raw in
    App.normalizeLogin raw = "+91" ++ digits
    /\ (App.e164 (App.normalizeLogin raw) = true
        <-> (5 <= String.length digits <= 13)%nat).
Proof.
  intros raw Hraw digits. subst digits.
  pose proof (keep_without_plus _ Hraw) as Hd.
  assert (Hn : App.normalizeLogin raw = "+91" ++ App.keepDigitsAndPlus raw).
  { unfold App.normalizeLogin. rewrite keep_trim, (allDigits_no_plus _ Hd). reflexivity. }
  split; [exact Hn|]. rewrite Hn.
  change (App.e164 ("+91" ++ App.keepDigitsAndPlus raw))
    with (true && (true && (true && App.allDigits (App.keepDigitsAndPlus raw)))
          && (7 <=? S (S (String.length (App.keepDigitsAndPlus raw))))%nat
          && (S (S (String.length (App.keepDigitsAndPlus raw))) <=? 15)%nat).
  rewrite Hd. cbn [andb].
  destruct (Nat.leb_spec 7 (S (S (String.length (App.keepDigitsAndPlus raw))))),
    (Nat.leb_spec (S (S (String.length (App.keepDigitsAndPlus raw)))) 15);
    cbn [andb]; split; intros; try discriminate; try reflexivity;
    first [lia | exfalso; lia].
Qed.

Lemma national_numbers_get_the_country_code_witness :
  App.normalizeLogin "98765-43210" = "+919876543210".
Proof.
  apply (@national_numbers_get_the_country_code "98765-43210").
  intros H. simpl in H. repeat (destruct H as [H|H]; [discriminate H|]). exact H.
Defined.

(** X19: [handleOTPVerify] opens an administrator's page only for a number
    that exactly one row of [users] holds, and with the role of that row;
    when the code is not verified the state is left as it was; when it is
    verified and the lookup of the role answers with an error (no row, or
    several, for the number) the page of the beneficiary is shown. *)
Theorem admin_pages_need_a_registered_role :
  forall snap verified s,
    let a' := ui (exec (App.handleOTPVerify snap verified) s) in
    (verified <> Done -> a' = ui s)
    /\ (App.appState (ui s) <> App.DashboardPage ->
        App.dashboard a' = App.SuperAdminPage \/ App.dashboard a' = App.BankAdminPage ->
        exists u,
          filter (fun u => String.eqb (User.phone u) (App.normalizeVerify (App.phone snap)))
            (users (store s)) = [u]
          /\ (App.dashboard a' = App.SuperAdminPage -> User.role u = "superadmin")
          /\ (App.dashboard a' = App.BankAdminPage -> User.role u = "loanmanager"))
    /\ (verified = Done ->
        hd Done (schedule s) <> Thrown ->
        length (filter (fun u => String.eqb (User.phone u)
                                   (App.normalizeVerify (App.phone snap)))
                  (users (store s))) <> 1%nat ->
        App.dashboard a' = App.UserPage (App.phone (ui s))).
Proof.
  intros snap verified s a'. subst a'.
  unfold exec, App.handleOTPVerify. destruct s as [b sch clk a].
  cbn [ui store schedule].
  split; [|split].
  - destruct verified; [intros H; contradiction H; reflexivity | reflexivity | reflexivity].
  - intros Hnot Hpage.
    destruct verified; [|cbn in Hpage; unfold App.dashboard in Hpage..].
    + unfold try_catch, bind, remote, set_state, ret, App.select_role in *.
      cbn [store schedule clock ui fst snd] in *.
      destruct (filter _ (users b)) as [|u [|u' l]] eqn:Hf.
      * destruct (hd Done sch); cbn in Hpage; unfold App.dashboard in Hpage;
          cbn in Hpage; try (destruct Hpage; discriminate).
        all: destruct (App.appState a); try contradiction (Hnot eq_refl);
          destruct (App.userRole a); destruct Hpage; discriminate.
      * exists u. split; [reflexivity|].
        destruct (hd Done sch); cbn in Hpage |- *; unfold App.dashboard in Hpage |- *;
          cbn in Hpage |- *.
        -- destruct (String.eqb_spec (User.role u) EmptyString) as [E|E].
           ++ cbn in Hpage. destruct Hpage; discriminate.
           ++ destruct (String.eqb_spec (User.role u) "superadmin") as [E1|E1];
                [split; [intros _; exact E1 | intros; discriminate]|].
              destruct (String.eqb_spec (User.role u) "loanmanager") as [E2|E2];
                [split; [intros; discriminate | intros _; exact E2]|].
              destruct (String.eqb (User.role u) "user"); destruct Hpage; discriminate.
        -- destruct Hpage; discriminate.
        -- destruct (App.appState a); try contradiction (Hnot eq_refl);
             destruct (App.userRole a); destruct Hpage; discriminate.
      * destruct (hd Done sch); cbn in Hpage; unfold App.dashboard in Hpage;
          cbn in Hpage; try (destruct Hpage; discriminate).
        all: destruct (App.appState a); try contradiction (Hnot eq_refl);
          destruct (App.userRole a); destruct Hpage; discriminate.
    + destruct (App.appState a); try contradiction (Hnot eq_refl);
        destruct (App.userRole a); destruct Hpage; discriminate.
    + destruct (App.appState a); try contradiction (Hnot eq_refl);
        destruct (App.userRole a); destruct Hpage; discriminate.
  - intros -> Hsch Hlen.
    unfold try_catch, bind, remote, set_state, ret, App.select_role.
    cbn [store schedule clock ui fst snd].
    destruct (filter _ (users b)) as [|u [|u' l]] eqn:Hf.
    + destruct (hd Done sch); [reflexivity | reflexivity | contradiction Hsch; reflexivity].
    + contradiction Hlen. reflexivity.
    + destruct (hd Done sch); [reflexivity | reflexivity | contradiction Hsch; reflexivity].
Qed.

Lemma admin_pages_need_a_registered_role_witness :
  App.dashboard
    (ui (exec (App.handleOTPVerify
                 {| App.appState := App.Otp; App.phone := "+910000000000";
                    App.userRole := None |} Done)
           {| store := Sample.complete; schedule := []; clock := Sample.time;
              ui := {| App.appState := App.Otp; App.phone := "+910000000000";
                       App.userRole := None |} |}))
  = App.UserPage "+910000000000".
Proof.
  apply (proj2 (proj2 (@admin_pages_need_a_registered_role
                         {| App.appState := App.Otp; App.phone := "+910000000000";
                            App.userRole := None |} Done
                         {| store := Sample.complete; schedule := []; clock := Sample.time;
                            ui := {| App.appState := App.Otp; App.phone := "+910000000000";
                                     App.userRole := None |} |}))).
  - reflexivity.
  - discriminate.
  - vm_compute. discriminate.
Defined.

(* ---------------------------------------------------------------------- *)
(** ** The one-time password *)

Lemma assign_cells index value otp :
  OTPScreen.digitOrEmpty value = true ->
  Forall (fun cell => OTPScreen.digitOrEmpty cell = true) otp ->
  Forall (fun cell => OTPScreen.digitOrEmpty cell = true) (OTPScreen.assign index value otp).
Proof.
  intros Hv. revert otp. induction index as [|i IH]; intros otp Hotp.
  - destruct otp as [|cell rest]; simpl.
    + constructor; [exact Hv | constructor].
    + inversion Hotp; subst. constructor; assumption.
  - destruct otp as [|cell rest]; simpl.
    + constructor; [reflexivity | apply IH; constructor].
    + inversion Hotp; subst. constructor; [assumption | apply IH; assumption].
Qed.

Lemma handleChange_cells index value otp :
  Forall (fun cell => OTPScreen.digitOrEmpty cell = true) otp ->
  Forall (fun cell => OTPScreen.digitOrEmpty cell = true)
    (OTPScreen.handleChange index value otp).
Proof.
  intros Hotp. unfold OTPScreen.handleChange.
  destruct (OTPScreen.digitOrEmpty value) eqn:Hv; simpl; [|exact Hotp].
  apply assign_cells; assumption.
Qed.

Lemma typed_cells changes :
  Forall (fun cell => OTPScreen.digitOrEmpty cell = true) (OTPScreen.typed changes).
Proof.
  unfold OTPScreen.typed.
  assert (H : forall otp,
             Forall (fun cell => OTPScreen.digitOrEmpty cell = true) otp ->
             Forall (fun cell => OTPScreen.digitOrEmpty cell = true)
               (fold_left (fun otp change =>
                             OTPScreen.handleChange (fst change) (snd change) otp)
                  changes otp)).
  { induction changes as [|change changes IH]; intros otp Hotp; simpl; [exact Hotp|].
    apply IH, handleChange_cells, Hotp. }
  apply H. unfold OTPScreen.initial. simpl. repeat constructor.
Qed.

Lemma concat_empty_cons cell rest :
  String.concat EmptyString (cell :: rest) = cell ++ String.concat EmptyString rest.
Proof.
  destruct rest as [|c r]; simpl.
  - induction cell as [|a cell IH]; simpl; [reflexivity | rewrite <- IH; reflexivity].
  - reflexivity.
Qed.

Lemma allDigits_app s t :
  App.allDigits (s ++ t) = App.allDigits s && App.allDigits t.
Proof.
  induction s as [|c s IH]; simpl; [reflexivity|]. rewrite IH, andb_assoc. reflexivity.
Qed.

Lemma join_digits otp :
  Forall (fun cell => OTPScreen.digitOrEmpty cell = true) otp ->
  App.allDigits (OTPScreen.join otp) = true.
Proof.
  unfold OTPScreen.join. induction 1 as [|cell rest Hcell _ IH]; [reflexivity|].
  rewrite concat_empty_cons, allDigits_app, IH, andb_true_r.
  destruct cell as [|c [|c' cell]]; [reflexivity | | discriminate Hcell].
  simpl in *. rewrite Hcell. reflexivity.
Qed.

(** X20: whatever is typed or pasted into the cells, in whatever order,
    [handleSubmit] passes on to [onVerify] only a code of exactly six
    digits. *)
Theorem otp_submits_six_digits :
  forall changes code,
    OTPScreen.handleSubmit (OTPScreen.typed changes) = Some code ->
    String.length code = 6%nat /\ App.allDigits code = true.
Proof.
  intros changes code. unfold OTPScreen.handleSubmit. cbv zeta.
  destruct (Nat.eqb_spec (String.length (OTPScreen.join (OTPScreen.typed changes))) 6)
    as [Hlen|]; [|discriminate].
  intros H. injection H as <-. split; [exact Hlen|].
  apply join_digits, typed_cells.
Qed.

Lemma otp_submits_six_digits_witness :
  String.length "407312" = 6%nat /\ App.allDigits "407312" = true.
Proof.
  apply (@otp_submits_six_digits
           [(0, "4"); (1, "x"); (1, "0"); (2, "7"); (5, "2"); (3, "3"); (4, "1")]%nat
           "407312").
  reflexivity.
Defined.

(* ---------------------------------------------------------------------- *)
(** ** The names of the required documents *)

Lemma split_comma_not_nil s : split_comma s <> [].
Proof.
  destruct s as [|c rest]; simpl; [discriminate|].
  destruct (Ascii.eqb c ","); [discriminate|].
  destruct (split_comma rest); discriminate.
Qed.

Lemma split_comma_pieces s :
  Forall (fun piece => commaFree piece = true) (split_comma s).
Proof.
  induction s as [|c rest IH]; simpl; [repeat constructor|].
  destruct (Ascii.eqb c ",") eqn:E; [constructor; [reflexivity | exact IH]|].
  destruct (split_comma rest) as [|piece pieces]; [repeat constructor; simpl; rewrite E; reflexivity|].
  inversion IH; subst. constructor; [|assumption].
  simpl. rewrite E. assumption.
Qed.

Lemma trimStart_commaFree s : commaFree s = true -> commaFree (trimStart s) = true.
Proof.
  induction s as [|c rest IH]; [reflexivity|]. cbn [trimStart].
  destruct (isSpace c); [|intros H; exact H].
  cbn [commaFree]. intros H. apply andb_prop in H. apply IH, H.
Qed.

Lemma trimEnd_commaFree s : commaFree s = true -> commaFree (trimEnd s) = true.
Proof.
  induction s as [|c rest IH]; [reflexivity|]. cbn [trimEnd commaFree].
  intros H. apply andb_prop in H. destruct H as [Hc Hrest].
  specialize (IH Hrest).
  destruct (trimEnd rest) as [|k kept].
  - destruct (isSpace c); [reflexivity|]. simpl. rewrite Hc. reflexivity.
  - cbn [commaFree] in *. rewrite Hc, IH. reflexivity.
Qed.

Lemma trimEnd_idempotent s : trimEnd (trimEnd s) = trimEnd s.
Proof.
  induction s as [|c rest IH]; [reflexivity|]. cbn [trimEnd].
  destruct (trimEnd rest) as [|k kept] eqn:E.
  - destruct (isSpace c) eqn:Ec; [reflexivity|]. cbn [trimEnd]. rewrite Ec. reflexivity.
  - cbn [trimEnd]. cbn [trimEnd] in IH. rewrite IH. reflexivity.
Qed.

Lemma trimStart_fixed s :
  match s with
  | String c _ => isSpace c = false
  | EmptyString => True
  end -> trimStart s = s.
Proof. destruct s as [|c rest]; [reflexivity|]. simpl. intros ->. reflexivity. Qed.

Lemma trimStart_head s :
  match trimStart s with
  | String c _ => isSpace c = false
  | EmptyString => True
  end.
Proof.
  induction s as [|c rest IH]; [exact I|]. cbn [trimStart].
  destruct (isSpace c) eqn:E; [exact IH | exact E].
Qed.

Lemma trimEnd_head s :
  match s with
  | String c _ => isSpace c = false
  | EmptyString => True
  end ->
  match trimEnd s with
  | String c _ => isSpace c = false
  | EmptyString => True
  end.
Proof.
  destruct s as [|c rest]; [intros _; exact I|]. intros Hc. cbn [trimEnd].
  destruct (trimEnd rest); [rewrite Hc|]; exact Hc.
Qed.

Lemma trim_idempotent s : trim (trim s) = trim s.
Proof.
  unfold trim.
  rewrite (trimStart_fixed (trimEnd (trimStart s))).
  - apply trimEnd_idempotent.
  - apply trimEnd_head, trimStart_head.
Qed.

Lemma trimStart_blank s : blank s = true -> commaFree s = true -> trimStart s = EmptyString.
Proof.
  induction s as [|c rest IH]; [reflexivity|]. cbn [blank commaFree trimStart].
  intros Hb Hc. apply andb_prop in Hb. apply andb_prop in Hc.
  destruct Hb as [Hb1 Hb2]. destruct Hc as [Hc1 Hc2].
  destruct (Ascii.eqb c ","); [discriminate|]. simpl in Hb1. rewrite Hb1.
  apply IH; assumption.
Qed.

Lemma split_comma_blank s :
  blank s = true -> Forall (fun piece => blank piece = true) (split_comma s).
Proof.
  induction s as [|c rest IH]; simpl; [repeat constructor|].
  intros H. apply andb_prop in H. destruct H as [Hc Hrest]. specialize (IH Hrest).
  destruct (Ascii.eqb c ",") eqn:E; [constructor; [reflexivity | exact IH]|].
  simpl in Hc.
  destruct (split_comma rest) as [|piece pieces];
    [repeat constructor; simpl; rewrite E, Hc; reflexivity|].
  inversion IH; subst. constructor; [|assumption].
  simpl. rewrite E, Hc. assumption.
Qed.

(** X21: the names that [handleAddUser] and [processExcel] take from a
    documents field of ASCII characters are never empty, hold no comma and
    carry no white space at either end; a field that holds nothing but
    commas and white space gives no name at all, so that no required
    document is inserted. *)
Theorem document_names_are_clean :
  forall documents,
    (plainAscii documents = true ->
     forall d, In d (documentNames documents) ->
               d <> EmptyString /\ commaFree d = true /\ trimmed d)
    /\ (blank documents = true -> documentNames documents = []).
Proof.
  intros documents. unfold documentNames. split.
  - intros _ d Hd. apply filter_In in Hd. destruct Hd as [Hin Hne].
    apply in_map_iff in Hin. destruct Hin as (piece & <- & Hpiece).
    pose proof (split_comma_pieces documents) as Hfree.
    rewrite Forall_forall in Hfree. specialize (Hfree _ Hpiece).
    split; [|split].
    + intros E. rewrite E in Hne. discriminate.
    + unfold trim. apply trimEnd_commaFree, trimStart_commaFree, Hfree.
    + apply trim_idempotent.
  - intros Hblank.
    pose proof (split_comma_blank _ Hblank) as Hb.
    pose proof (split_comma_pieces documents) as Hc.
    induction (split_comma documents) as [|piece pieces IH]; [reflexivity|].
    inversion Hb; subst. inversion Hc; subst. simpl.
    unfold trim at 1. rewrite trimStart_blank by assumption. simpl.
    apply IH; assumption.
Qed.

Lemma document_names_are_clean_witness :
  documentNames " , ,, " = [].
Proof.
  apply (proj2 (@document_names_are_clean " , ,, ")). reflexivity.
Defined.

Lemma split_comma_one n : commaFree n = true -> split_comma n = [n].
Proof.
  induction n as [|c n IH]; [reflexivity|]. cbn [commaFree split_comma].
  intros H. apply andb_prop in H. destruct H as [Hc Hn].
  destruct (Ascii.eqb c ","); [discriminate|]. rewrite (IH Hn). reflexivity.
Qed.

Lemma split_comma_app n t :
  commaFree n = true -> split_comma (n ++ String "," t) = n :: split_comma t.
Proof.
  induction n as [|c n IH]; [reflexivity|]. cbn [commaFree].
  intros H. apply andb_prop in H. destruct H as [Hc Hn].
  change (String c n ++ String "," t) with (String c (n ++ String "," t)).
  cbn [split_comma]. destruct (Ascii.eqb c ","); [discriminate|].
  rewrite (IH Hn). reflexivity.
Qed.

Lemma trimmed_head n :
  trimmed n ->
  match n with
  | String c _ => isSpace c = false
  | EmptyString => True
  end.
Proof.
  unfold trimmed, trim. intros H. rewrite <- H. apply trimEnd_head, trimStart_head.
Qed.

Lemma trim_after_space n : trimmed n -> trim (String " " n) = n.
Proof.
  intros H. unfold trim. cbn [trimStart]. change (isSpace " ") with true. cbv iota.
  exact H.
Qed.

(** X22: the documents field is read back as it was written: the names of
    a list, each of them not empty, without a comma and without white space
    at its ends, joined by a comma and a space as in the sample sheet of
    [handleDownloadSample], give that very list. *)
Theorem document_names_round_trip :
  forall names,
    Forall (fun d => d <> EmptyString /\ commaFree d = true /\ trimmed d
                     /\ plainAscii d = true) names ->
    documentNames (String.concat ", " names) = names.
Proof.
  intros names Hnames. unfold documentNames.
  assert (Hkeep : forall d, d <> EmptyString -> negb (String.eqb d EmptyString) = true).
  { intros d Hd. destruct (String.eqb_spec d EmptyString); [contradiction | reflexivity]. }
  destruct names as [|first rest]; [reflexivity|].
  inversion Hnames as [|? ? (Hne & Hfree & Htrim & _) Hrest]; subst.
  assert (Htail : forall prev,
             commaFree prev = true ->
             Forall (fun d => d <> EmptyString /\ commaFree d = true /\ trimmed d
                              /\ plainAscii d = true) rest ->
             filter (fun d => negb (String.eqb d EmptyString))
               (map trim (split_comma (String.concat ", " (prev :: rest))))
             = (filter (fun d => negb (String.eqb d EmptyString)) [trim prev] ++ rest)%list).
  { clear. intros prev Hprev Hrest. revert prev Hprev.
    induction Hrest as [|d rest (Hne & Hfree & Htrim & _) _ IH]; intros prev Hprev.
    - cbn [String.concat]. rewrite (@split_comma_one prev Hprev), app_nil_r. reflexivity.
    - assert (Hjoin : String.concat ", " (prev :: d :: rest)
                      = prev ++ String "," (String.concat ", " (String " " d :: rest))).
      { destruct rest; reflexivity. }
      rewrite Hjoin.
      rewrite (@split_comma_app prev _ Hprev). cbn [map filter].
      assert (Hsp : commaFree (String " " d) = true) by (simpl; exact Hfree).
      rewrite (IH (String " " d) Hsp). cbn [filter app].
      rewrite (@trim_after_space d Htrim).
      assert (Hd : negb (String.eqb d EmptyString) = true).
      { destruct (String.eqb_spec d EmptyString); [contradiction | reflexivity]. }
      rewrite Hd. destruct (negb (String.eqb (trim prev) EmptyString)); reflexivity. }
  rewrite (Htail first Hfree Hrest). cbn [filter].
  rewrite Htrim, (Hkeep _ Hne). reflexivity.
Qed.

Lemma document_names_round_trip_witness :
  documentNames "Aadhaar Card, Land Proof, Income Certificate"
  = ["Aadhaar Card"; "Land Proof"; "Income Certificate"].
Proof.
  apply (@document_names_round_trip
           ["Aadhaar Card"; "Land Proof"; "Income Certificate"]).
  repeat constructor; try discriminate.
Defined.

(* ---------------------------------------------------------------------- *)
(** ** Invariants of the store and the page together *)

Section Preserves.
Context {UI : Type} (J : Backend -> UI -> Prop).

Lemma preserves_ret A (a : A) : preserves (UI := UI) J (ret a).
Proof. intros s H. exact H. Qed.

Lemma preserves_throw A : preserves J (@throw UI A).
Proof. intros s H. exact H. Qed.

Lemma preserves_Date_now : preserves J (@Date_now UI).
Proof. intros s H. exact H. Qed.

Lemma preserves_set_state f :
  (forall b d, J b d -> J b (f d)) -> preserves (UI := UI) J (set_state f).
Proof. intros Hf s H. apply Hf. exact H. Qed.

Lemma preserves_bind A B (m : M UI A) (f : A -> M UI B) :
  preserves J m -> (forall a, preserves J (f a)) -> preserves J (bind m f).
Proof.
  intros Hm Hf s H. unfold bind. specialize (Hm s H).
  destruct (m s) as [[a|] s1]; [apply Hf; exact Hm | exact Hm].
Qed.

Lemma preserves_try_catch A (m h : M UI A) :
  preserves J m -> preserves J h -> preserves J (try_catch m h).
Proof.
  intros Hm Hh s H. unfold try_catch. specialize (Hm s H).
  destruct (m s) as [[a|] s1]; [exact Hm | apply Hh; exact Hm].
Qed.

Lemma preserves_remote A (f : Backend -> Reply A * Backend) :
  (forall b d, J b d -> J (snd (f b)) d) -> preserves (UI := UI) J (remote f).
Proof.
  intros Hf s H. unfold remote. destruct (hd Done (schedule s)); [|exact H|exact H].
  specialize (Hf _ _ H). destruct (f (store s)). exact Hf.
Qed.

(** A read followed by a use of what was read: the rows, if any, are
    those of the store the handler goes on with. *)
Lemma preserves_read A B (f : Backend -> Reply A * Backend) (k : Reply A -> M UI B) :
  (forall b, snd (f b) = b) ->
  (forall r s,
      r = Error \/ r = fst (f (store s)) ->
      J (store s) (ui s) -> J (store (snd (k r s))) (ui (snd (k r s)))) ->
  preserves J (bind (remote f) k).
Proof.
  intros Hread Hk s H. unfold bind, remote.
  destruct (hd Done (schedule s)).
  - pose proof (Hread (store s)) as Hb.
    destruct (f (store s)) as [r b'] eqn:E. cbn [snd] in Hb. subst b'.
    apply Hk; [right; cbn [store]; rewrite E; reflexivity | exact H].
  - apply Hk; [left; reflexivity | exact H].
  - exact H.
Qed.
End Preserves.

Ltac page_step :=
  match goal with
  | |- preserves _ (bind _ _) => apply preserves_bind; [ | intro ]
  | |- preserves _ (try_catch _ _) => apply preserves_try_catch
  | |- preserves _ (ret _) => apply preserves_ret
  | |- preserves _ throw => apply preserves_throw
  | |- preserves _ Date_now => apply preserves_Date_now
  | |- preserves _ (match Some _ with _ => _ end) => cbv iota
  | |- preserves _ (match None with _ => _ end) => cbv iota
  | |- preserves _ (if true then _ else _) => cbv iota
  | |- preserves _ (if false then _ else _) => cbv iota
  | |- preserves _ (let _ := _ in _) => cbv zeta
  end.

(** The handlers of the beneficiary's dashboard, for a property that the
    single steps keep: the setters, the reads of the rows of an asset or of
    a user that the handlers may be called for, and the writes for such an
    asset or document. *)
Section PageInvariant.
Variable J : Backend -> Dashboard -> Prop.
Variable okAsset : string -> Prop.
Variable okUser : User.t -> Prop.
Variable okToggle : string -> bool -> Prop.

Hypothesis J_images : forall b d l, J b d -> J b (setAssetImages l d).
Hypothesis J_index : forall b d f, J b d -> J b (mapCurrentImageIndex f d).
Hypothesis J_processing : forall b d v, J b d -> J b (setProcessing v d).
Hypothesis J_dialog : forall b d v, J b d -> J b (setShowUploadDialog v d).
Hypothesis J_docs_read :
  forall b d assetId,
    okAsset assetId -> J b d ->
    J b (setRequiredDocs
           (rows_or_empty (fst (Store.select_required_documents assetId b))) d).
Hypothesis J_docs_none : forall b d, J b d -> J b (setRequiredDocs [] d).
Hypothesis J_docs_toggle :
  forall b d docId v t,
    okToggle docId v -> J b d ->
    J b (mapRequiredDocs
           (map (fun x => if String.eqb (RequiredDoc.id x) docId
                          then RequiredDoc.with_upload v t x else x)) d).
Hypothesis J_assets_read :
  forall b d u,
    okUser u -> J b d ->
    J b (setAssets (rows_or_empty (fst (Store.select_assets_of_user (User.id u) b))) d).
Hypothesis J_assets_none : forall b d, J b d -> J b (setAssets [] d).
Hypothesis J_selected :
  forall b d a, okAsset (Asset.id a) -> J b d -> J b (setSelectedAsset (Some a) d).
Hypothesis J_unselected : forall b d, J b d -> J b (setSelectedAsset None d).
Hypothesis J_write_asset :
  forall b d assetId f,
    okAsset assetId ->
    (forall a, Asset.id (f a) = Asset.id a /\ Asset.user_id (f a) = Asset.user_id a) ->
    J b d -> J (Store.update_assets f assetId b) d.
Hypothesis J_write_bucket : forall b d objs, J b d -> J (Store.with_bucket objs b) d.
Hypothesis J_write_document :
  forall b d docId v t,
    okToggle docId v -> J b d ->
    J (snd (Store.update_required_document docId v t b)) d.

Lemma J_index_reset b d : J b d -> J b (setCurrentImageIndex 0 d).
Proof. apply (@J_index b d (fun _ => 0%nat)). Qed.

Ltac setter :=
  match goal with
  | |- preserves _ (set_state (setAssetImages _)) =>
      apply preserves_set_state; intros; apply J_images; assumption
  | |- preserves _ (set_state (setCurrentImageIndex 0)) =>
      apply preserves_set_state; intros; apply J_index_reset; assumption
  | |- preserves _ (set_state (mapCurrentImageIndex _)) =>
      apply preserves_set_state; intros; apply J_index; assumption
  | |- preserves _ (set_state (setProcessing _)) =>
      apply preserves_set_state; intros; apply J_processing; assumption
  | |- preserves _ (set_state (setShowUploadDialog _)) =>
      apply preserves_set_state; intros; apply J_dialog; assumption
  | |- preserves _ (set_state (setRequiredDocs [])) =>
      apply preserves_set_state; intros; apply J_docs_none; assumption
  | |- preserves _ (set_state (setAssets [])) =>
      apply preserves_set_state; intros; apply J_assets_none; assumption
  | |- preserves _ (set_state (setSelectedAsset None)) =>
      apply preserves_set_state; intros; apply J_unselected; assumption
  | |- preserves _ (remote (Store.storage_list _)) =>
      apply preserves_remote; intros; assumption
  | |- preserves _ (remote (Store.storage_remove _)) =>
      apply preserves_remote; intros; apply J_write_bucket; assumption
  end.

Ltac page := repeat first [ setter | page_step ].

Variable url : string.

Lemma fetchRequiredDocuments_page assetId :
  okAsset assetId ->
  preserves J (StoreThenVerify.fetchRequiredDocuments assetId)
  /\ preserves J (VerifyThenStore.fetchRequiredDocuments assetId).
Proof.
  intros Hok. split.
  - unfold StoreThenVerify.fetchRequiredDocuments. apply preserves_try_catch; [|page].
    apply preserves_read; [reflexivity|]. intros r s [->| ->] H.
    + apply J_docs_none, H.
    + apply J_docs_read; assumption.
  - unfold VerifyThenStore.fetchRequiredDocuments. apply preserves_try_catch; [|page].
    apply preserves_read; [reflexivity|]. intros r s [->| ->] H.
    + exact H.
    + apply J_docs_read; assumption.
Qed.

Lemma fetchAssetImages_page assetId :
  preserves J (StoreThenVerify.fetchAssetImages url assetId)
  /\ preserves J (VerifyThenStore.fetchAssetImages url assetId).
Proof.
  split.
  - unfold StoreThenVerify.fetchAssetImages. page. destruct a; page.
  - unfold VerifyThenStore.fetchAssetImages. page.
Qed.

Section Render.
Variable snap : Dashboard.
Hypothesis snap_selected :
  forall sel, selectedAsset snap = Some sel -> okAsset (Asset.id sel).
Hypothesis snap_user : forall u, user snap = Some u -> okUser u.

Lemma refreshAssets_page : preserves J (StoreThenVerify.refreshAssets snap).
Proof.
  unfold StoreThenVerify.refreshAssets. case_eq (user snap); [intros u Hu | intros _; page].
  apply preserves_read; [reflexivity|]. intros r s [->| ->] H.
  - apply J_assets_none, H.
  - apply J_assets_read; [apply snap_user; first [exact Hu | reflexivity] | exact H].
Qed.

Lemma with_status_keeps_owner st a :
  Asset.id (Asset.with_status st a) = Asset.id a
  /\ Asset.user_id (Asset.with_status st a) = Asset.user_id a.
Proof. split; reflexivity. Qed.

Lemma with_preview_keeps_owner u la lo ad a :
  Asset.id (Asset.with_preview u la lo ad a) = Asset.id a
  /\ Asset.user_id (Asset.with_preview u la lo ad a) = Asset.user_id a.
Proof. split; reflexivity. Qed.

Lemma checkAndSetPendingStatus_page :
  preserves J (StoreThenVerify.checkAndSetPendingStatus url snap)
  /\ preserves J (VerifyThenStore.checkAndSetPendingStatus url snap).
Proof.
  split.
  - unfold StoreThenVerify.checkAndSetPendingStatus.
    case_eq (selectedAsset snap); [intros sel Hsel | intros _; page].
    assert (Hok : okAsset (Asset.id sel))
      by (apply snap_selected; first [exact Hsel | reflexivity]).
    apply preserves_bind; [apply (proj1 (@fetchRequiredDocuments_page _ Hok))|]. intros _.
    apply preserves_bind; [apply (proj1 (fetchAssetImages_page _))|]. intros _.
    cbv zeta. destruct (pendingCondition _ _); [|page].
    apply preserves_try_catch; [|page].
    apply preserves_bind.
    + apply preserves_remote. intros b d H.
      apply J_write_asset; [exact Hok | apply with_status_keeps_owner | exact H].
    + intros [[]|]; [apply refreshAssets_page | page].
  - unfold VerifyThenStore.checkAndSetPendingStatus.
    case_eq (selectedAsset snap); [intros sel Hsel | intros _; page].
    assert (Hok : okAsset (Asset.id sel))
      by (apply snap_selected; first [exact Hsel | reflexivity]).
    apply preserves_bind; [apply (proj2 (@fetchRequiredDocuments_page _ Hok))|]. intros _.
    apply preserves_bind; [apply (proj2 (fetchAssetImages_page _))|]. intros _.
    destruct (pendingCondition _ _); [|page].
    apply preserves_bind.
    + apply preserves_remote. intros b d H.
      apply J_write_asset; [exact Hok | apply with_status_keeps_owner | exact H].
    + intros _. case_eq (user snap); [intros u Hu | intros _; page].
      apply preserves_read; [reflexivity|]. intros r s [->| ->] H.
      * apply J_assets_none, H.
      * apply J_assets_read; [apply snap_user; first [exact Hu | reflexivity] | exact H].
Qed.

Lemma handleDocumentCheck_page docId v :
  okToggle docId v ->
  preserves J (StoreThenVerify.handleDocumentCheck url snap docId v)
  /\ preserves J (VerifyThenStore.handleDocumentCheck url snap docId v).
Proof.
  intros Hok. split.
  - unfold StoreThenVerify.handleDocumentCheck. apply preserves_try_catch; [|page].
    apply preserves_bind; [page|]. intros now.
    apply preserves_bind.
    + apply preserves_remote. intros b d H. apply J_write_document; assumption.
    + intros [[]|]; [|page].
      apply preserves_bind; [page|]. intros now'.
      apply preserves_bind.
      * apply preserves_set_state. intros b d H. apply J_docs_toggle; assumption.
      * intros _. apply (proj1 checkAndSetPendingStatus_page).
  - unfold VerifyThenStore.handleDocumentCheck. apply preserves_try_catch; [|page].
    apply preserves_bind; [page|]. intros now.
    apply preserves_bind.
    + apply preserves_remote. intros b d H. apply J_write_document; assumption.
    + intros [[]|]; [|page].
      apply preserves_bind; [page|]. intros now'.
      apply preserves_bind.
      * apply preserves_set_state. intros b d H. apply J_docs_toggle; assumption.
      * intros _. apply (proj2 checkAndSetPendingStatus_page).
Qed.

Lemma handleDeleteImage_page publicUrl :
  preserves J (StoreThenVerify.handleDeleteImage url snap publicUrl)
  /\ preserves J (VerifyThenStore.handleDeleteImage url snap publicUrl).
Proof.
  split.
  - unfold StoreThenVerify.handleDeleteImage.
    case_eq (selectedAsset snap); [intros sel Hsel | intros _; page].
    apply preserves_bind; [|intros; page].
    apply preserves_try_catch; [|page].
    apply preserves_bind; [page|]. intros _.
    destruct (split_1 _ _); [|page]. cbv zeta.
    apply preserves_bind; [page|]. intros [[]|]; [|page].
    apply preserves_bind; [apply (proj1 (fetchAssetImages_page _))|]. intros _.
    apply preserves_bind; [apply refreshAssets_page|]. intros _.
    apply (proj1 checkAndSetPendingStatus_page).
  - unfold VerifyThenStore.handleDeleteImage.
    case_eq (selectedAsset snap); [intros sel Hsel | intros _; page].
    apply preserves_bind; [|intros; page].
    apply preserves_try_catch; [|page].
    apply preserves_bind; [page|]. intros _.
    destruct (split_1 _ _); [|page]. cbv zeta.
    apply preserves_bind; [page|]. intros _.
    apply preserves_bind; [apply (proj2 (fetchAssetImages_page _))|]. intros _.
    apply (proj2 checkAndSetPendingStatus_page).
Qed.

Lemma storage_upload_page path blob upsert :
  preserves J (remote (Store.storage_upload path blob upsert)).
Proof.
  apply preserves_remote. intros b d H. unfold Store.storage_upload.
  destruct (Store.stored path b); [destruct upsert|]; cbn [snd];
    first [apply J_write_bucket; exact H | exact H].
Qed.

Lemma uploadImageToSupabase_page assetId blob lat lon verifier geocoder :
  okAsset assetId ->
  preserves J (StoreThenVerify.uploadImageToSupabase url snap assetId blob lat lon
                 verifier geocoder)
  /\ preserves J (VerifyThenStore.uploadImageToSupabase url snap assetId blob lat lon
                    verifier geocoder).
Proof.
  intros Hok. split.
  - unfold StoreThenVerify.uploadImageToSupabase.
    apply preserves_bind; [page|]. intros timestamp. cbv zeta.
    apply preserves_bind; [|intros; page].
    apply preserves_try_catch; [|page].
    apply preserves_bind; [page|]. intros _.
    apply preserves_bind; [apply storage_upload_page|]. intros uploaded.
    apply preserves_bind.
    { destruct uploaded as [[]|]; [page|].
      apply preserves_bind; [apply storage_upload_page|]. intros [[]|]; page. }
    intros _. destruct (negb _).
    + page.
    + apply preserves_bind.
      { apply preserves_remote. intros b d H.
        apply J_write_asset; [exact Hok | apply with_preview_keeps_owner | exact H]. }
      intros _.
      apply preserves_bind; [apply (proj1 (fetchAssetImages_page _))|]. intros _.
      apply preserves_bind; [apply refreshAssets_page|]. intros _.
      apply (proj1 checkAndSetPendingStatus_page).
  - unfold VerifyThenStore.uploadImageToSupabase.
    apply preserves_bind; [page|]. intros timestamp. cbv zeta.
    apply preserves_bind; [|intros; page].
    apply preserves_try_catch; [|page].
    apply preserves_bind; [page|]. intros _.
    destruct verifier as [|status body]; [page|].
    destruct (negb (res_ok status)); [page|].
    destruct (Verifier.decodeStrict body) as [verification|]; [|page].
    destruct (negb (is_real verification)); [page|].
    apply preserves_bind; [apply storage_upload_page|]. intros [[]|]; [|page].
    apply preserves_bind.
    { apply preserves_remote. intros b d H.
      apply J_write_asset; [exact Hok | apply with_preview_keeps_owner | exact H]. }
    intros _.
    apply preserves_bind; [apply (proj2 (fetchAssetImages_page _))|]. intros _.
    apply (proj2 checkAndSetPendingStatus_page).
Qed.

Lemma capture_page position capture verifier geocoder :
  preserves J (StoreThenVerify.handleCaptureAndUploadWithExif url snap position capture
                 verifier geocoder)
  /\ preserves J (VerifyThenStore.handleCaptureAndUploadWithExif url snap position capture
                    verifier geocoder).
Proof.
  split.
  - unfold StoreThenVerify.handleCaptureAndUploadWithExif.
    case_eq (selectedAsset snap); [intros sel Hsel | intros _; page].
    assert (Hok : okAsset (Asset.id sel))
      by (apply snap_selected; first [exact Hsel | reflexivity]).
    apply preserves_try_catch; [|page]. cbv zeta.
    destruct (capture _); [|page].
    apply (proj1 (@uploadImageToSupabase_page _ _ _ _ _ _ Hok)).
  - unfold VerifyThenStore.handleCaptureAndUploadWithExif.
    case_eq (selectedAsset snap); [intros sel Hsel | intros _; page].
    assert (Hok : okAsset (Asset.id sel))
      by (apply snap_selected; first [exact Hsel | reflexivity]).
    apply preserves_try_catch; [|page]. cbv zeta.
    destruct (capture _); [|page].
    apply (proj2 (@uploadImageToSupabase_page _ _ _ _ _ _ Hok)).
Qed.

Lemma gallery_page file exif position verifier geocoder :
  preserves J (StoreThenVerify.handleGalleryUpload url snap file exif position
                 verifier geocoder)
  /\ preserves J (VerifyThenStore.handleGalleryUpload url snap file position
                    verifier geocoder).
Proof.
  split.
  - unfold StoreThenVerify.handleGalleryUpload.
    destruct file as [blob|]; [|page].
    case_eq (selectedAsset snap); [intros sel Hsel | intros _; page].
    assert (Hok : okAsset (Asset.id sel))
      by (apply snap_selected; first [exact Hsel | reflexivity]). cbv zeta.
    apply preserves_bind; [|intros; page].
    apply (proj1 (@uploadImageToSupabase_page _ _ _ _ _ _ Hok)).
  - unfold VerifyThenStore.handleGalleryUpload.
    destruct file as [blob|]; [|page].
    case_eq (selectedAsset snap); [intros sel Hsel | intros _; page].
    assert (Hok : okAsset (Asset.id sel))
      by (apply snap_selected; first [exact Hsel | reflexivity]). cbv zeta.
    apply preserves_bind; [|intros; page].
    apply (proj2 (@uploadImageToSupabase_page _ _ _ _ _ _ Hok)).
Qed.

Lemma drop_page file exif position verifier geocoder :
  preserves J (StoreThenVerify.handleDrop url snap file exif position verifier geocoder)
  /\ preserves J (VerifyThenStore.handleDrop url snap file verifier geocoder).
Proof.
  split.
  - unfold StoreThenVerify.handleDrop.
    case_eq (selectedAsset snap); [intros sel Hsel | intros _; page].
    assert (Hok : okAsset (Asset.id sel))
      by (apply snap_selected; first [exact Hsel | reflexivity]).
    destruct file as [blob|]; [|page]. cbv zeta.
    apply preserves_bind; [|intros; page].
    apply (proj1 (@uploadImageToSupabase_page _ _ _ _ _ _ Hok)).
  - unfold VerifyThenStore.handleDrop.
    case_eq (selectedAsset snap); [intros sel Hsel | intros _; page].
    assert (Hok : okAsset (Asset.id sel))
      by (apply snap_selected; first [exact Hsel | reflexivity]).
    destruct file as [blob|]; [|page].
    apply preserves_bind; [|intros; page].
    apply (proj2 (@uploadImageToSupabase_page _ _ _ _ _ _ Hok)).
Qed.
End Render.

Lemma openAssetDialog_page asset :
  okAsset (Asset.id asset) ->
  preserves J (StoreThenVerify.openAssetDialog url asset)
  /\ preserves J (VerifyThenStore.openAssetDialog url asset).
Proof.
  intros Hok. split.
  - unfold StoreThenVerify.openAssetDialog.
    apply preserves_bind.
    { apply preserves_set_state. intros b d H. apply J_selected; assumption. }
    intros _. apply preserves_bind; [page|]. intros _.
    apply preserves_bind; [apply (proj1 (fetchAssetImages_page _))|]. intros _.
    apply (proj1 (@fetchRequiredDocuments_page _ Hok)).
  - unfold VerifyThenStore.openAssetDialog.
    apply preserves_bind.
    { apply preserves_set_state. intros b d H. apply J_selected; assumption. }
    intros _. apply preserves_bind; [page|]. intros _.
    apply preserves_bind; [apply (proj2 (fetchAssetImages_page _))|]. intros _.
    apply (proj2 (@fetchRequiredDocuments_page _ Hok)).
Qed.

Lemma closeDialog_page : preserves J closeDialog.
Proof. unfold closeDialog. page. Qed.

Lemma carousel_page snap :
  preserves J (StoreThenVerify.handlePrevImage snap)
  /\ preserves J (StoreThenVerify.handleNextImage snap)
  /\ preserves J (VerifyThenStore.handlePrevImage snap)
  /\ preserves J (VerifyThenStore.handleNextImage snap)
  /\ preserves J StoreThenVerify.handleCameraCapture
  /\ preserves J VerifyThenStore.handleCameraCapture.
Proof.
  unfold StoreThenVerify.handlePrevImage, StoreThenVerify.handleNextImage,
    VerifyThenStore.handlePrevImage, VerifyThenStore.handleNextImage,
    StoreThenVerify.handleCameraCapture, VerifyThenStore.handleCameraCapture.
  repeat split; page.
Qed.

End PageInvariant.

(* ---------------------------------------------------------------------- *)
(** ** A session of the beneficiary stays with the beneficiary's rows *)

Section OrderByIn.
Variable A : Type.
Variable le : A -> A -> bool.

Lemma insert_by_In x y (l : list A) : In y (insert_by le x l) <-> y = x \/ In y l.
Proof.
  induction l as [|z l IH]; simpl.
  - split; [intros [H|[]]; left; symmetry; exact H | intros [H|[]]; left; symmetry; exact H].
  - destruct (le x z); simpl.
    + split; [intros [H|H]; [left; symmetry; exact H | right; exact H]
             | intros [H|H]; [left; symmetry; exact H | right; exact H]].
    + rewrite IH. split.
      * intros [H|[H|H]]; [right; left; exact H | left; exact H | right; right; exact H].
      * intros [H|[H|H]]; [right; left; exact H | left; exact H | right; right; exact H].
Qed.

Lemma order_by_In y (l : list A) : In y (order_by le l) <-> In y l.
Proof.
  induction l as [|x l IH]; simpl; [reflexivity|].
  rewrite insert_by_In, IH. split; intros [H|H]; auto.
Qed.
End OrderByIn.

Lemma Forall2_In_right A B (R : A -> B -> Prop) l l' y :
  Forall2 R l l' -> In y l' -> exists x, In x l /\ R x y.
Proof.
  induction 1 as [|a b l l' Hab _ IH]; intros Hin; [contradiction|].
  destruct Hin as [<-|Hin].
  - exists a. split; [left; reflexivity | exact Hab].
  - destruct (IH Hin) as (x & Hx & Hr). exists x. split; [right; exact Hx | exact Hr].
Qed.

Lemma Forall2_map_right A B (R : A -> B -> Prop) (g : B -> B) l l' :
  Forall2 R l l' ->
  (forall x y, R x y -> R x (g y)) ->
  Forall2 R l (map g l').
Proof.
  intros H Hg. induction H; simpl; constructor; auto.
Qed.

Section AtHome.
Variable owner : option User.t.
Variable b0 : Backend.

(** A row of a later store is a row of the first one, by its id and its
    owner. *)
Lemma later_asset b a :
  untouchedAbroad owner b0 b -> In a (assets b) ->
  exists a0, In a0 (assets b0) /\ Asset.id a0 = Asset.id a
             /\ Asset.user_id a0 = Asset.user_id a.
Proof.
  intros (Ha & _ & _) Hin.
  destruct (@Forall2_In_right _ _ _ _ _ _ Ha Hin) as (a0 & Hin0 & Hid & Hu & _).
  exists a0. repeat split; [exact Hin0 | symmetry; exact Hid | symmetry; exact Hu].
Qed.

Lemma later_document b r :
  untouchedAbroad owner b0 b -> In r (required_documents b) ->
  exists r0, In r0 (required_documents b0) /\ DocRow.id r0 = DocRow.id r
             /\ DocRow.asset_id r0 = DocRow.asset_id r.
Proof.
  intros (_ & Hd & _) Hin.
  destruct (@Forall2_In_right _ _ _ _ _ _ Hd Hin) as (r0 & Hin0 & Hid & Ha & _).
  exists r0. repeat split; [exact Hin0 | symmetry; exact Hid | symmetry; exact Ha].
Qed.

Lemma atHome_setter f b d :
  user (f d) = user d ->
  assetList (f d) = assetList d ->
  selectedAsset (f d) = selectedAsset d ->
  requiredDocs (f d) = requiredDocs d ->
  atHome owner b0 b d -> atHome owner b0 b (f d).
Proof.
  intros E1 E2 E3 E4 (Hb & Hu & Hl & Hs & Hd). split; [exact Hb|].
  unfold showsOwn. rewrite E1, E2, E3, E4. repeat split; assumption.
Qed.

Lemma atHome_docs_read b d assetId :
  ownAssetId owner b0 assetId -> atHome owner b0 b d ->
  atHome owner b0 b
    (setRequiredDocs (rows_or_empty (fst (Store.select_required_documents assetId b))) d).
Proof.
  intros Hok (Hb & Hu & Hl & Hs & Hd). split; [exact Hb|].
  repeat split; try assumption.
  intros doc Hdoc. cbn in Hdoc.
  apply in_map_iff in Hdoc. destruct Hdoc as (r & <- & Hr).
  apply order_by_In in Hr. apply filter_In in Hr. destruct Hr as [Hr Hasset].
  apply String.eqb_eq in Hasset.
  destruct (@later_document _ _ Hb Hr) as (r0 & Hin0 & Hid & Ha).
  exists r0. repeat split; [exact Hin0 | exact Hid |].
  rewrite Ha, Hasset. exact Hok.
Qed.

Lemma atHome_assets_read b d u :
  owner = Some u -> atHome owner b0 b d ->
  atHome owner b0 b
    (setAssets (rows_or_empty (fst (Store.select_assets_of_user (User.id u) b))) d).
Proof.
  intros Hok (Hb & Hu & Hl & Hs & Hd). split; [exact Hb|].
  repeat split; try assumption.
  intros a Ha. cbn in Ha.
  apply order_by_In in Ha. apply filter_In in Ha. destruct Ha as [Ha Huser].
  destruct (@later_asset _ _ Hb Ha) as (a0 & Hin0 & Hid & Hu0).
  exists u, a0. repeat split; [exact Hok | exact Hin0 | exact Hid |].
  rewrite Hu0. unfold option_string_eqb in Huser.
  destruct (Asset.user_id a) as [x|]; [|discriminate].
  apply String.eqb_eq in Huser. rewrite Huser. reflexivity.
Qed.

Lemma atHome_write_asset b d assetId f :
  ownAssetId owner b0 assetId ->
  (forall a, Asset.id (f a) = Asset.id a /\ Asset.user_id (f a) = Asset.user_id a) ->
  atHome owner b0 b d -> atHome owner b0 (Store.update_assets f assetId b) d.
Proof.
  intros Hok Hf ((Ha & Hd & Husers) & Hshow). split; [|exact Hshow].
  split; [|split; [exact Hd | exact Husers]].
  cbn [Store.update_assets assets].
  apply Forall2_map_right; [exact Ha|].
  intros a0 a (Hid & Hu & Hsame).
  destruct (String.eqb_spec (Asset.id a) assetId) as [E|E]; [|repeat split; assumption].
  destruct (Hf a) as [Hfid Hfu]. rewrite Hfid, Hfu. repeat split; try assumption.
  intros Hnot. contradiction Hnot. rewrite <- Hid, E. exact Hok.
Qed.

Lemma atHome_write_document b d docId v t :
  ownDocId owner b0 docId -> atHome owner b0 b d ->
  atHome owner b0 (snd (Store.update_required_document docId v t b)) d.
Proof.
  intros Hok ((Ha & Hd & Husers) & Hshow). split; [|exact Hshow].
  split; [exact Ha|]. split; [|exact Husers].
  cbn [Store.update_required_document snd required_documents].
  apply Forall2_map_right; [exact Hd|].
  intros r0 r (Hid & Hasset & Hsame).
  destruct (String.eqb_spec (DocRow.id r) docId) as [E|E]; [|repeat split; assumption].
  cbn. repeat split; try assumption.
  intros Hnot. contradiction Hnot. rewrite <- Hid, E. exact Hok.
Qed.

Lemma atHome_docs_toggle b d docId v t :
  atHome owner b0 b d ->
  atHome owner b0 b
    (mapRequiredDocs
       (map (fun x => if String.eqb (RequiredDoc.id x) docId
                      then RequiredDoc.with_upload v t x else x)) d).
Proof.
  intros (Hb & Hu & Hl & Hs & Hd). split; [exact Hb|].
  repeat split; try assumption.
  intros doc Hdoc. cbn in Hdoc. apply in_map_iff in Hdoc.
  destruct Hdoc as (x & <- & Hx). specialize (Hd x Hx).
  destruct (String.eqb (RequiredDoc.id x) docId); exact Hd.
Qed.

(** Every handler of the two versions keeps the page at home, on a render
    that is at home. *)
Lemma handler_atHome version url snap e h b :
  atHome owner b0 b snap ->
  Beneficiary.handler version url snap e = Some h ->
  preserves (atHome owner b0) h.
Proof.
  intros (_ & Hu & Hl & Hs & Hd) Hh.
  assert (Hsel : forall sel, selectedAsset snap = Some sel ->
                             ownAssetId owner b0 (Asset.id sel)) by exact Hs.
  assert (Huser : forall u, user snap = Some u -> owner = Some u).
  { intros u E. rewrite <- Hu. exact E. }
  pose (okAsset := ownAssetId owner b0).
  pose (okUser := fun u : User.t => owner = Some u).
  pose (okToggle := fun (docId : string) (_ : bool) => ownDocId owner b0 docId).
  assert (P1 : forall b d l, atHome owner b0 b d -> atHome owner b0 b (setAssetImages l d))
    by (intros; apply atHome_setter; auto).
  assert (P2 : forall b d f, atHome owner b0 b d ->
                             atHome owner b0 b (mapCurrentImageIndex f d))
    by (intros; apply atHome_setter; auto).
  assert (P3 : forall b d v, atHome owner b0 b d -> atHome owner b0 b (setProcessing v d))
    by (intros; apply atHome_setter; auto).
  assert (P4 : forall b d v, atHome owner b0 b d ->
                             atHome owner b0 b (setShowUploadDialog v d))
    by (intros; apply atHome_setter; auto).
  assert (P5 : forall b d assetId, okAsset assetId -> atHome owner b0 b d ->
                 atHome owner b0 b
                   (setRequiredDocs
                      (rows_or_empty (fst (Store.select_required_documents assetId b))) d))
    by (intros; apply atHome_docs_read; assumption).
  assert (P6 : forall b d, atHome owner b0 b d -> atHome owner b0 b (setRequiredDocs [] d)).
  { intros b1 d (Hb1 & Hu1 & Hl1 & Hs1 & Hd1). split; [exact Hb1|].
    repeat split; try assumption. intros doc []. }
  assert (P7 : forall b d docId v t, okToggle docId v -> atHome owner b0 b d ->
                 atHome owner b0 b
                   (mapRequiredDocs
                      (map (fun x => if String.eqb (RequiredDoc.id x) docId
                                     then RequiredDoc.with_upload v t x else x)) d))
    by (intros; apply atHome_docs_toggle; assumption).
  assert (P8 : forall b d u, okUser u -> atHome owner b0 b d ->
                 atHome owner b0 b
                   (setAssets
                      (rows_or_empty (fst (Store.select_assets_of_user (User.id u) b))) d))
    by (intros; apply atHome_assets_read; assumption).
  assert (P9 : forall b d, atHome owner b0 b d -> atHome owner b0 b (setAssets [] d)).
  { intros b1 d (Hb1 & Hu1 & Hl1 & Hs1 & Hd1). split; [exact Hb1|].
    repeat split; try assumption. intros a []. }
  assert (P10 : forall b d a, okAsset (Asset.id a) -> atHome owner b0 b d ->
                  atHome owner b0 b (setSelectedAsset (Some a) d)).
  { intros b1 d a Hok (Hb1 & Hu1 & Hl1 & Hs1 & Hd1). split; [exact Hb1|].
    repeat split; try assumption. intros a' E. cbn in E. injection E as <-. exact Hok. }
  assert (P11 : forall b d, atHome owner b0 b d -> atHome owner b0 b (setSelectedAsset None d)).
  { intros b1 d (Hb1 & Hu1 & Hl1 & Hs1 & Hd1). split; [exact Hb1|].
    repeat split; try assumption. intros a' E. discriminate E. }
  assert (P12 : forall b d assetId f, okAsset assetId ->
                  (forall a, Asset.id (f a) = Asset.id a
                             /\ Asset.user_id (f a) = Asset.user_id a) ->
                  atHome owner b0 b d -> atHome owner b0 (Store.update_assets f assetId b) d)
    by (intros; apply atHome_write_asset; assumption).
  assert (P13 : forall b d objs, atHome owner b0 b d ->
                  atHome owner b0 (Store.with_bucket objs b) d)
    by (intros b1 d objs H; exact H).
  assert (P14 : forall b d docId v t, okToggle docId v -> atHome owner b0 b d ->
                  atHome owner b0 (snd (Store.update_required_document docId v t b)) d)
    by (intros; apply atHome_write_document; assumption).
  destruct e; cbn [Beneficiary.handler] in Hh.
  - destruct (nth_error (assetList snap) card) as [asset|] eqn:Hcard; [|discriminate].
    assert (Hown : okAsset (Asset.id asset)) by (apply Hl; eapply nth_error_In; exact Hcard).
    injection Hh as <-.
    destruct version;
      [ refine (proj1 (@openAssetDialog_page _ okAsset P1 P2 P4 P5 P6 P10 url asset Hown))
      | refine (proj2 (@openAssetDialog_page _ okAsset P1 P2 P4 P5 P6 P10 url asset Hown)) ].
  - injection Hh as <-.
    refine (@closeDialog_page _ P1 P4 P6 P11).
  - destruct (nth_error (requiredDocs snap) item) as [doc|] eqn:Hitem; [|discriminate].
    assert (Hown : okToggle (RequiredDoc.id doc) newValue)
      by (apply Hd; eapply nth_error_In; exact Hitem).
    injection Hh as <-.
    destruct version;
      [ refine (proj1 (@handleDocumentCheck_page _ okAsset okUser okToggle
                         P1 P2 P5 P6 P7 P8 P9 P12 P14 url snap Hsel Huser _ _ Hown))
      | refine (proj2 (@handleDocumentCheck_page _ okAsset okUser okToggle
                         P1 P2 P5 P6 P7 P8 P9 P12 P14 url snap Hsel Huser _ _ Hown)) ].
  - destruct (nth_error (assetImages snap) (currentImageIndex snap)) as [shown|];
      [|discriminate].
    injection Hh as <-.
    destruct version;
      [ refine (proj1 (@handleDeleteImage_page _ okAsset okUser
                         P1 P2 P3 P5 P6 P8 P9 P12 P13 url snap Hsel Huser _))
      | refine (proj2 (@handleDeleteImage_page _ okAsset okUser
                         P1 P2 P3 P5 P6 P8 P9 P12 P13 url snap Hsel Huser _)) ].
  - injection Hh as <-.
    destruct version;
      [ refine (proj1 (@carousel_page _ P2 P4 snap))
      | refine (proj1 (proj2 (proj2 (@carousel_page _ P2 P4 snap)))) ].
  - injection Hh as <-.
    destruct version;
      [ refine (proj1 (proj2 (@carousel_page _ P2 P4 snap)))
      | refine (proj1 (proj2 (proj2 (proj2 (@carousel_page _ P2 P4 snap))))) ].
  - injection Hh as <-.
    destruct version;
      [ refine (proj1 (proj2 (proj2 (proj2 (proj2 (@carousel_page _ P2 P4 snap))))))
      | refine (proj2 (proj2 (proj2 (proj2 (proj2 (@carousel_page _ P2 P4 snap)))))) ].
  - injection Hh as <-.
    destruct version;
      [ refine (proj1 (@capture_page _ okAsset okUser
                         P1 P2 P3 P5 P6 P8 P9 P12 P13 url snap Hsel Huser _ _ _ _))
      | refine (proj2 (@capture_page _ okAsset okUser
                         P1 P2 P3 P5 P6 P8 P9 P12 P13 url snap Hsel Huser _ _ _ _)) ].
  - injection Hh as <-.
    destruct version;
      [ refine (proj1 (@gallery_page _ okAsset okUser
                         P1 P2 P3 P4 P5 P6 P8 P9 P12 P13 url snap Hsel Huser _ _ _ _ _))
      | refine (proj2 (@gallery_page _ okAsset okUser
                         P1 P2 P3 P4 P5 P6 P8 P9 P12 P13 url snap Hsel Huser _ exif _ _ _)) ].
  - injection Hh as <-.
    destruct version;
      [ refine (proj1 (@drop_page _ okAsset okUser
                         P1 P2 P3 P4 P5 P6 P8 P9 P12 P13 url snap Hsel Huser _ _ _ _ _))
      | refine (proj2 (@drop_page _ okAsset okUser
                         P1 P2 P3 P4 P5 P6 P8 P9 P12 P13 url snap Hsel Huser _ exif position _ _)) ].
Qed.
End AtHome.

Lemma untouchedAbroad_refl owner b : untouchedAbroad owner b b.
Proof.
  repeat split.
  - induction (assets b) as [|a l IH]; constructor; [repeat split | exact IH].
  - induction (required_documents b) as [|r l IH]; constructor; [repeat split | exact IH].
Qed.

Lemma showsOwn_empty owner b d :
  user d = owner -> assetList d = [] -> selectedAsset d = None -> requiredDocs d = [] ->
  showsOwn owner b d.
Proof.
  intros E1 E2 E3 E4. unfold showsOwn. rewrite E1, E2, E3, E4.
  split; [reflexivity|]. split; [intros ? []|].
  split; [intros ? E; discriminate E | intros ? []].
Qed.

Lemma run_atHome owner b0 version url events :
  forall s s',
    atHome owner b0 (store s) (ui s) ->
    Beneficiary.run version url events s = Some s' ->
    atHome owner b0 (store s') (ui s').
Proof.
  induction events as [|e events IH]; intros s s' Hs Hrun; simpl in Hrun.
  - injection Hrun as <-. exact Hs.
  - unfold Beneficiary.step in Hrun.
    destruct (Beneficiary.handler version url (ui s) e) as [h|] eqn:Hh; [|discriminate].
    apply (IH (exec h s) s'); [|exact Hrun].
    apply (@handler_atHome owner b0 version url (ui s) e h (store s) Hs Hh s Hs).
Qed.

(** The mount effect reads the user by the phone number and the assets of
    that user; it writes nothing. *)
Lemma mounted_atHome version phone b outcomes time :
  let s0 := Beneficiary.mounted version phone b outcomes time in
  atHome (user (ui s0)) b (store s0) (ui s0)
  /\ (forall u, user (ui s0) = Some u ->
                In u (users b)
                /\ (User.phone u = phone \/ User.phone u = formattedPhone phone)).
Proof.
  intros s0. subst s0.
  assert (Hnone : atHome None b b Beneficiary.initial).
  { split; [apply untouchedAbroad_refl | apply showsOwn_empty; reflexivity]. }
  assert (Huser : forall u, atHome (Some u) b b (setUser (Some u) Beneficiary.initial)).
  { intros u. split; [apply untouchedAbroad_refl | apply showsOwn_empty; reflexivity]. }
  assert (Hassets : forall u,
             atHome (Some u) b b
               (setAssets (rows_or_empty (fst (Store.select_assets_of_user (User.id u) b)))
                  (setUser (Some u) Beneficiary.initial))).
  { intros u. apply atHome_assets_read; [reflexivity | apply Huser]. }
  assert (Hempty : forall u,
             atHome (Some u) b b (setAssets [] (setUser (Some u) Beneficiary.initial))).
  { intros u. split; [apply untouchedAbroad_refl | apply showsOwn_empty; reflexivity]. }
  assert (Hfound : forall u,
             filter (fun u0 => String.eqb (User.phone u0) phone
                               || String.eqb (User.phone u0) (formattedPhone phone))
               (users b) = [u] ->
             In u (users b)
             /\ (User.phone u = phone \/ User.phone u = formattedPhone phone)).
  { intros u Hf.
    assert (Hin : In u (filter (fun u0 => String.eqb (User.phone u0) phone
                                          || String.eqb (User.phone u0)
                                               (formattedPhone phone)) (users b)))
      by (rewrite Hf; left; reflexivity).
    apply filter_In in Hin. destruct Hin as [Hin Hp]. split; [exact Hin|].
    apply orb_prop in Hp. destruct Hp as [Hp|Hp]; apply String.eqb_eq in Hp; auto. }
  unfold Beneficiary.mounted, exec.
  destruct version;
    unfold StoreThenVerify.mount, VerifyThenStore.mount, try_catch, bind, remote,
      set_state, ret, Store.select_user_by_phone;
    cbn [store schedule clock ui fst snd];
    destruct (hd Done outcomes); cbn [store schedule clock ui fst snd];
    try (split; [exact Hnone | intros u E; discriminate E]);
    destruct (filter _ (users b)) as [|u [|u' l]] eqn:Hf;
    cbn [store schedule clock ui fst snd];
    try (split; [exact Hnone | intros u0 E; discriminate E]).
  all: destruct (negb (String.eqb (User.id u) EmptyString));
    cbn [store schedule clock ui fst snd];
    try (split; [apply Huser | intros u0 E; injection E as <-; apply Hfound; reflexivity]).
  all: destruct (hd Done (tl outcomes)); cbn [store schedule clock ui fst snd];
    try (split; [first [apply Hassets | apply Hempty | apply Huser]
                | intros u0 E; injection E as <-; apply Hfound; reflexivity]).
Qed.

Lemma Forall2_with_In A B (R : A -> B -> Prop) l l' :
  Forall2 R l l' -> Forall2 (fun x y => In x l /\ R x y) l l'.
Proof.
  intros H.
  assert (Hgen : forall L, (forall x, In x l -> In x L) ->
                           Forall2 (fun x y => In x L /\ R x y) l l').
  { induction H as [|a b l l' Hab _ IH]; intros L HL; constructor.
    - split; [apply HL; left; reflexivity | exact Hab].
    - apply IH. intros x Hx. apply HL. right. exact Hx. }
  apply Hgen. intros x Hx. exact Hx.
Qed.

Lemma Forall2_same A (l l' : list A) : Forall2 (fun x y => y = x) l l' -> l' = l.
Proof. induction 1 as [|a b l l' Hab _ IH]; [reflexivity | rewrite Hab, IH; reflexivity]. Qed.

Lemma Forall2_weaken A B (R R' : A -> B -> Prop) l l' :
  (forall x y, R x y -> R' x y) -> Forall2 R l l' -> Forall2 R' l l'.
Proof. intros HR H. induction H; constructor; auto. Qed.

Lemma NoDup_map_same A B (f : A -> B) l x y :
  NoDup (map f l) -> In x l -> In y l -> f x = f y -> x = y.
Proof.
  induction l as [|a l IH]; intros Hnd Hx Hy E; [contradiction|].
  simpl in Hnd. inversion Hnd as [|? ? Hnot Hnd']; subst.
  destruct Hx as [<-|Hx], Hy as [<-|Hy].
  - reflexivity.
  - contradiction Hnot. rewrite E. apply in_map, Hy.
  - contradiction Hnot. rewrite <- E. apply in_map, Hx.
  - apply IH; assumption.
Qed.

(** X23: a session of the beneficiary, in either version and whatever the
    store and the outside services answer, stays with the rows of the user
    who signed in: that user is the one row of [users] with the phone
    number; the page lists and selects only assets, and shows only required
    documents, whose ids are that user's; and in the store the rows of
    [assets] and [required_documents] keep their ids and owners, while a
    row whose id is none of the user's is exactly as it was when the page
    was mounted.  With no user found nothing is written to the two tables,
    and where the ids of [assets] are unique no asset of another user is
    changed. *)
Theorem beneficiary_session_stays_at_home :
  forall version url phone b outcomes time events s',
    Beneficiary.run version url events
      (Beneficiary.mounted version phone b outcomes time) = Some s' ->
    let owner := user (ui s') in
    untouchedAbroad owner b (store s')
    /\ showsOwn owner b (ui s')
    /\ (forall u, owner = Some u ->
                  In u (users b)
                  /\ (User.phone u = phone \/ User.phone u = formattedPhone phone))
    /\ (owner = None ->
        assets (store s') = assets b
        /\ required_documents (store s') = required_documents b)
    /\ (NoDup (map Asset.id (assets b)) ->
        forall u, owner = Some u ->
                  Forall2 (fun a a' => Asset.user_id a <> Some (User.id u) -> a' = a)
                    (assets b) (assets (store s'))).
Proof.
  intros version url phone b outcomes time events s' Hrun owner. subst owner.
  destruct (mounted_atHome version phone b outcomes time) as [Hhome Hwho].
  pose proof (@run_atHome _ _ _ _ _ _ _ Hhome Hrun) as [Hstore Hpage].
  assert (Huser : user (ui s')
                  = user (ui (Beneficiary.mounted version phone b outcomes time)))
    by (apply Hpage).
  rewrite Huser. split; [exact Hstore|]. split; [exact Hpage|]. split; [exact Hwho|].
  destruct Hstore as (Ha & Hd & _). split.
  - intros Hnone. rewrite Hnone in Ha, Hd. split.
    + apply Forall2_same. refine (@Forall2_weaken _ _ _ _ _ _ _ Ha).
      intros a a' (_ & _ & Hsame). apply Hsame.
      intros (u & a1 & E & _). discriminate E.
    + apply Forall2_same. refine (@Forall2_weaken _ _ _ _ _ _ _ Hd).
      intros r r' (_ & _ & Hsame). apply Hsame.
      intros (r1 & _ & _ & (u & a1 & E & _)). discriminate E.
  - intros Hnd u Hu. rewrite Hu in Ha.
    refine (@Forall2_weaken _ _ _ _ _ _ _ (@Forall2_with_In _ _ _ _ _ Ha)).
    intros a a' (Hin & _ & _ & Hsame) Hother. apply Hsame.
    intros (u1 & a1 & E & Hin1 & Hid & Hown). injection E as <-.
    apply Hother. rewrite <- Hown. f_equal.
    apply (@NoDup_map_same _ _ Asset.id _ _ _ Hnd Hin Hin1). symmetry. exact Hid.
Qed.

Lemma beneficiary_session_stays_at_home_witness :
  untouchedAbroad (user (ui ScenarioSession.final)) ScenarioSession.village
    (store ScenarioSession.final).
Proof.
  exact (proj1 (@beneficiary_session_stays_at_home Beneficiary.VerifyFirst Sample.url
                  "9876543210" ScenarioSession.village [] Sample.time
                  ScenarioSession.events ScenarioSession.final eq_refl)).
Defined.
